(** * Sensor calibration of the CSJBot firmware

    A shallow embedding of [docs/sensor_calibration.c] and
    [docs/sensor_calibration.h]: the calibration record, the seven
    per-sensor calibrators, the validator, the EEPROM persistence
    adapter, the calibration state machine and the drift monitor,
    followed by the properties of the design that hold of this code.

    Conventions.
    - [uint32_t], [uint16_t] and [uint8_t] values are [Z] with the
      wrap-around written out ([mod 2^32], [mod 2^16]).
    - [float] is IEEE-754 binary32 and [double] is binary64, both with
      round-to-nearest-even and every operation rounded to its own
      format; the operations are those of [SpecFloat], which compute.
    - The file-scope variables of the C file are the fields of [State];
      the collaborators declared at the end of the header (sensor reads,
      motion, encoders, clock, EEPROM) are the [Hardware] component.
    - [log_info], [log_warning] and [log_error] have no effect on the
      state and are left out. *)

From Stdlib Require Import ZArith List Bool Lia PeanoNat.
From Stdlib Require Import Floats.SpecFloat.
Import ListNotations.
Open Scope Z_scope.

(* ====================================================================== *)
(** ** Floating point *)
(* ====================================================================== *)

(** The C type [float]: a binary32 number, [prec = 24], [emax = 128]. *)
Definition float : Type := spec_float.

(** The C type [double]: a binary64 number, [prec = 53], [emax = 1024]. *)
Definition double : Type := spec_float.

Definition f32_add : float -> float -> float := SFadd 24 128.
Definition f32_sub : float -> float -> float := SFsub 24 128.
Definition f32_mul : float -> float -> float := SFmul 24 128.
Definition f32_div : float -> float -> float := SFdiv 24 128.
Definition f32_sqrt : float -> float := SFsqrt 24 128.
Definition f64_div : double -> double -> double := SFdiv 53 1024.

(** [x < y] and [x > y] of C; both are false when an operand is NaN. *)
Definition f_lt (x y : spec_float) : bool := SFltb x y.
Definition f_gt (x y : spec_float) : bool := SFltb y x.

(** Rounding a number to the format [(prec, emax)]: the conversions
    between [float] and [double]. Widening is exact. *)
Definition SFround (prec emax : Z) (x : spec_float) : spec_float :=
  match x with
  | S754_finite s m e => binary_normalize prec emax (cond_Zopp s (Zpos m)) e s
  | _ => x
  end.

Definition f64_of_f32 : float -> double := SFround 53 1024.
Definition f32_of_f64 : double -> float := SFround 24 128.

(** Conversion of an integer to [float] and to [double]. *)
Definition f32_of_Z (z : Z) : float := binary_normalize 24 128 z 0 false.
Definition f64_of_Z (z : Z) : double := binary_normalize 53 1024 z 0 false.

(** [fabs] of <math.h> takes and returns a [double]. *)
Definition fabs (x : double) : double := SFabs x.

(** The decimal literal [n/d] with suffix [f]: the binary32 number
    nearest to the quotient of two exactly representable integers. *)
Definition f32_lit (n d : Z) : float := f32_div (f32_of_Z n) (f32_of_Z d).

Definition f_0_0 : float := S754_zero false.
Definition f_1_0 : float := Eval vm_compute in f32_of_Z 1.
Definition f_2_0 : float := Eval vm_compute in f32_of_Z 2.
Definition f_3_0 : float := Eval vm_compute in f32_of_Z 3.
Definition f_5_0 : float := Eval vm_compute in f32_of_Z 5.
Definition f_10_0 : float := Eval vm_compute in f32_of_Z 10.
Definition f_12_0 : float := Eval vm_compute in f32_of_Z 12.
Definition f_25_0 : float := Eval vm_compute in f32_of_Z 25.
Definition f_100_0 : float := Eval vm_compute in f32_of_Z 100.
Definition f_240_0 : float := Eval vm_compute in f32_of_Z 240.
Definition f_320_0 : float := Eval vm_compute in f32_of_Z 320.
Definition f_500_0 : float := Eval vm_compute in f32_of_Z 500.
Definition f_1000_0 : float := Eval vm_compute in f32_of_Z 1000.
Definition f_2000_0 : float := Eval vm_compute in f32_of_Z 2000.
Definition f_32767_0 : float := Eval vm_compute in f32_of_Z 32767.
Definition f_m32768_0 : float := Eval vm_compute in f32_of_Z (-32768).
Definition f_0_05 : float := Eval vm_compute in f32_lit 5 100.
Definition f_0_1 : float := Eval vm_compute in f32_lit 1 10.
Definition f_0_15 : float := Eval vm_compute in f32_lit 15 100.
Definition f_0_2 : float := Eval vm_compute in f32_lit 2 10.
Definition f_0_5 : float := Eval vm_compute in f32_lit 5 10.
Definition f_9_81 : float := Eval vm_compute in f32_lit 981 100.

(** The object representation of a [float]: its 32 bits as a number.
    Every NaN is written with the bits of the quiet NaN. *)
Definition sign_bit (s : bool) : Z := if s then 2147483648 else 0.

Definition f32_bits (x : float) : Z :=
  match x with
  | S754_zero s => sign_bit s
  | S754_infinity s => sign_bit s + 2139095040
  | S754_nan => 2143289344
  | S754_finite s m e =>
      if Zpos m <? 8388608 then sign_bit s + Zpos m
      else sign_bit s + (e + 150) * 8388608 + (Zpos m - 8388608)
  end.

Definition f32_of_bits (w : Z) : float :=
  let s := 2147483648 <=? w in
  let ex := (w / 8388608) mod 256 in
  let mant := w mod 8388608 in
  if ex =? 0 then
    if mant =? 0 then S754_zero s else S754_finite s (Z.to_pos mant) (-149)
  else if ex =? 255 then
    if mant =? 0 then S754_infinity s else S754_nan
  else S754_finite s (Z.to_pos (mant + 8388608)) (ex - 150).

(** A well-formed [float]: zero, infinity, NaN, or a finite number whose
    mantissa and exponent are those of a binary32 number. *)
Definition f32_valid (x : float) : bool := valid_binary 24 128 x.

(* ====================================================================== *)
(** ** Enumerations and data structures (sensor_calibration.h) *)
(* ====================================================================== *)

(** [CalibrationStatus_t]; the record keeps it in a [uint8_t]. *)
Definition CALIB_INVALID : Z := 0.
Definition CALIB_VALID : Z := 1.
Definition CALIB_NEEDS_RECALIBRATION : Z := 2.

Inductive CalibrationState_t : Type :=
  | CALIB_IDLE
  | CALIB_IMU_INIT
  | CALIB_IMU_RUNNING
  | CALIB_MAG_INIT
  | CALIB_MAG_RUNNING
  | CALIB_ODOM_INIT
  | CALIB_ODOM_RUNNING
  | CALIB_LIDAR_INIT
  | CALIB_LIDAR_RUNNING
  | CALIB_CAMERA_INIT
  | CALIB_CAMERA_RUNNING
  | CALIB_BATTERY_INIT
  | CALIB_BATTERY_RUNNING
  | CALIB_TEMP_INIT
  | CALIB_TEMP_RUNNING
  | CALIB_VALIDATE
  | CALIB_COMPLETE
  | CALIB_ERROR.

Record IMUData_t : Type := {
  ax : float; ay : float; az : float;
  gx : float; gy : float; gz : float;
  imu_timestamp : Z
}.

Record MagData_t : Type := {
  mx : float; my : float; mz : float;
  mag_timestamp : Z
}.

Record BatteryData_t : Type := {
  voltage : float; current : float; percentage : float;
  battery_timestamp : Z
}.

Record TemperatureData_t : Type := {
  temperature : float;
  temp_timestamp : Z
}.

Record SensorCalibration_t : Type := {
  magic : Z;
  imu_bias_x : float;
  imu_bias_y : float;
  imu_bias_z : float;
  imu_scale_x : float;
  imu_scale_y : float;
  imu_scale_z : float;
  mag_offset_x : float;
  mag_offset_y : float;
  mag_offset_z : float;
  mag_scale_x : float;
  mag_scale_y : float;
  mag_scale_z : float;
  pulses_per_meter_left : float;
  pulses_per_meter_right : float;
  lidar_offset_distance : float;
  lidar_angle_offset : float;
  camera_focal_length : float;
  camera_principal_point_x : float;
  camera_principal_point_y : float;
  camera_distortion_k1 : float;
  camera_distortion_k2 : float;
  battery_voltage_offset : float;
  battery_voltage_scale : float;
  temp_offset : float;
  timestamp : Z;
  calibration_count : Z;
  status : Z
}.

(** Assignment to one field of the record, [calib.f = v]. *)
Definition set_imu_bias_x (v : float) (c : SensorCalibration_t) : SensorCalibration_t :=
  Build_SensorCalibration_t (magic c) v (imu_bias_y c) (imu_bias_z c)
    (imu_scale_x c) (imu_scale_y c) (imu_scale_z c) (mag_offset_x c)
    (mag_offset_y c) (mag_offset_z c) (mag_scale_x c) (mag_scale_y c)
    (mag_scale_z c) (pulses_per_meter_left c) (pulses_per_meter_right c)
    (lidar_offset_distance c) (lidar_angle_offset c) (camera_focal_length c)
    (camera_principal_point_x c) (camera_principal_point_y c)
    (camera_distortion_k1 c) (camera_distortion_k2 c)
    (battery_voltage_offset c) (battery_voltage_scale c) (temp_offset c)
    (timestamp c) (calibration_count c) (status c).

Definition set_imu_bias_y (v : float) (c : SensorCalibration_t) : SensorCalibration_t :=
  Build_SensorCalibration_t (magic c) (imu_bias_x c) v (imu_bias_z c)
    (imu_scale_x c) (imu_scale_y c) (imu_scale_z c) (mag_offset_x c)
    (mag_offset_y c) (mag_offset_z c) (mag_scale_x c) (mag_scale_y c)
    (mag_scale_z c) (pulses_per_meter_left c) (pulses_per_meter_right c)
    (lidar_offset_distance c) (lidar_angle_offset c) (camera_focal_length c)
    (camera_principal_point_x c) (camera_principal_point_y c)
    (camera_distortion_k1 c) (camera_distortion_k2 c)
    (battery_voltage_offset c) (battery_voltage_scale c) (temp_offset c)
    (timestamp c) (calibration_count c) (status c).

Definition set_imu_bias_z (v : float) (c : SensorCalibration_t) : SensorCalibration_t :=
  Build_SensorCalibration_t (magic c) (imu_bias_x c) (imu_bias_y c) v
    (imu_scale_x c) (imu_scale_y c) (imu_scale_z c) (mag_offset_x c)
    (mag_offset_y c) (mag_offset_z c) (mag_scale_x c) (mag_scale_y c)
    (mag_scale_z c) (pulses_per_meter_left c) (pulses_per_meter_right c)
    (lidar_offset_distance c) (lidar_angle_offset c) (camera_focal_length c)
    (camera_principal_point_x c) (camera_principal_point_y c)
    (camera_distortion_k1 c) (camera_distortion_k2 c)
    (battery_voltage_offset c) (battery_voltage_scale c) (temp_offset c)
    (timestamp c) (calibration_count c) (status c).

Definition set_imu_scale_x (v : float) (c : SensorCalibration_t) : SensorCalibration_t :=
  Build_SensorCalibration_t (magic c) (imu_bias_x c) (imu_bias_y c)
    (imu_bias_z c) v (imu_scale_y c) (imu_scale_z c) (mag_offset_x c)
    (mag_offset_y c) (mag_offset_z c) (mag_scale_x c) (mag_scale_y c)
    (mag_scale_z c) (pulses_per_meter_left c) (pulses_per_meter_right c)
    (lidar_offset_distance c) (lidar_angle_offset c) (camera_focal_length c)
    (camera_principal_point_x c) (camera_principal_point_y c)
    (camera_distortion_k1 c) (camera_distortion_k2 c)
    (battery_voltage_offset c) (battery_voltage_scale c) (temp_offset c)
    (timestamp c) (calibration_count c) (status c).

Definition set_imu_scale_y (v : float) (c : SensorCalibration_t) : SensorCalibration_t :=
  Build_SensorCalibration_t (magic c) (imu_bias_x c) (imu_bias_y c)
    (imu_bias_z c) (imu_scale_x c) v (imu_scale_z c) (mag_offset_x c)
    (mag_offset_y c) (mag_offset_z c) (mag_scale_x c) (mag_scale_y c)
    (mag_scale_z c) (pulses_per_meter_left c) (pulses_per_meter_right c)
    (lidar_offset_distance c) (lidar_angle_offset c) (camera_focal_length c)
    (camera_principal_point_x c) (camera_principal_point_y c)
    (camera_distortion_k1 c) (camera_distortion_k2 c)
    (battery_voltage_offset c) (battery_voltage_scale c) (temp_offset c)
    (timestamp c) (calibration_count c) (status c).

Definition set_imu_scale_z (v : float) (c : SensorCalibration_t) : SensorCalibration_t :=
  Build_SensorCalibration_t (magic c) (imu_bias_x c) (imu_bias_y c)
    (imu_bias_z c) (imu_scale_x c) (imu_scale_y c) v (mag_offset_x c)
    (mag_offset_y c) (mag_offset_z c) (mag_scale_x c) (mag_scale_y c)
    (mag_scale_z c) (pulses_per_meter_left c) (pulses_per_meter_right c)
    (lidar_offset_distance c) (lidar_angle_offset c) (camera_focal_length c)
    (camera_principal_point_x c) (camera_principal_point_y c)
    (camera_distortion_k1 c) (camera_distortion_k2 c)
    (battery_voltage_offset c) (battery_voltage_scale c) (temp_offset c)
    (timestamp c) (calibration_count c) (status c).

Definition set_mag_offset_x (v : float) (c : SensorCalibration_t) : SensorCalibration_t :=
  Build_SensorCalibration_t (magic c) (imu_bias_x c) (imu_bias_y c)
    (imu_bias_z c) (imu_scale_x c) (imu_scale_y c) (imu_scale_z c) v
    (mag_offset_y c) (mag_offset_z c) (mag_scale_x c) (mag_scale_y c)
    (mag_scale_z c) (pulses_per_meter_left c) (pulses_per_meter_right c)
    (lidar_offset_distance c) (lidar_angle_offset c) (camera_focal_length c)
    (camera_principal_point_x c) (camera_principal_point_y c)
    (camera_distortion_k1 c) (camera_distortion_k2 c)
    (battery_voltage_offset c) (battery_voltage_scale c) (temp_offset c)
    (timestamp c) (calibration_count c) (status c).

Definition set_mag_offset_y (v : float) (c : SensorCalibration_t) : SensorCalibration_t :=
  Build_SensorCalibration_t (magic c) (imu_bias_x c) (imu_bias_y c)
    (imu_bias_z c) (imu_scale_x c) (imu_scale_y c) (imu_scale_z c)
    (mag_offset_x c) v (mag_offset_z c) (mag_scale_x c) (mag_scale_y c)
    (mag_scale_z c) (pulses_per_meter_left c) (pulses_per_meter_right c)
    (lidar_offset_distance c) (lidar_angle_offset c) (camera_focal_length c)
    (camera_principal_point_x c) (camera_principal_point_y c)
    (camera_distortion_k1 c) (camera_distortion_k2 c)
    (battery_voltage_offset c) (battery_voltage_scale c) (temp_offset c)
    (timestamp c) (calibration_count c) (status c).

Definition set_mag_offset_z (v : float) (c : SensorCalibration_t) : SensorCalibration_t :=
  Build_SensorCalibration_t (magic c) (imu_bias_x c) (imu_bias_y c)
    (imu_bias_z c) (imu_scale_x c) (imu_scale_y c) (imu_scale_z c)
    (mag_offset_x c) (mag_offset_y c) v (mag_scale_x c) (mag_scale_y c)
    (mag_scale_z c) (pulses_per_meter_left c) (pulses_per_meter_right c)
    (lidar_offset_distance c) (lidar_angle_offset c) (camera_focal_length c)
    (camera_principal_point_x c) (camera_principal_point_y c)
    (camera_distortion_k1 c) (camera_distortion_k2 c)
    (battery_voltage_offset c) (battery_voltage_scale c) (temp_offset c)
    (timestamp c) (calibration_count c) (status c).

Definition set_mag_scale_x (v : float) (c : SensorCalibration_t) : SensorCalibration_t :=
  Build_SensorCalibration_t (magic c) (imu_bias_x c) (imu_bias_y c)
    (imu_bias_z c) (imu_scale_x c) (imu_scale_y c) (imu_scale_z c)
    (mag_offset_x c) (mag_offset_y c) (mag_offset_z c) v (mag_scale_y c)
    (mag_scale_z c) (pulses_per_meter_left c) (pulses_per_meter_right c)
    (lidar_offset_distance c) (lidar_angle_offset c) (camera_focal_length c)
    (camera_principal_point_x c) (camera_principal_point_y c)
    (camera_distortion_k1 c) (camera_distortion_k2 c)
    (battery_voltage_offset c) (battery_voltage_scale c) (temp_offset c)
    (timestamp c) (calibration_count c) (status c).

Definition set_mag_scale_y (v : float) (c : SensorCalibration_t) : SensorCalibration_t :=
  Build_SensorCalibration_t (magic c) (imu_bias_x c) (imu_bias_y c)
    (imu_bias_z c) (imu_scale_x c) (imu_scale_y c) (imu_scale_z c)
    (mag_offset_x c) (mag_offset_y c) (mag_offset_z c) (mag_scale_x c) v
    (mag_scale_z c) (pulses_per_meter_left c) (pulses_per_meter_right c)
    (lidar_offset_distance c) (lidar_angle_offset c) (camera_focal_length c)
    (camera_principal_point_x c) (camera_principal_point_y c)
    (camera_distortion_k1 c) (camera_distortion_k2 c)
    (battery_voltage_offset c) (battery_voltage_scale c) (temp_offset c)
    (timestamp c) (calibration_count c) (status c).

Definition set_mag_scale_z (v : float) (c : SensorCalibration_t) : SensorCalibration_t :=
  Build_SensorCalibration_t (magic c) (imu_bias_x c) (imu_bias_y c)
    (imu_bias_z c) (imu_scale_x c) (imu_scale_y c) (imu_scale_z c)
    (mag_offset_x c) (mag_offset_y c) (mag_offset_z c) (mag_scale_x c)
    (mag_scale_y c) v (pulses_per_meter_left c) (pulses_per_meter_right c)
    (lidar_offset_distance c) (lidar_angle_offset c) (camera_focal_length c)
    (camera_principal_point_x c) (camera_principal_point_y c)
    (camera_distortion_k1 c) (camera_distortion_k2 c)
    (battery_voltage_offset c) (battery_voltage_scale c) (temp_offset c)
    (timestamp c) (calibration_count c) (status c).

Definition set_pulses_per_meter_left (v : float) (c : SensorCalibration_t) : SensorCalibration_t :=
  Build_SensorCalibration_t (magic c) (imu_bias_x c) (imu_bias_y c)
    (imu_bias_z c) (imu_scale_x c) (imu_scale_y c) (imu_scale_z c)
    (mag_offset_x c) (mag_offset_y c) (mag_offset_z c) (mag_scale_x c)
    (mag_scale_y c) (mag_scale_z c) v (pulses_per_meter_right c)
    (lidar_offset_distance c) (lidar_angle_offset c) (camera_focal_length c)
    (camera_principal_point_x c) (camera_principal_point_y c)
    (camera_distortion_k1 c) (camera_distortion_k2 c)
    (battery_voltage_offset c) (battery_voltage_scale c) (temp_offset c)
    (timestamp c) (calibration_count c) (status c).

Definition set_pulses_per_meter_right (v : float) (c : SensorCalibration_t) : SensorCalibration_t :=
  Build_SensorCalibration_t (magic c) (imu_bias_x c) (imu_bias_y c)
    (imu_bias_z c) (imu_scale_x c) (imu_scale_y c) (imu_scale_z c)
    (mag_offset_x c) (mag_offset_y c) (mag_offset_z c) (mag_scale_x c)
    (mag_scale_y c) (mag_scale_z c) (pulses_per_meter_left c) v
    (lidar_offset_distance c) (lidar_angle_offset c) (camera_focal_length c)
    (camera_principal_point_x c) (camera_principal_point_y c)
    (camera_distortion_k1 c) (camera_distortion_k2 c)
    (battery_voltage_offset c) (battery_voltage_scale c) (temp_offset c)
    (timestamp c) (calibration_count c) (status c).

Definition set_lidar_offset_distance (v : float) (c : SensorCalibration_t) : SensorCalibration_t :=
  Build_SensorCalibration_t (magic c) (imu_bias_x c) (imu_bias_y c)
    (imu_bias_z c) (imu_scale_x c) (imu_scale_y c) (imu_scale_z c)
    (mag_offset_x c) (mag_offset_y c) (mag_offset_z c) (mag_scale_x c)
    (mag_scale_y c) (mag_scale_z c) (pulses_per_meter_left c)
    (pulses_per_meter_right c) v (lidar_angle_offset c)
    (camera_focal_length c) (camera_principal_point_x c)
    (camera_principal_point_y c) (camera_distortion_k1 c)
    (camera_distortion_k2 c) (battery_voltage_offset c)
    (battery_voltage_scale c) (temp_offset c) (timestamp c)
    (calibration_count c) (status c).

Definition set_camera_focal_length (v : float) (c : SensorCalibration_t) : SensorCalibration_t :=
  Build_SensorCalibration_t (magic c) (imu_bias_x c) (imu_bias_y c)
    (imu_bias_z c) (imu_scale_x c) (imu_scale_y c) (imu_scale_z c)
    (mag_offset_x c) (mag_offset_y c) (mag_offset_z c) (mag_scale_x c)
    (mag_scale_y c) (mag_scale_z c) (pulses_per_meter_left c)
    (pulses_per_meter_right c) (lidar_offset_distance c)
    (lidar_angle_offset c) v (camera_principal_point_x c)
    (camera_principal_point_y c) (camera_distortion_k1 c)
    (camera_distortion_k2 c) (battery_voltage_offset c)
    (battery_voltage_scale c) (temp_offset c) (timestamp c)
    (calibration_count c) (status c).

Definition set_camera_principal_point_x (v : float) (c : SensorCalibration_t) : SensorCalibration_t :=
  Build_SensorCalibration_t (magic c) (imu_bias_x c) (imu_bias_y c)
    (imu_bias_z c) (imu_scale_x c) (imu_scale_y c) (imu_scale_z c)
    (mag_offset_x c) (mag_offset_y c) (mag_offset_z c) (mag_scale_x c)
    (mag_scale_y c) (mag_scale_z c) (pulses_per_meter_left c)
    (pulses_per_meter_right c) (lidar_offset_distance c)
    (lidar_angle_offset c) (camera_focal_length c) v
    (camera_principal_point_y c) (camera_distortion_k1 c)
    (camera_distortion_k2 c) (battery_voltage_offset c)
    (battery_voltage_scale c) (temp_offset c) (timestamp c)
    (calibration_count c) (status c).

Definition set_camera_principal_point_y (v : float) (c : SensorCalibration_t) : SensorCalibration_t :=
  Build_SensorCalibration_t (magic c) (imu_bias_x c) (imu_bias_y c)
    (imu_bias_z c) (imu_scale_x c) (imu_scale_y c) (imu_scale_z c)
    (mag_offset_x c) (mag_offset_y c) (mag_offset_z c) (mag_scale_x c)
    (mag_scale_y c) (mag_scale_z c) (pulses_per_meter_left c)
    (pulses_per_meter_right c) (lidar_offset_distance c)
    (lidar_angle_offset c) (camera_focal_length c)
    (camera_principal_point_x c) v (camera_distortion_k1 c)
    (camera_distortion_k2 c) (battery_voltage_offset c)
    (battery_voltage_scale c) (temp_offset c) (timestamp c)
    (calibration_count c) (status c).

Definition set_camera_distortion_k1 (v : float) (c : SensorCalibration_t) : SensorCalibration_t :=
  Build_SensorCalibration_t (magic c) (imu_bias_x c) (imu_bias_y c)
    (imu_bias_z c) (imu_scale_x c) (imu_scale_y c) (imu_scale_z c)
    (mag_offset_x c) (mag_offset_y c) (mag_offset_z c) (mag_scale_x c)
    (mag_scale_y c) (mag_scale_z c) (pulses_per_meter_left c)
    (pulses_per_meter_right c) (lidar_offset_distance c)
    (lidar_angle_offset c) (camera_focal_length c)
    (camera_principal_point_x c) (camera_principal_point_y c) v
    (camera_distortion_k2 c) (battery_voltage_offset c)
    (battery_voltage_scale c) (temp_offset c) (timestamp c)
    (calibration_count c) (status c).

Definition set_camera_distortion_k2 (v : float) (c : SensorCalibration_t) : SensorCalibration_t :=
  Build_SensorCalibration_t (magic c) (imu_bias_x c) (imu_bias_y c)
    (imu_bias_z c) (imu_scale_x c) (imu_scale_y c) (imu_scale_z c)
    (mag_offset_x c) (mag_offset_y c) (mag_offset_z c) (mag_scale_x c)
    (mag_scale_y c) (mag_scale_z c) (pulses_per_meter_left c)
    (pulses_per_meter_right c) (lidar_offset_distance c)
    (lidar_angle_offset c) (camera_focal_length c)
    (camera_principal_point_x c) (camera_principal_point_y c)
    (camera_distortion_k1 c) v (battery_voltage_offset c)
    (battery_voltage_scale c) (temp_offset c) (timestamp c)
    (calibration_count c) (status c).

Definition set_battery_voltage_offset (v : float) (c : SensorCalibration_t) : SensorCalibration_t :=
  Build_SensorCalibration_t (magic c) (imu_bias_x c) (imu_bias_y c)
    (imu_bias_z c) (imu_scale_x c) (imu_scale_y c) (imu_scale_z c)
    (mag_offset_x c) (mag_offset_y c) (mag_offset_z c) (mag_scale_x c)
    (mag_scale_y c) (mag_scale_z c) (pulses_per_meter_left c)
    (pulses_per_meter_right c) (lidar_offset_distance c)
    (lidar_angle_offset c) (camera_focal_length c)
    (camera_principal_point_x c) (camera_principal_point_y c)
    (camera_distortion_k1 c) (camera_distortion_k2 c) v
    (battery_voltage_scale c) (temp_offset c) (timestamp c)
    (calibration_count c) (status c).

Definition set_battery_voltage_scale (v : float) (c : SensorCalibration_t) : SensorCalibration_t :=
  Build_SensorCalibration_t (magic c) (imu_bias_x c) (imu_bias_y c)
    (imu_bias_z c) (imu_scale_x c) (imu_scale_y c) (imu_scale_z c)
    (mag_offset_x c) (mag_offset_y c) (mag_offset_z c) (mag_scale_x c)
    (mag_scale_y c) (mag_scale_z c) (pulses_per_meter_left c)
    (pulses_per_meter_right c) (lidar_offset_distance c)
    (lidar_angle_offset c) (camera_focal_length c)
    (camera_principal_point_x c) (camera_principal_point_y c)
    (camera_distortion_k1 c) (camera_distortion_k2 c)
    (battery_voltage_offset c) v (temp_offset c) (timestamp c)
    (calibration_count c) (status c).

Definition set_temp_offset (v : float) (c : SensorCalibration_t) : SensorCalibration_t :=
  Build_SensorCalibration_t (magic c) (imu_bias_x c) (imu_bias_y c)
    (imu_bias_z c) (imu_scale_x c) (imu_scale_y c) (imu_scale_z c)
    (mag_offset_x c) (mag_offset_y c) (mag_offset_z c) (mag_scale_x c)
    (mag_scale_y c) (mag_scale_z c) (pulses_per_meter_left c)
    (pulses_per_meter_right c) (lidar_offset_distance c)
    (lidar_angle_offset c) (camera_focal_length c)
    (camera_principal_point_x c) (camera_principal_point_y c)
    (camera_distortion_k1 c) (camera_distortion_k2 c)
    (battery_voltage_offset c) (battery_voltage_scale c) v (timestamp c)
    (calibration_count c) (status c).

Definition set_timestamp (v : Z) (c : SensorCalibration_t) : SensorCalibration_t :=
  Build_SensorCalibration_t (magic c) (imu_bias_x c) (imu_bias_y c)
    (imu_bias_z c) (imu_scale_x c) (imu_scale_y c) (imu_scale_z c)
    (mag_offset_x c) (mag_offset_y c) (mag_offset_z c) (mag_scale_x c)
    (mag_scale_y c) (mag_scale_z c) (pulses_per_meter_left c)
    (pulses_per_meter_right c) (lidar_offset_distance c)
    (lidar_angle_offset c) (camera_focal_length c)
    (camera_principal_point_x c) (camera_principal_point_y c)
    (camera_distortion_k1 c) (camera_distortion_k2 c)
    (battery_voltage_offset c) (battery_voltage_scale c) (temp_offset c) v
    (calibration_count c) (status c).

Definition set_calibration_count (v : Z) (c : SensorCalibration_t) : SensorCalibration_t :=
  Build_SensorCalibration_t (magic c) (imu_bias_x c) (imu_bias_y c)
    (imu_bias_z c) (imu_scale_x c) (imu_scale_y c) (imu_scale_z c)
    (mag_offset_x c) (mag_offset_y c) (mag_offset_z c) (mag_scale_x c)
    (mag_scale_y c) (mag_scale_z c) (pulses_per_meter_left c)
    (pulses_per_meter_right c) (lidar_offset_distance c)
    (lidar_angle_offset c) (camera_focal_length c)
    (camera_principal_point_x c) (camera_principal_point_y c)
    (camera_distortion_k1 c) (camera_distortion_k2 c)
    (battery_voltage_offset c) (battery_voltage_scale c) (temp_offset c)
    (timestamp c) v (status c).

Definition set_status (v : Z) (c : SensorCalibration_t) : SensorCalibration_t :=
  Build_SensorCalibration_t (magic c) (imu_bias_x c) (imu_bias_y c)
    (imu_bias_z c) (imu_scale_x c) (imu_scale_y c) (imu_scale_z c)
    (mag_offset_x c) (mag_offset_y c) (mag_offset_z c) (mag_scale_x c)
    (mag_scale_y c) (mag_scale_z c) (pulses_per_meter_left c)
    (pulses_per_meter_right c) (lidar_offset_distance c)
    (lidar_angle_offset c) (camera_focal_length c)
    (camera_principal_point_x c) (camera_principal_point_y c)
    (camera_distortion_k1 c) (camera_distortion_k2 c)
    (battery_voltage_offset c) (battery_voltage_scale c) (temp_offset c)
    (timestamp c) (calibration_count c) v.

(* ====================================================================== *)
(** ** The collaborators and the file-scope variables *)
(* ====================================================================== *)

(** What the sensors and the motion primitive will answer, call by call.
    A read that fails answers [None]; the ranging read answers a
    negative distance; a move answers its verdict and the pulses each
    wheel turned. *)
Record SensorFeed : Type := {
  feed_imu : nat -> option IMUData_t;
  feed_mag : nat -> option MagData_t;
  feed_lidar : nat -> float;
  feed_battery : nat -> option BatteryData_t;
  feed_temp : nat -> option TemperatureData_t;
  feed_move : nat -> bool * Z * Z
}.

Record Hardware : Type := {
  hw_feed : SensorFeed;
  hw_now : Z;
  hw_eeprom : Z -> Z;
  hw_eeprom_writes : nat;
  hw_imu_reads : nat;
  hw_mag_reads : nat;
  hw_lidar_reads : nat;
  hw_battery_reads : nat;
  hw_temp_reads : nat;
  hw_moves : nat;
  hw_enc_left : Z;
  hw_enc_right : Z
}.

(** The variables of sensor_calibration.c: [calib], [calib_state],
    [calibration_requested], the function-local statics
    [phase_start_time] and [last_check], and the sample structures the
    reads fill. ([calib_start_time], [encoder_data] and [lidar_data] are
    declared and never used.) *)
Record State : Type := {
  calib : SensorCalibration_t;
  calib_state : CalibrationState_t;
  calibration_requested : bool;
  phase_start_time : Z;
  last_check : Z;
  imu_data : IMUData_t;
  mag_data : MagData_t;
  battery_data : BatteryData_t;
  temp_data : TemperatureData_t;
  hw : Hardware
}.

Definition set_hw_now (v : Z) (h : Hardware) : Hardware :=
  Build_Hardware (hw_feed h) v (hw_eeprom h) (hw_eeprom_writes h)
    (hw_imu_reads h) (hw_mag_reads h) (hw_lidar_reads h) (hw_battery_reads h)
    (hw_temp_reads h) (hw_moves h) (hw_enc_left h) (hw_enc_right h).

Definition set_hw_eeprom (v : Z -> Z) (h : Hardware) : Hardware :=
  Build_Hardware (hw_feed h) (hw_now h) v (hw_eeprom_writes h)
    (hw_imu_reads h) (hw_mag_reads h) (hw_lidar_reads h) (hw_battery_reads h)
    (hw_temp_reads h) (hw_moves h) (hw_enc_left h) (hw_enc_right h).

Definition set_hw_eeprom_writes (v : nat) (h : Hardware) : Hardware :=
  Build_Hardware (hw_feed h) (hw_now h) (hw_eeprom h) v (hw_imu_reads h)
    (hw_mag_reads h) (hw_lidar_reads h) (hw_battery_reads h) (hw_temp_reads h)
    (hw_moves h) (hw_enc_left h) (hw_enc_right h).

Definition set_hw_imu_reads (v : nat) (h : Hardware) : Hardware :=
  Build_Hardware (hw_feed h) (hw_now h) (hw_eeprom h) (hw_eeprom_writes h) v
    (hw_mag_reads h) (hw_lidar_reads h) (hw_battery_reads h) (hw_temp_reads h)
    (hw_moves h) (hw_enc_left h) (hw_enc_right h).

Definition set_hw_mag_reads (v : nat) (h : Hardware) : Hardware :=
  Build_Hardware (hw_feed h) (hw_now h) (hw_eeprom h) (hw_eeprom_writes h)
    (hw_imu_reads h) v (hw_lidar_reads h) (hw_battery_reads h)
    (hw_temp_reads h) (hw_moves h) (hw_enc_left h) (hw_enc_right h).

Definition set_hw_lidar_reads (v : nat) (h : Hardware) : Hardware :=
  Build_Hardware (hw_feed h) (hw_now h) (hw_eeprom h) (hw_eeprom_writes h)
    (hw_imu_reads h) (hw_mag_reads h) v (hw_battery_reads h) (hw_temp_reads h)
    (hw_moves h) (hw_enc_left h) (hw_enc_right h).

Definition set_hw_battery_reads (v : nat) (h : Hardware) : Hardware :=
  Build_Hardware (hw_feed h) (hw_now h) (hw_eeprom h) (hw_eeprom_writes h)
    (hw_imu_reads h) (hw_mag_reads h) (hw_lidar_reads h) v (hw_temp_reads h)
    (hw_moves h) (hw_enc_left h) (hw_enc_right h).

Definition set_hw_temp_reads (v : nat) (h : Hardware) : Hardware :=
  Build_Hardware (hw_feed h) (hw_now h) (hw_eeprom h) (hw_eeprom_writes h)
    (hw_imu_reads h) (hw_mag_reads h) (hw_lidar_reads h) (hw_battery_reads h)
    v (hw_moves h) (hw_enc_left h) (hw_enc_right h).

Definition set_hw_moves (v : nat) (h : Hardware) : Hardware :=
  Build_Hardware (hw_feed h) (hw_now h) (hw_eeprom h) (hw_eeprom_writes h)
    (hw_imu_reads h) (hw_mag_reads h) (hw_lidar_reads h) (hw_battery_reads h)
    (hw_temp_reads h) v (hw_enc_left h) (hw_enc_right h).

Definition set_hw_enc_left (v : Z) (h : Hardware) : Hardware :=
  Build_Hardware (hw_feed h) (hw_now h) (hw_eeprom h) (hw_eeprom_writes h)
    (hw_imu_reads h) (hw_mag_reads h) (hw_lidar_reads h) (hw_battery_reads h)
    (hw_temp_reads h) (hw_moves h) v (hw_enc_right h).

Definition set_hw_enc_right (v : Z) (h : Hardware) : Hardware :=
  Build_Hardware (hw_feed h) (hw_now h) (hw_eeprom h) (hw_eeprom_writes h)
    (hw_imu_reads h) (hw_mag_reads h) (hw_lidar_reads h) (hw_battery_reads h)
    (hw_temp_reads h) (hw_moves h) (hw_enc_left h) v.

Definition set_calib (v : SensorCalibration_t) (s : State) : State :=
  Build_State v (calib_state s) (calibration_requested s) (phase_start_time s)
    (last_check s) (imu_data s) (mag_data s) (battery_data s) (temp_data s)
    (hw s).

Definition set_calib_state (v : CalibrationState_t) (s : State) : State :=
  Build_State (calib s) v (calibration_requested s) (phase_start_time s)
    (last_check s) (imu_data s) (mag_data s) (battery_data s) (temp_data s)
    (hw s).

Definition set_calibration_requested (v : bool) (s : State) : State :=
  Build_State (calib s) (calib_state s) v (phase_start_time s) (last_check s)
    (imu_data s) (mag_data s) (battery_data s) (temp_data s) (hw s).

Definition set_phase_start_time (v : Z) (s : State) : State :=
  Build_State (calib s) (calib_state s) (calibration_requested s) v
    (last_check s) (imu_data s) (mag_data s) (battery_data s) (temp_data s)
    (hw s).

Definition set_last_check (v : Z) (s : State) : State :=
  Build_State (calib s) (calib_state s) (calibration_requested s)
    (phase_start_time s) v (imu_data s) (mag_data s) (battery_data s)
    (temp_data s) (hw s).

Definition set_imu_data (v : IMUData_t) (s : State) : State :=
  Build_State (calib s) (calib_state s) (calibration_requested s)
    (phase_start_time s) (last_check s) v (mag_data s) (battery_data s)
    (temp_data s) (hw s).

Definition set_mag_data (v : MagData_t) (s : State) : State :=
  Build_State (calib s) (calib_state s) (calibration_requested s)
    (phase_start_time s) (last_check s) (imu_data s) v (battery_data s)
    (temp_data s) (hw s).

Definition set_battery_data (v : BatteryData_t) (s : State) : State :=
  Build_State (calib s) (calib_state s) (calibration_requested s)
    (phase_start_time s) (last_check s) (imu_data s) (mag_data s) v
    (temp_data s) (hw s).

Definition set_temp_data (v : TemperatureData_t) (s : State) : State :=
  Build_State (calib s) (calib_state s) (calibration_requested s)
    (phase_start_time s) (last_check s) (imu_data s) (mag_data s)
    (battery_data s) v (hw s).

Definition set_hw (v : Hardware) (s : State) : State :=
  Build_State (calib s) (calib_state s) (calibration_requested s)
    (phase_start_time s) (last_check s) (imu_data s) (mag_data s)
    (battery_data s) (temp_data s) v.

(* ====================================================================== *)
(** ** Constants (sensor_calibration.c) *)
(* ====================================================================== *)

Definition UINT32_MOD : Z := 4294967296.
Definition UINT16_MOD : Z := 65536.

Definition CALIB_EEPROM_ADDR : Z := 4096.        (* 0x1000 *)
Definition CALIB_MAGIC : Z := 3405691582.        (* 0xCAFEBABE *)
Definition IMU_SAMPLES : nat := 100.
Definition MAG_ROTATION_TIME_MS : Z := 30000.
Definition LIDAR_SAMPLES : nat := 50.
Definition ODOM_TEST_DISTANCE_MM : Z := 1000.

(* ====================================================================== *)
(** ** The collaborators *)
(* ====================================================================== *)

(** Modelled from the spec: the monotonic millisecond clock reader; the
    clock is a [uint32_t]. *)
Definition get_time_ms (s : State) : Z := hw_now (hw s).

(** Modelled from the spec: the blocking delay; the clock has advanced
    by [ms] when it returns, and nothing else lets time pass. *)
Definition delay_ms (ms : Z) (s : State) : State :=
  set_hw (set_hw_now ((hw_now (hw s) + ms) mod UINT32_MOD) (hw s)) s.

(** Modelled from the spec: a single-shot inertial read, a success flag
    and, on success, the filled sample structure. *)
Definition read_imu_raw (s : State) : bool * State :=
  let h := hw s in
  let s' := set_hw (set_hw_imu_reads (S (hw_imu_reads h)) h) s in
  match feed_imu (hw_feed h) (hw_imu_reads h) with
  | Some d => (true, set_imu_data d s')
  | None => (false, s')
  end.

(** Modelled from the spec: a single-shot magnetic read. *)
Definition read_magnetometer_raw (s : State) : bool * State :=
  let h := hw s in
  let s' := set_hw (set_hw_mag_reads (S (hw_mag_reads h)) h) s in
  match feed_mag (hw_feed h) (hw_mag_reads h) with
  | Some d => (true, set_mag_data d s')
  | None => (false, s')
  end.

(** Modelled from the spec: a single-shot battery read. *)
Definition read_battery_data (s : State) : bool * State :=
  let h := hw s in
  let s' := set_hw (set_hw_battery_reads (S (hw_battery_reads h)) h) s in
  match feed_battery (hw_feed h) (hw_battery_reads h) with
  | Some d => (true, set_battery_data d s')
  | None => (false, s')
  end.

(** Modelled from the spec: a single-shot temperature read. *)
Definition read_temperature_data (s : State) : bool * State :=
  let h := hw s in
  let s' := set_hw (set_hw_temp_reads (S (hw_temp_reads h)) h) s in
  match feed_temp (hw_feed h) (hw_temp_reads h) with
  | Some d => (true, set_temp_data d s')
  | None => (false, s')
  end.

(** Modelled from the spec: the ranging read, a distance in meters, a
    negative value on failure. *)
Definition read_lidar_distance (s : State) : float * State :=
  let h := hw s in
  (feed_lidar (hw_feed h) (hw_lidar_reads h),
   set_hw (set_hw_lidar_reads (S (hw_lidar_reads h)) h) s).

(** Modelled from the spec: the encoder counters, [uint32_t]. *)
Definition reset_encoder_counters (s : State) : State :=
  set_hw (set_hw_enc_left 0 (set_hw_enc_right 0 (hw s))) s.

Definition get_left_encoder_count (s : State) : Z := hw_enc_left (hw s).
Definition get_right_encoder_count (s : State) : Z := hw_enc_right (hw s).

(** Modelled from the spec: the blocking move; the wheels turn the
    encoders while it runs and it returns its verdict. *)
Definition move_forward_distance (distance_mm : Z) (s : State) : bool * State :=
  let h := hw s in
  let '(ok, dl, dr) := feed_move (hw_feed h) (hw_moves h) in
  (ok,
   set_hw (set_hw_moves (S (hw_moves h))
            (set_hw_enc_left ((hw_enc_left h + dl) mod UINT32_MOD)
              (set_hw_enc_right ((hw_enc_right h + dr) mod UINT32_MOD) h))) s).

(** Modelled from the spec: the persistent byte-range store, written and
    read by address. *)
Fixpoint store_bytes (addr : Z) (data : list Z) (mem : Z -> Z) : Z -> Z :=
  match data with
  | [] => mem
  | b :: rest =>
      store_bytes (addr + 1) rest (fun a => if a =? addr then b else mem a)
  end.

Definition load_bytes (addr : Z) (len : nat) (mem : Z -> Z) : list Z :=
  map (fun i => mem (addr + Z.of_nat i)) (seq 0 len).

Definition eeprom_write (addr : Z) (data : list Z) (s : State) : State :=
  let h := hw s in
  set_hw (set_hw_eeprom_writes (S (hw_eeprom_writes h))
           (set_hw_eeprom (store_bytes addr data (hw_eeprom h)) h)) s.

Definition eeprom_read (addr : Z) (len : nat) (s : State) : list Z :=
  load_bytes addr len (hw_eeprom (hw s)).

(* ====================================================================== *)
(** ** The object representation of the calibration record *)
(* ====================================================================== *)

(** [(const uint8_t * )calib]: the fields in declaration order, each
    little-endian, and one byte of padding after [status]. *)
Definition le_bytes2 (w : Z) : list Z := [w mod 256; (w / 256) mod 256].

Definition le_bytes4 (w : Z) : list Z :=
  [w mod 256; (w / 256) mod 256; (w / 65536) mod 256; (w / 16777216) mod 256].

Definition bytes_of_calib (c : SensorCalibration_t) : list Z :=
  le_bytes4 (magic c)
  ++ le_bytes4 (f32_bits (imu_bias_x c))
  ++ le_bytes4 (f32_bits (imu_bias_y c))
  ++ le_bytes4 (f32_bits (imu_bias_z c))
  ++ le_bytes4 (f32_bits (imu_scale_x c))
  ++ le_bytes4 (f32_bits (imu_scale_y c))
  ++ le_bytes4 (f32_bits (imu_scale_z c))
  ++ le_bytes4 (f32_bits (mag_offset_x c))
  ++ le_bytes4 (f32_bits (mag_offset_y c))
  ++ le_bytes4 (f32_bits (mag_offset_z c))
  ++ le_bytes4 (f32_bits (mag_scale_x c))
  ++ le_bytes4 (f32_bits (mag_scale_y c))
  ++ le_bytes4 (f32_bits (mag_scale_z c))
  ++ le_bytes4 (f32_bits (pulses_per_meter_left c))
  ++ le_bytes4 (f32_bits (pulses_per_meter_right c))
  ++ le_bytes4 (f32_bits (lidar_offset_distance c))
  ++ le_bytes4 (f32_bits (lidar_angle_offset c))
  ++ le_bytes4 (f32_bits (camera_focal_length c))
  ++ le_bytes4 (f32_bits (camera_principal_point_x c))
  ++ le_bytes4 (f32_bits (camera_principal_point_y c))
  ++ le_bytes4 (f32_bits (camera_distortion_k1 c))
  ++ le_bytes4 (f32_bits (camera_distortion_k2 c))
  ++ le_bytes4 (f32_bits (battery_voltage_offset c))
  ++ le_bytes4 (f32_bits (battery_voltage_scale c))
  ++ le_bytes4 (f32_bits (temp_offset c))
  ++ le_bytes4 (timestamp c)
  ++ le_bytes2 (calibration_count c)
  ++ [status c mod 256; 0].

(** [sizeof(SensorCalibration_t)] *)
Definition CALIB_EEPROM_SIZE : nat := 108.

Definition get_u8 (l : list Z) : Z * list Z :=
  match l with
  | b :: rest => (b, rest)
  | [] => (0, [])
  end.

Definition get_u16 (l : list Z) : Z * list Z :=
  let (b0, l0) := get_u8 l in
  let (b1, l1) := get_u8 l0 in
  (b0 + 256 * b1, l1).

Definition get_u32 (l : list Z) : Z * list Z :=
  let (lo, l0) := get_u16 l in
  let (hi, l1) := get_u16 l0 in
  (lo + 65536 * hi, l1).

Definition get_f32 (l : list Z) : float * list Z :=
  let (w, l0) := get_u32 l in (f32_of_bits w, l0).

(** [(uint8_t * )calib] filled with [CALIB_EEPROM_SIZE] bytes. *)
Definition calib_of_bytes (l : list Z) : SensorCalibration_t :=
  let (f_magic, l) := get_u32 l in
  let (f_imu_bias_x, l) := get_f32 l in
  let (f_imu_bias_y, l) := get_f32 l in
  let (f_imu_bias_z, l) := get_f32 l in
  let (f_imu_scale_x, l) := get_f32 l in
  let (f_imu_scale_y, l) := get_f32 l in
  let (f_imu_scale_z, l) := get_f32 l in
  let (f_mag_offset_x, l) := get_f32 l in
  let (f_mag_offset_y, l) := get_f32 l in
  let (f_mag_offset_z, l) := get_f32 l in
  let (f_mag_scale_x, l) := get_f32 l in
  let (f_mag_scale_y, l) := get_f32 l in
  let (f_mag_scale_z, l) := get_f32 l in
  let (f_pulses_per_meter_left, l) := get_f32 l in
  let (f_pulses_per_meter_right, l) := get_f32 l in
  let (f_lidar_offset_distance, l) := get_f32 l in
  let (f_lidar_angle_offset, l) := get_f32 l in
  let (f_camera_focal_length, l) := get_f32 l in
  let (f_camera_principal_point_x, l) := get_f32 l in
  let (f_camera_principal_point_y, l) := get_f32 l in
  let (f_camera_distortion_k1, l) := get_f32 l in
  let (f_camera_distortion_k2, l) := get_f32 l in
  let (f_battery_voltage_offset, l) := get_f32 l in
  let (f_battery_voltage_scale, l) := get_f32 l in
  let (f_temp_offset, l) := get_f32 l in
  let (f_timestamp, l) := get_u32 l in
  let (f_calibration_count, l) := get_u16 l in
  let (f_status, l) := get_u8 l in
  Build_SensorCalibration_t f_magic f_imu_bias_x f_imu_bias_y f_imu_bias_z
    f_imu_scale_x f_imu_scale_y f_imu_scale_z f_mag_offset_x f_mag_offset_y
    f_mag_offset_z f_mag_scale_x f_mag_scale_y f_mag_scale_z
    f_pulses_per_meter_left f_pulses_per_meter_right f_lidar_offset_distance
    f_lidar_angle_offset f_camera_focal_length f_camera_principal_point_x
    f_camera_principal_point_y f_camera_distortion_k1 f_camera_distortion_k2
    f_battery_voltage_offset f_battery_voltage_scale f_temp_offset
    f_timestamp f_calibration_count f_status.

(** The values a record can hold: integers of the width of their field
    and well-formed [float]s. *)
Definition uint_ok (bound w : Z) : bool := (0 <=? w) && (w <? bound).

Definition calib_wf (c : SensorCalibration_t) : bool :=
  uint_ok UINT32_MOD (magic c)
  && f32_valid (imu_bias_x c) && f32_valid (imu_bias_y c)
  && f32_valid (imu_bias_z c)
  && f32_valid (imu_scale_x c) && f32_valid (imu_scale_y c)
  && f32_valid (imu_scale_z c)
  && f32_valid (mag_offset_x c) && f32_valid (mag_offset_y c)
  && f32_valid (mag_offset_z c)
  && f32_valid (mag_scale_x c) && f32_valid (mag_scale_y c)
  && f32_valid (mag_scale_z c)
  && f32_valid (pulses_per_meter_left c)
  && f32_valid (pulses_per_meter_right c)
  && f32_valid (lidar_offset_distance c) && f32_valid (lidar_angle_offset c)
  && f32_valid (camera_focal_length c)
  && f32_valid (camera_principal_point_x c)
  && f32_valid (camera_principal_point_y c)
  && f32_valid (camera_distortion_k1 c) && f32_valid (camera_distortion_k2 c)
  && f32_valid (battery_voltage_offset c)
  && f32_valid (battery_voltage_scale c)
  && f32_valid (temp_offset c)
  && uint_ok UINT32_MOD (timestamp c)
  && uint_ok UINT16_MOD (calibration_count c)
  && uint_ok 256 (status c).

(* ====================================================================== *)
(** ** Initialisation *)
(* ====================================================================== *)

(** The record after [memset(calib, 0, sizeof(SensorCalibration_t))]. *)
Definition calib_zeroed : SensorCalibration_t :=
  Build_SensorCalibration_t 0 f_0_0 f_0_0 f_0_0 f_0_0 f_0_0 f_0_0 f_0_0 f_0_0
    f_0_0 f_0_0 f_0_0 f_0_0 f_0_0 f_0_0 f_0_0 f_0_0 f_0_0 f_0_0 f_0_0 f_0_0
    f_0_0 f_0_0 f_0_0 f_0_0 0 0 0.

(** [init_default_calibration]: [memset] to zero, then every field is
    assigned; the previous content of the record is lost. *)
Definition init_default_calibration (c : SensorCalibration_t)
  : SensorCalibration_t :=
  {| magic := CALIB_MAGIC;
     imu_bias_x := f_0_0; imu_bias_y := f_0_0; imu_bias_z := f_0_0;
     imu_scale_x := f_1_0; imu_scale_y := f_1_0; imu_scale_z := f_1_0;
     mag_offset_x := f_0_0; mag_offset_y := f_0_0; mag_offset_z := f_0_0;
     mag_scale_x := f_1_0; mag_scale_y := f_1_0; mag_scale_z := f_1_0;
     pulses_per_meter_left := f_1000_0;
     pulses_per_meter_right := f_1000_0;
     lidar_offset_distance := f_0_0;
     lidar_angle_offset := f_0_0;
     camera_focal_length := f_500_0;
     camera_principal_point_x := f_320_0;
     camera_principal_point_y := f_240_0;
     camera_distortion_k1 := f_0_0;
     camera_distortion_k2 := f_0_0;
     battery_voltage_offset := f_0_0;
     battery_voltage_scale := f_1_0;
     temp_offset := f_0_0;
     timestamp := 0;
     calibration_count := 0;
     status := CALIB_INVALID |}.

(* ====================================================================== *)
(** ** IMU calibration *)
(* ====================================================================== *)

(** The nine running sums of [calibrate_imu]. *)
Record ImuSums : Type := {
  acc_x_sum : float; acc_y_sum : float; acc_z_sum : float;
  gyro_x_sum : float; gyro_y_sum : float; gyro_z_sum : float;
  acc_x_sq_sum : float; acc_y_sq_sum : float; acc_z_sq_sum : float
}.

Definition imu_sums_zero : ImuSums :=
  Build_ImuSums f_0_0 f_0_0 f_0_0 f_0_0 f_0_0 f_0_0 f_0_0 f_0_0 f_0_0.

(** The body of the sampling loop after a successful read. *)
Definition imu_accumulate (a : ImuSums) (d : IMUData_t) : ImuSums :=
  {| acc_x_sum := f32_add (acc_x_sum a) (ax d);
     acc_y_sum := f32_add (acc_y_sum a) (ay d);
     acc_z_sum := f32_add (acc_z_sum a) (az d);
     acc_x_sq_sum := f32_add (acc_x_sq_sum a) (f32_mul (ax d) (ax d));
     acc_y_sq_sum := f32_add (acc_y_sq_sum a) (f32_mul (ay d) (ay d));
     acc_z_sq_sum := f32_add (acc_z_sq_sum a) (f32_mul (az d) (az d));
     gyro_x_sum := f32_add (gyro_x_sum a) (gx d);
     gyro_y_sum := f32_add (gyro_y_sum a) (gy d);
     gyro_z_sum := f32_add (gyro_z_sum a) (gz d) |}.

(** [for (int i = 0; i < IMU_SAMPLES; i++)] with [n] iterations left;
    [None] is the [return false] of a failed read. *)
Fixpoint imu_collect (n : nat) (a : ImuSums) (s : State)
  : option ImuSums * State :=
  match n with
  | O => (Some a, s)
  | S n' =>
      let (ok, s1) := read_imu_raw s in
      if ok then imu_collect n' (imu_accumulate a (imu_data s1)) (delay_ms 10 s1)
      else (None, s1)
  end.

Definition calibrate_imu (s : State) : bool * State :=
  match imu_collect IMU_SAMPLES imu_sums_zero s with
  | (None, s1) => (false, s1)
  | (Some a, s1) =>
      let n := f32_of_Z (Z.of_nat IMU_SAMPLES) in
      let acc_x_mean := f32_div (acc_x_sum a) n in
      let acc_y_mean := f32_div (acc_y_sum a) n in
      let acc_z_mean := f32_div (acc_z_sum a) n in
      let c1 :=
        set_imu_bias_z (f32_sub acc_z_mean f_9_81)
          (set_imu_bias_y acc_y_mean
            (set_imu_bias_x acc_x_mean (calib s1))) in
      let acc_x_var :=
        f32_sub (f32_div (acc_x_sq_sum a) n) (f32_mul acc_x_mean acc_x_mean) in
      let acc_y_var :=
        f32_sub (f32_div (acc_y_sq_sum a) n) (f32_mul acc_y_mean acc_y_mean) in
      let acc_z_var :=
        f32_sub (f32_div (acc_z_sq_sum a) n) (f32_mul acc_z_mean acc_z_mean) in
      let acc_x_std := f32_sqrt acc_x_var in
      let acc_y_std := f32_sqrt acc_y_var in
      let acc_z_std := f32_sqrt acc_z_var in
      if f_gt acc_x_std f_0_5 || f_gt acc_y_std f_0_5 || f_gt acc_z_std f_0_5
      then (false, set_calib c1 s1)
      else
        (true,
         set_calib
           (set_imu_scale_z f_1_0
             (set_imu_scale_y f_1_0 (set_imu_scale_x f_1_0 c1))) s1)
  end.

(* ====================================================================== *)
(** ** Magnetometer calibration *)
(* ====================================================================== *)

(** The running extremes of [calibrate_magnetometer] and its sample
    counter. *)
Record MagExtremes : Type := {
  mag_x_min : float; mag_x_max : float;
  mag_y_min : float; mag_y_max : float;
  mag_z_min : float; mag_z_max : float;
  sample_count : Z
}.

Definition mag_extremes_init : MagExtremes :=
  Build_MagExtremes f_32767_0 f_m32768_0 f_32767_0 f_m32768_0
    f_32767_0 f_m32768_0 0.

(** The body of the sweep loop after a successful read. *)
Definition mag_track (e : MagExtremes) (d : MagData_t) : MagExtremes :=
  {| mag_x_min := if f_lt (mx d) (mag_x_min e) then mx d else mag_x_min e;
     mag_x_max := if f_gt (mx d) (mag_x_max e) then mx d else mag_x_max e;
     mag_y_min := if f_lt (my d) (mag_y_min e) then my d else mag_y_min e;
     mag_y_max := if f_gt (my d) (mag_y_max e) then my d else mag_y_max e;
     mag_z_min := if f_lt (mz d) (mag_z_min e) then mz d else mag_z_min e;
     mag_z_max := if f_gt (mz d) (mag_z_max e) then mz d else mag_z_max e;
     sample_count := sample_count e + 1 |}.

Inductive sweep_result : Type :=
  | SweepDone (e : MagExtremes)
  | SweepReadFailed
  | SweepOutOfFuel.

(** [while ((get_time_ms() - start_time) < MAG_ROTATION_TIME_MS)]. The
    recursion is on [fuel]; [mag_sweep_fuel_suffices] below shows that
    the fuel given by [calibrate_magnetometer] never runs out. *)
Fixpoint mag_sweep (fuel : nat) (start_time : Z) (e : MagExtremes) (s : State)
  : sweep_result * State :=
  match fuel with
  | O => (SweepOutOfFuel, s)
  | S fuel' =>
      if (get_time_ms s - start_time) mod UINT32_MOD <? MAG_ROTATION_TIME_MS
      then
        let (ok, s1) := read_magnetometer_raw s in
        if ok
        then mag_sweep fuel' start_time (mag_track e (mag_data s1))
               (delay_ms 50 s1)
        else (SweepReadFailed, s1)
      else (SweepDone e, s)
  end.

(** One more than the number of 50 ms steps in the 30 s window. *)
Definition MAG_SWEEP_FUEL : nat := 601.

(** The half-range of one axis, [(max - min) / 2.0f]. *)
Definition half_range (lo hi : float) : float := f32_div (f32_sub hi lo) f_2_0.

(** The coefficients derived from the extremes of a sweep. *)
Definition mag_derive (e : MagExtremes) (c : SensorCalibration_t)
  : SensorCalibration_t :=
  let c1 :=
    set_mag_offset_z (f32_div (f32_add (mag_z_max e) (mag_z_min e)) f_2_0)
      (set_mag_offset_y (f32_div (f32_add (mag_y_max e) (mag_y_min e)) f_2_0)
        (set_mag_offset_x
           (f32_div (f32_add (mag_x_max e) (mag_x_min e)) f_2_0) c)) in
  let avg_delta_x := half_range (mag_x_min e) (mag_x_max e) in
  let avg_delta_y := half_range (mag_y_min e) (mag_y_max e) in
  let avg_delta_z := half_range (mag_z_min e) (mag_z_max e) in
  let avg_delta :=
    f32_div (f32_add (f32_add avg_delta_x avg_delta_y) avg_delta_z) f_3_0 in
  set_mag_scale_z (f32_div avg_delta avg_delta_z)
    (set_mag_scale_y (f32_div avg_delta avg_delta_y)
      (set_mag_scale_x (f32_div avg_delta avg_delta_x) c1)).

Definition calibrate_magnetometer (s : State) : bool * State :=
  let start_time := get_time_ms s in
  match mag_sweep MAG_SWEEP_FUEL start_time mag_extremes_init s with
  | (SweepDone e, s1) => (true, set_calib (mag_derive e (calib s1)) s1)
  | (SweepReadFailed, s1) => (false, s1)
  | (SweepOutOfFuel, s1) => (false, s1)
  end.

(* ====================================================================== *)
(** ** Odometer calibration *)
(* ====================================================================== *)

(** [fabs(pulses_left - pulses_right) / ((pulses_left + pulses_right) / 2.0f)]
    assigned to a [float]: the counts are [uint32_t], so the difference
    and the sum are taken modulo 2^32; the difference becomes a [double]
    for [fabs], the division is a [double] division and its result is
    rounded to [float]. *)
Definition encoder_error (pulses_left pulses_right : Z) : float :=
  f32_of_f64
    (f64_div
       (fabs (f64_of_Z ((pulses_left - pulses_right) mod UINT32_MOD)))
       (f64_of_f32
          (f32_div (f32_of_Z ((pulses_left + pulses_right) mod UINT32_MOD))
             f_2_0))).

Definition calibrate_odometer (s : State) : bool * State :=
  let s1 := delay_ms 100 (reset_encoder_counters s) in
  let (moved, s2) := move_forward_distance ODOM_TEST_DISTANCE_MM s1 in
  if negb moved then (false, s2)
  else
    let pulses_left := get_left_encoder_count s2 in
    let pulses_right := get_right_encoder_count s2 in
    let distance_m := f32_div (f32_of_Z ODOM_TEST_DISTANCE_MM) f_1000_0 in
    let c1 :=
      set_pulses_per_meter_right (f32_div (f32_of_Z pulses_right) distance_m)
        (set_pulses_per_meter_left (f32_div (f32_of_Z pulses_left) distance_m)
           (calib s2)) in
    let error := encoder_error pulses_left pulses_right in
    if f_gt error f_0_15 then (false, set_calib c1 s2)
    else (true, set_calib c1 s2).

(* ====================================================================== *)
(** ** LiDAR calibration *)
(* ====================================================================== *)

(** [for (int i = 0; i < LIDAR_SAMPLES; i++)] with [n] iterations left,
    carrying [distance_sum] and [distance_sq_sum]. The standard
    deviation that [calibrate_lidar] derives from the second sum is only
    logged, as are its two warnings. *)
Fixpoint lidar_collect (n : nat) (distance_sum distance_sq_sum : float)
  (s : State) : option (float * float) * State :=
  match n with
  | O => (Some (distance_sum, distance_sq_sum), s)
  | S n' =>
      let (distance, s1) := read_lidar_distance s in
      if f_lt distance f_0_0 then (None, s1)
      else
        lidar_collect n' (f32_add distance_sum distance)
          (f32_add distance_sq_sum (f32_mul distance distance))
          (delay_ms 20 s1)
  end.

Definition calibrate_lidar (s : State) : bool * State :=
  match lidar_collect LIDAR_SAMPLES f_0_0 f_0_0 s with
  | (None, s1) => (false, s1)
  | (Some (distance_sum, distance_sq_sum), s1) =>
      let n := f32_of_Z (Z.of_nat LIDAR_SAMPLES) in
      let avg_distance := f32_div distance_sum n in
      (true,
       set_calib
         (set_lidar_offset_distance (f32_sub f_1_0 avg_distance) (calib s1))
         s1)
  end.

(* ====================================================================== *)
(** ** Camera calibration *)
(* ====================================================================== *)

Definition calibrate_camera (s : State) : bool * State :=
  (true,
   set_calib
     (set_camera_distortion_k2 f_0_0
       (set_camera_distortion_k1 f_0_0
         (set_camera_principal_point_y f_240_0
           (set_camera_principal_point_x f_320_0
             (set_camera_focal_length f_500_0 (calib s)))))) s).

(* ====================================================================== *)
(** ** Battery calibration *)
(* ====================================================================== *)

Fixpoint battery_collect (n : nat) (voltage_sum : float) (s : State)
  : option float * State :=
  match n with
  | O => (Some voltage_sum, s)
  | S n' =>
      let (ok, s1) := read_battery_data s in
      if ok
      then battery_collect n' (f32_add voltage_sum (voltage (battery_data s1)))
             (delay_ms 100 s1)
      else (None, s1)
  end.

Definition calibrate_battery (s : State) : bool * State :=
  match battery_collect 10 f_0_0 s with
  | (None, s1) => (false, s1)
  | (Some voltage_sum, s1) =>
      let avg_voltage := f32_div voltage_sum f_10_0 in
      let nominal_voltage := f_12_0 in
      (true,
       set_calib
         (set_battery_voltage_scale f_1_0
           (set_battery_voltage_offset (f32_sub nominal_voltage avg_voltage)
             (calib s1))) s1)
  end.

(* ====================================================================== *)
(** ** Temperature calibration *)
(* ====================================================================== *)

Fixpoint temperature_collect (n : nat) (temp_sum : float) (s : State)
  : option float * State :=
  match n with
  | O => (Some temp_sum, s)
  | S n' =>
      let (ok, s1) := read_temperature_data s in
      if ok
      then temperature_collect n'
             (f32_add temp_sum (temperature (temp_data s1))) (delay_ms 100 s1)
      else (None, s1)
  end.

Definition calibrate_temperature (s : State) : bool * State :=
  match temperature_collect 10 f_0_0 s with
  | (None, s1) => (false, s1)
  | (Some temp_sum, s1) =>
      let avg_temp := f32_div temp_sum f_10_0 in
      let ambient_temp := f_25_0 in
      (true,
       set_calib (set_temp_offset (f32_sub ambient_temp avg_temp) (calib s1))
         s1)
  end.

(* ====================================================================== *)
(** ** Validation *)
(* ====================================================================== *)

(** [fabs(x) > bound] for a [float] field: both sides are promoted to
    [double]. *)
Definition fabs_gt (x bound : float) : bool :=
  f_gt (fabs (f64_of_f32 x)) (f64_of_f32 bound).

(** [x < lo || x > hi] *)
Definition out_of_range (x lo hi : float) : bool := f_lt x lo || f_gt x hi.

Definition validate_calibration (c : SensorCalibration_t) : bool :=
  if negb (magic c =? CALIB_MAGIC) then false
  else if fabs_gt (imu_bias_x c) f_5_0
          || fabs_gt (imu_bias_y c) f_5_0
          || fabs_gt (imu_bias_z c) f_5_0 then false
  else if out_of_range (imu_scale_x c) f_0_5 f_2_0
          || out_of_range (imu_scale_y c) f_0_5 f_2_0
          || out_of_range (imu_scale_z c) f_0_5 f_2_0 then false
  else if out_of_range (mag_scale_x c) f_0_5 f_2_0
          || out_of_range (mag_scale_y c) f_0_5 f_2_0
          || out_of_range (mag_scale_z c) f_0_5 f_2_0 then false
  else if out_of_range (pulses_per_meter_left c) f_500_0 f_2000_0 then false
  else if out_of_range (pulses_per_meter_right c) f_500_0 f_2000_0 then false
  else if out_of_range (camera_focal_length c) f_100_0 f_1000_0 then false
  else true.

(* ====================================================================== *)
(** ** Persistence *)
(* ====================================================================== *)

Definition save_calibration_to_eeprom (c : SensorCalibration_t) (s : State)
  : State :=
  eeprom_write CALIB_EEPROM_ADDR (bytes_of_calib c) s.

(** [load_calibration_from_eeprom(&calib)] *)
Definition load_calibration_from_eeprom (s : State) : State :=
  let c := calib_of_bytes (eeprom_read CALIB_EEPROM_ADDR CALIB_EEPROM_SIZE s) in
  if (status c =? CALIB_VALID) && (magic c =? CALIB_MAGIC)
  then set_calib c s
  else set_calib (init_default_calibration c) s.

Definition calibration_init (s : State) : State :=
  let s1 := load_calibration_from_eeprom s in
  let s2 :=
    if negb (status (calib s1) =? CALIB_VALID)
    then set_calib (init_default_calibration (calib s1)) s1
    else s1 in
  set_calib_state CALIB_IDLE s2.

(* ====================================================================== *)
(** ** The state machine *)
(* ====================================================================== *)

(** The [Running] case of a sensor: run its calibrator, go to [next] on
    success and to [CALIB_ERROR] on failure. *)
Definition run_stage (calibrate : State -> bool * State)
  (next : CalibrationState_t) (s : State) : State :=
  let (ok, s1) := calibrate s in
  if ok then set_calib_state next s1 else set_calib_state CALIB_ERROR s1.

(** The [Init] case of a sensor. *)
Definition init_stage (running : CalibrationState_t) (s : State) : State :=
  set_phase_start_time (get_time_ms s) (set_calib_state running s).

(** One call of [calibration_state_machine]. Its [default] case is for
    values outside the enumeration. *)
Definition calibration_state_machine (s : State) : State :=
  match calib_state s with
  | CALIB_IDLE =>
      if calibration_requested s
      then set_phase_start_time (get_time_ms s)
             (set_calib_state CALIB_IMU_INIT s)
      else s
  | CALIB_IMU_INIT => init_stage CALIB_IMU_RUNNING s
  | CALIB_IMU_RUNNING => run_stage calibrate_imu CALIB_MAG_INIT s
  | CALIB_MAG_INIT => init_stage CALIB_MAG_RUNNING s
  | CALIB_MAG_RUNNING => run_stage calibrate_magnetometer CALIB_ODOM_INIT s
  | CALIB_ODOM_INIT => init_stage CALIB_ODOM_RUNNING s
  | CALIB_ODOM_RUNNING => run_stage calibrate_odometer CALIB_LIDAR_INIT s
  | CALIB_LIDAR_INIT => init_stage CALIB_LIDAR_RUNNING s
  | CALIB_LIDAR_RUNNING => run_stage calibrate_lidar CALIB_CAMERA_INIT s
  | CALIB_CAMERA_INIT => init_stage CALIB_CAMERA_RUNNING s
  | CALIB_CAMERA_RUNNING => run_stage calibrate_camera CALIB_BATTERY_INIT s
  | CALIB_BATTERY_INIT => init_stage CALIB_BATTERY_RUNNING s
  | CALIB_BATTERY_RUNNING => run_stage calibrate_battery CALIB_TEMP_INIT s
  | CALIB_TEMP_INIT => init_stage CALIB_TEMP_RUNNING s
  | CALIB_TEMP_RUNNING => run_stage calibrate_temperature CALIB_VALIDATE s
  | CALIB_VALIDATE =>
      if validate_calibration (calib s)
      then set_calib_state CALIB_COMPLETE s
      else set_calib_state CALIB_ERROR s
  | CALIB_COMPLETE =>
      let c1 := set_status CALIB_VALID (calib s) in
      let c2 := set_timestamp (get_time_ms s) c1 in
      let c3 :=
        set_calibration_count ((calibration_count c2 + 1) mod UINT16_MOD) c2 in
      let s1 := save_calibration_to_eeprom c3 (set_calib c3 s) in
      set_calibration_requested false (set_calib_state CALIB_IDLE s1)
  | CALIB_ERROR =>
      set_calibration_requested false
        (set_calib_state CALIB_IDLE
           (set_calib (set_status CALIB_INVALID (calib s)) s))
  end.

(** [n] successive calls of the state machine. *)
Fixpoint ticks (n : nat) (s : State) : State :=
  match n with
  | O => s
  | S n' => ticks n' (calibration_state_machine s)
  end.

(* ====================================================================== *)
(** ** Public interface *)
(* ====================================================================== *)

Definition is_idle (st : CalibrationState_t) : bool :=
  match st with
  | CALIB_IDLE => true
  | _ => false
  end.

Definition request_calibration (s : State) : State :=
  if negb (is_idle (calib_state s)) then s
  else set_calibration_requested true s.

Definition get_calibration_state (s : State) : CalibrationState_t :=
  calib_state s.

Definition get_calibration_data (s : State) : SensorCalibration_t := calib s.

Definition is_calibration_valid (s : State) : bool :=
  status (calib s) =? CALIB_VALID.

Definition get_calibration_age_seconds (s : State) : Z :=
  ((get_time_ms s - timestamp (calib s)) mod UINT32_MOD) / 1000.

Definition reset_calibration_to_default (s : State) : State :=
  let c := init_default_calibration (calib s) in
  save_calibration_to_eeprom c (set_calib c s).

(* ====================================================================== *)
(** ** Continuous monitoring *)
(* ====================================================================== *)

(** [float imu_drift = fabs(reading - bias)]: a [float] subtraction,
    promoted for [fabs] and rounded back. *)
Definition imu_drift (reading bias : float) : float :=
  f32_of_f64 (fabs (f64_of_f32 (f32_sub reading bias))).

Definition monitor_sensor_drift (s : State) : State :=
  let now := get_time_ms s in
  if (now - last_check s) mod UINT32_MOD <? 3600000 then s
  else
    let s1 := set_last_check now s in
    let (ok, s2) := read_imu_raw s1 in
    if negb ok then s2
    else
      let imu_drift_x := imu_drift (ax (imu_data s2)) (imu_bias_x (calib s2)) in
      let imu_drift_y := imu_drift (ay (imu_data s2)) (imu_bias_y (calib s2)) in
      let imu_drift_z := imu_drift (az (imu_data s2)) (imu_bias_z (calib s2)) in
      if f_gt imu_drift_x f_2_0 || f_gt imu_drift_y f_2_0
         || f_gt imu_drift_z f_2_0
      then set_calib (set_status CALIB_NEEDS_RECALIBRATION (calib s2)) s2
      else s2.

Definition calibration_update (s : State) : State :=
  monitor_sensor_drift (calibration_state_machine s).

(* ====================================================================== *)
(** ** Executions, stages and field subsets *)
(* ====================================================================== *)

(** What can happen to the firmware between two observations: a call of
    the state machine, a call of the drift monitor, a calibration
    request, or time passing. *)
Inductive event : Type :=
  | Tick
  | Drift
  | Request
  | Elapse (ms : Z).

Definition step (ev : event) (s : State) : State :=
  match ev with
  | Tick => calibration_state_machine s
  | Drift => monitor_sensor_drift s
  | Request => request_calibration s
  | Elapse ms => delay_ms ms s
  end.

Definition run (evs : list event) (s : State) : State :=
  fold_left (fun acc ev => step ev acc) evs s.

Definition is_tick (ev : event) : bool :=
  match ev with
  | Tick => true
  | _ => false
  end.

(** The number of state-machine calls in an execution. *)
Definition tick_count (evs : list event) : nat :=
  length (filter is_tick evs).

(** The number of calls of the state machine that separate a state from
    the action of [CALIB_COMPLETE], along the only path that leads
    there. *)
Definition ticks_to_complete (st : CalibrationState_t) : nat :=
  match st with
  | CALIB_COMPLETE => 0
  | CALIB_VALIDATE => 1
  | CALIB_TEMP_RUNNING => 2
  | CALIB_TEMP_INIT => 3
  | CALIB_BATTERY_RUNNING => 4
  | CALIB_BATTERY_INIT => 5
  | CALIB_CAMERA_RUNNING => 6
  | CALIB_CAMERA_INIT => 7
  | CALIB_LIDAR_RUNNING => 8
  | CALIB_LIDAR_INIT => 9
  | CALIB_ODOM_RUNNING => 10
  | CALIB_ODOM_INIT => 11
  | CALIB_MAG_RUNNING => 12
  | CALIB_MAG_INIT => 13
  | CALIB_IMU_RUNNING => 14
  | CALIB_IMU_INIT => 15
  | CALIB_IDLE => 16
  | CALIB_ERROR => 17
  end.

(** The seven calibrated sensors, in the order of the sequence. *)
Inductive Sensor : Type :=
  | SensorIMU
  | SensorMag
  | SensorOdom
  | SensorLidar
  | SensorCamera
  | SensorBattery
  | SensorTemp.

Definition calibrate (k : Sensor) : State -> bool * State :=
  match k with
  | SensorIMU => calibrate_imu
  | SensorMag => calibrate_magnetometer
  | SensorOdom => calibrate_odometer
  | SensorLidar => calibrate_lidar
  | SensorCamera => calibrate_camera
  | SensorBattery => calibrate_battery
  | SensorTemp => calibrate_temperature
  end.

(** The record with the field subset of one sensor blanked: two records
    agree outside that subset exactly when their blanked copies are
    equal. *)
Definition blank_fields (k : Sensor) (c : SensorCalibration_t)
  : SensorCalibration_t :=
  match k with
  | SensorIMU =>
      set_imu_scale_z f_0_0 (set_imu_scale_y f_0_0 (set_imu_scale_x f_0_0
        (set_imu_bias_z f_0_0 (set_imu_bias_y f_0_0
          (set_imu_bias_x f_0_0 c)))))
  | SensorMag =>
      set_mag_scale_z f_0_0 (set_mag_scale_y f_0_0 (set_mag_scale_x f_0_0
        (set_mag_offset_z f_0_0 (set_mag_offset_y f_0_0
          (set_mag_offset_x f_0_0 c)))))
  | SensorOdom =>
      set_pulses_per_meter_right f_0_0 (set_pulses_per_meter_left f_0_0 c)
  | SensorLidar =>
      Build_SensorCalibration_t (magic c) (imu_bias_x c) (imu_bias_y c)
        (imu_bias_z c) (imu_scale_x c) (imu_scale_y c) (imu_scale_z c)
        (mag_offset_x c) (mag_offset_y c) (mag_offset_z c) (mag_scale_x c)
        (mag_scale_y c) (mag_scale_z c) (pulses_per_meter_left c)
        (pulses_per_meter_right c) f_0_0 f_0_0 (camera_focal_length c)
        (camera_principal_point_x c) (camera_principal_point_y c)
        (camera_distortion_k1 c) (camera_distortion_k2 c)
        (battery_voltage_offset c) (battery_voltage_scale c) (temp_offset c)
        (timestamp c) (calibration_count c) (status c)
  | SensorCamera =>
      set_camera_distortion_k2 f_0_0 (set_camera_distortion_k1 f_0_0
        (set_camera_principal_point_y f_0_0 (set_camera_principal_point_x f_0_0
          (set_camera_focal_length f_0_0 c))))
  | SensorBattery =>
      set_battery_voltage_scale f_0_0 (set_battery_voltage_offset f_0_0 c)
  | SensorTemp => set_temp_offset f_0_0 c
  end.

(** Some read among the [n] next inertial reads fails. *)
Definition imu_read_fails (n : nat) (s : State) : Prop :=
  exists i, (i < n)%nat /\
    feed_imu (hw_feed (hw s)) (hw_imu_reads (hw s) + i) = None.

(** Some read among the [n] next ranging reads answers the failure
    sentinel, a negative distance. *)
Definition lidar_read_fails (n : nat) (s : State) : Prop :=
  exists i, (i < n)%nat /\
    f_lt (feed_lidar (hw_feed (hw s)) (hw_lidar_reads (hw s) + i)) f_0_0 = true.

(** The move that [calibrate_odometer] is about to command fails. *)
Definition move_fails (s : State) : Prop :=
  fst (fst (feed_move (hw_feed (hw s)) (hw_moves (hw s)))) = false.

(* ====================================================================== *)
(** ** The derivations, in the words of the design *)
(* ====================================================================== *)

(** The [n] samples the next [n] inertial reads deliver, when all of
    them succeed. *)
Fixpoint imu_samples (n : nat) (feed : nat -> option IMUData_t) (from : nat)
  : option (list IMUData_t) :=
  match n with
  | O => Some []
  | S n' =>
      match feed from, imu_samples n' feed (S from) with
      | Some d, Some l => Some (d :: l)
      | _, _ => None
      end
  end.

(** The sum of a list of [float]s, accumulated from the left. *)
Definition f32_sum (l : list float) : float := fold_left f32_add l f_0_0.

(** The sample mean, in single precision. *)
Definition f32_mean (l : list float) : float :=
  f32_div (f32_sum l) (f32_of_Z (Z.of_nat (length l))).



(** The relative difference of two pulse counts exceeds 15% of their
    average, [|l - r| / ((l + r) / 2) > 15/100], over the integers. *)
Definition counts_differ_too_much (pulses_left pulses_right : Z) : bool :=
  15 * (pulses_left + pulses_right) <? 200 * Z.abs (pulses_left - pulses_right).

(* ====================================================================== *)
(** ** Test fixtures *)
(* ====================================================================== *)

Definition imu_sample (x y z : float) : IMUData_t :=
  Build_IMUData_t x y z f_0_0 f_0_0 f_0_0 0.

Definition mag_sample (x y z : float) : MagData_t :=
  Build_MagData_t x y z 0.

(** A bench on which every stage of the sequence passes: a stationary,
    level unit; a compass swinging between two opposite readings; both
    wheels turning 1000 pulses; a target at 1 m; 12 V; 25 degrees. *)
Definition bench_feed : SensorFeed :=
  {| feed_imu := fun _ => Some (imu_sample f_0_0 f_0_0 f_9_81);
     feed_mag := fun i =>
       if Nat.even i
       then Some (mag_sample (f32_of_Z (-30)) (f32_of_Z (-20)) (f32_of_Z (-40)))
       else Some (mag_sample (f32_of_Z 30) (f32_of_Z 20) (f32_of_Z 40));
     feed_lidar := fun _ => f_1_0;
     feed_battery := fun _ => Some (Build_BatteryData_t f_12_0 f_1_0 f_100_0 0);
     feed_temp := fun _ => Some (Build_TemperatureData_t f_25_0 0);
     feed_move := fun _ => (true, 1000, 1000) |}.

(** The hardware at power-up: the clock at zero, an erased EEPROM. *)
Definition power_up (feed : SensorFeed) : Hardware :=
  {| hw_feed := feed;
     hw_now := 0;
     hw_eeprom := fun _ => 255;
     hw_eeprom_writes := 0;
     hw_imu_reads := 0; hw_mag_reads := 0; hw_lidar_reads := 0;
     hw_battery_reads := 0; hw_temp_reads := 0; hw_moves := 0;
     hw_enc_left := 0; hw_enc_right := 0 |}.

(** The firmware after start-up on that hardware, in the given
    sequencer state. *)
Definition booted (feed : SensorFeed) (st : CalibrationState_t)
  (requested : bool) : State :=
  {| calib := init_default_calibration calib_zeroed;
     calib_state := st;
     calibration_requested := requested;
     phase_start_time := 0;
     last_check := 0;
     imu_data := imu_sample f_0_0 f_0_0 f_0_0;
     mag_data := mag_sample f_0_0 f_0_0 f_0_0;
     battery_data := Build_BatteryData_t f_0_0 f_0_0 f_0_0 0;
     temp_data := Build_TemperatureData_t f_0_0 0;
     hw := power_up feed |}.

(** The same bench with other wheel pulse counts. *)
Definition wheels_feed (pulses_left pulses_right : Z) : SensorFeed :=
  {| feed_imu := feed_imu bench_feed;
     feed_mag := feed_mag bench_feed;
     feed_lidar := feed_lidar bench_feed;
     feed_battery := feed_battery bench_feed;
     feed_temp := feed_temp bench_feed;
     feed_move := fun _ => (true, pulses_left, pulses_right) |}.

(** The same bench with a ranging sensor that answers its failure
    sentinel. *)
Definition blind_lidar_feed : SensorFeed :=
  {| feed_imu := feed_imu bench_feed;
     feed_mag := feed_mag bench_feed;
     feed_lidar := fun _ => f32_of_Z (-1);
     feed_battery := feed_battery bench_feed;
     feed_temp := feed_temp bench_feed;
     feed_move := feed_move bench_feed |}.

(** The same bench with a compass that is held still. *)
Definition still_compass_feed : SensorFeed :=
  {| feed_imu := feed_imu bench_feed;
     feed_mag := fun _ => Some (mag_sample f_10_0 f_10_0 f_10_0);
     feed_lidar := feed_lidar bench_feed;
     feed_battery := feed_battery bench_feed;
     feed_temp := feed_temp bench_feed;
     feed_move := feed_move bench_feed |}.

(** The same bench with an inertial unit that does not answer. *)
Definition dead_imu_feed : SensorFeed :=
  {| feed_imu := fun _ => None;
     feed_mag := feed_mag bench_feed;
     feed_lidar := feed_lidar bench_feed;
     feed_battery := feed_battery bench_feed;
     feed_temp := feed_temp bench_feed;
     feed_move := feed_move bench_feed |}.

(** The same bench with wheels that do not move. *)
Definition stuck_feed : SensorFeed :=
  {| feed_imu := feed_imu bench_feed;
     feed_mag := feed_mag bench_feed;
     feed_lidar := feed_lidar bench_feed;
     feed_battery := feed_battery bench_feed;
     feed_temp := feed_temp bench_feed;
     feed_move := fun _ => (false, 0, 0) |}.

(* ====================================================================== *)
(** ** What a call leaves alone *)
(* ====================================================================== *)

(** [s'] differs from [s] at most in the record and in what sampling
    touches: the clock, the read counters, the encoders and the sample
    structures. The sequencer variables, the sensor feed and the EEPROM
    are the same. *)
Definition sequencer_kept (s s' : State) : Prop :=
  calib_state s' = calib_state s
  /\ calibration_requested s' = calibration_requested s
  /\ phase_start_time s' = phase_start_time s
  /\ last_check s' = last_check s
  /\ hw_feed (hw s') = hw_feed (hw s)
  /\ hw_eeprom (hw s') = hw_eeprom (hw s)
  /\ hw_eeprom_writes (hw s') = hw_eeprom_writes (hw s).

(** As [sequencer_kept], and the record is the same too. *)
Definition env_only (s s' : State) : Prop :=
  calib s' = calib s /\ sequencer_kept s s'.

(** A finite number other than zero. *)
Definition is_finite_nonzero (x : float) : bool :=
  match x with
  | S754_finite _ _ _ => true
  | _ => false
  end.

(** The [n] samples the next [n] magnetic reads deliver, when all of
    them succeed. *)
Fixpoint mag_samples (n : nat) (feed : nat -> option MagData_t) (from : nat)
  : option (list MagData_t) :=
  match n with
  | O => Some []
  | S n' =>
      match feed from, mag_samples n' feed (S from) with
      | Some d, Some l => Some (d :: l)
      | _, _ => None
      end
  end.

(** The number of reads in one sweep: the 30 s window in steps of 50 ms. *)
Definition MAG_SWEEP_READS : nat := 600.

(** The states of one sensor in the sequence, and the state that follows
    its successful calibration. *)
Definition init_state (k : Sensor) : CalibrationState_t :=
  match k with
  | SensorIMU => CALIB_IMU_INIT
  | SensorMag => CALIB_MAG_INIT
  | SensorOdom => CALIB_ODOM_INIT
  | SensorLidar => CALIB_LIDAR_INIT
  | SensorCamera => CALIB_CAMERA_INIT
  | SensorBattery => CALIB_BATTERY_INIT
  | SensorTemp => CALIB_TEMP_INIT
  end.

Definition running_state (k : Sensor) : CalibrationState_t :=
  match k with
  | SensorIMU => CALIB_IMU_RUNNING
  | SensorMag => CALIB_MAG_RUNNING
  | SensorOdom => CALIB_ODOM_RUNNING
  | SensorLidar => CALIB_LIDAR_RUNNING
  | SensorCamera => CALIB_CAMERA_RUNNING
  | SensorBattery => CALIB_BATTERY_RUNNING
  | SensorTemp => CALIB_TEMP_RUNNING
  end.

Definition next_state (k : Sensor) : CalibrationState_t :=
  match k with
  | SensorIMU => CALIB_MAG_INIT
  | SensorMag => CALIB_ODOM_INIT
  | SensorOdom => CALIB_LIDAR_INIT
  | SensorLidar => CALIB_CAMERA_INIT
  | SensorCamera => CALIB_BATTERY_INIT
  | SensorBattery => CALIB_TEMP_INIT
  | SensorTemp => CALIB_VALIDATE
  end.

(** The metadata of the record and the EEPROM are the same in [s'] as in
    [s]. *)
Definition nothing_persisted (s s' : State) : Prop :=
  hw_eeprom (hw s') = hw_eeprom (hw s)
  /\ hw_eeprom_writes (hw s') = hw_eeprom_writes (hw s).

Definition metadata_kept (s s' : State) : Prop :=
  magic (calib s') = magic (calib s)
  /\ timestamp (calib s') = timestamp (calib s)
  /\ calibration_count (calib s') = calibration_count (calib s)
  /\ status (calib s') = status (calib s).

(** The same bench with a compass that swings by the same amount [h] on
    its three axes. *)
Definition even_swing_feed (h : float) : SensorFeed :=
  {| feed_imu := feed_imu bench_feed;
     feed_mag := fun i =>
       if Nat.even i
       then Some (mag_sample (SFopp h) (SFopp h) (SFopp h))
       else Some (mag_sample h h h);
     feed_lidar := feed_lidar bench_feed;
     feed_battery := feed_battery bench_feed;
     feed_temp := feed_temp bench_feed;
     feed_move := feed_move bench_feed |}.

(** The same bench with an inertial unit that reads [v] on its first
    axis, without noise. *)
Definition steady_imu_feed (v : float) : SensorFeed :=
  {| feed_imu := fun _ => Some (imu_sample v f_0_0 f_9_81);
     feed_mag := feed_mag bench_feed;
     feed_lidar := feed_lidar bench_feed;
     feed_battery := feed_battery bench_feed;
     feed_temp := feed_temp bench_feed;
     feed_move := feed_move bench_feed |}.

(** The extremes of a sweep, from its samples. *)
Definition sweep_extremes (l : list MagData_t) : MagExtremes :=
  fold_left mag_track l mag_extremes_init.

(** The time a sweep has been running, as its loop condition sees it. *)
Definition sweep_elapsed (start_time : Z) (s : State) : Z :=
  (get_time_ms s - start_time) mod UINT32_MOD.

(* ====================================================================== *)
(** ** Further notions for the rest of the file *)
(* ====================================================================== *)

(** The hard-coded default record. *)
Definition default_calibration : SensorCalibration_t :=
  init_default_calibration calib_zeroed.

(** The longest a run can still last: the number of calls of the state
    machine after which, at the latest, it is back in [CALIB_IDLE]. *)
Definition ticks_to_idle (st : CalibrationState_t) : nat :=
  match st with
  | CALIB_IDLE => 0
  | CALIB_ERROR => 1
  | CALIB_COMPLETE => 1
  | CALIB_VALIDATE => 2
  | CALIB_TEMP_RUNNING => 3
  | CALIB_TEMP_INIT => 4
  | CALIB_BATTERY_RUNNING => 5
  | CALIB_BATTERY_INIT => 6
  | CALIB_CAMERA_RUNNING => 7
  | CALIB_CAMERA_INIT => 8
  | CALIB_LIDAR_RUNNING => 9
  | CALIB_LIDAR_INIT => 10
  | CALIB_ODOM_RUNNING => 11
  | CALIB_ODOM_INIT => 12
  | CALIB_MAG_RUNNING => 13
  | CALIB_MAG_INIT => 14
  | CALIB_IMU_RUNNING => 15
  | CALIB_IMU_INIT => 16
  end.

(** A drift check is due: an hour has passed on the 32-bit clock since
    the last one. *)
Definition drift_check_due (s : State) : Prop :=
  3600000 <= (get_time_ms s - last_check s) mod UINT32_MOD.

(** The [n] samples the next [n] reads of a sensor deliver, when all of
    them succeed. *)
Fixpoint feed_samples {A : Type} (n : nat) (feed : nat -> option A)
  (from : nat) : option (list A) :=
  match n with
  | O => Some []
  | S n' =>
      match feed from, feed_samples n' feed (S from) with
      | Some d, Some l => Some (d :: l)
      | _, _ => None
      end
  end.

(** The [n] distances the next [n] ranging reads answer. *)
Fixpoint lidar_readings (n : nat) (feed : nat -> float) (from : nat)
  : list float :=
  match n with
  | O => []
  | S n' => feed from :: lidar_readings n' feed (S from)
  end.

(** The checks of [validate_calibration] after the magic number, one
    per [if] of the function. *)
Definition imu_bias_bad (c : SensorCalibration_t) : bool :=
  fabs_gt (imu_bias_x c) f_5_0 || fabs_gt (imu_bias_y c) f_5_0
  || fabs_gt (imu_bias_z c) f_5_0.

Definition imu_scale_bad (c : SensorCalibration_t) : bool :=
  out_of_range (imu_scale_x c) f_0_5 f_2_0
  || out_of_range (imu_scale_y c) f_0_5 f_2_0
  || out_of_range (imu_scale_z c) f_0_5 f_2_0.

Definition mag_scale_bad (c : SensorCalibration_t) : bool :=
  out_of_range (mag_scale_x c) f_0_5 f_2_0
  || out_of_range (mag_scale_y c) f_0_5 f_2_0
  || out_of_range (mag_scale_z c) f_0_5 f_2_0.

(** The hardware of one state under the variables of another: what a
    restart keeps is the hardware, the EEPROM with it. *)
Definition restarted (ram : State) (s : State) : State := set_hw (hw s) ram.


(* ====================================================================== *)
(** ** The derivations once more, over the readings themselves *)
(* ====================================================================== *)

(** Anything but NaN. *)
Definition is_number (x : float) : bool :=
  match x with
  | S754_nan => false
  | _ => true
  end.

(** [m] is a smallest element of [xs]: it occurs in [xs] and no element
    of [xs] is below it. *)
Definition least_of (m : float) (xs : list float) : Prop :=
  In m xs /\ forall x, In x xs -> SFleb m x = true.

(** [m] is a largest element of [xs]. *)
Definition greatest_of (m : float) (xs : list float) : Prop :=
  In m xs /\ forall x, In x xs -> SFleb x m = true.

(** A reading within the values a sweep starts its extremes from. *)
Definition in_sweep_range (x : float) : bool :=
  SFleb f_m32768_0 x && SFleb x f_32767_0.

(** [lo] and [hi] are the extremes of a sweep that read [xs] on one
    axis: the smallest of 32767 and the readings, and the largest of
    -32768 and the readings, NaN readings left out; so the smallest and
    the largest reading, when all readings lie between those two
    values. *)
Definition axis_extremes_of (lo hi : float) (xs : list float) : Prop :=
  least_of lo (f_32767_0 :: filter is_number xs)
  /\ greatest_of hi (f_m32768_0 :: filter is_number xs)
  /\ (xs <> [] ->
      (forall x, In x xs -> in_sweep_range x = true) ->
      least_of lo xs /\ greatest_of hi xs).

(** The same bench with a compass that reads 40000 on its three axes,
    above the value the sweep starts its minimum from. *)
Definition loud_compass_feed : SensorFeed :=
  {| feed_imu := feed_imu bench_feed;
     feed_mag := fun _ =>
       Some (mag_sample (f32_of_Z 40000) (f32_of_Z 40000) (f32_of_Z 40000));
     feed_lidar := feed_lidar bench_feed;
     feed_battery := feed_battery bench_feed;
     feed_temp := feed_temp bench_feed;
     feed_move := feed_move bench_feed |}.






(** The drift test in the words of the design: the reading differs from
    the stored bias by more than 2.0, the difference being one
    single-precision subtraction. *)
Definition drift_exceeds (reading bias : float) : bool :=
  SFltb f_2_0 (SFabs (f32_sub reading bias)).

(** The value of a finite [float], in units of [2^-149], the smallest
    positive [float]. *)
Definition f32_units (x : float) : option Z :=
  match x with
  | S754_zero _ => Some 0
  | S754_finite s m e =>
      if -149 <=? e then Some (cond_Zopp s (Zpos m * 2 ^ (e + 149))) else None
  | _ => None
  end.

(** The same test over the reals: the exact difference of two finite
    [float]s exceeds 2.0. *)
Definition drift_exceeds_exactly (reading bias : float) : bool :=
  match f32_units reading, f32_units bias with
  | Some r, Some b => 2 * 2 ^ 149 <? Z.abs (r - b)
  | _, _ => false
  end.

(** The three axes of a reading, and the three bias fields of a record,
    hold [float]s. *)
Definition imu_axes_valid (d : IMUData_t) : bool :=
  f32_valid (ax d) && f32_valid (ay d) && f32_valid (az d).

Definition imu_bias_valid (c : SensorCalibration_t) : bool :=
  f32_valid (imu_bias_x c) && f32_valid (imu_bias_y c)
  && f32_valid (imu_bias_z c).

(** An inertial unit that reads [x] on its first axis and nothing on
    the other two. *)
Definition tilted_imu_feed (x : float) : SensorFeed :=
  {| feed_imu := fun _ => Some (imu_sample x f_0_0 f_0_0);
     feed_mag := feed_mag bench_feed;
     feed_lidar := feed_lidar bench_feed;
     feed_battery := feed_battery bench_feed;
     feed_temp := feed_temp bench_feed;
     feed_move := feed_move bench_feed |}.

(** The firmware an hour after start-up, idle, with a record of status
    [st] whose bias on the first axis is [b]. *)
Definition hour_later (feed : SensorFeed) (st : Z) (b : float) : State :=
  let s := delay_ms 3600000 (booted feed CALIB_IDLE false) in
  set_calib (set_status st (set_imu_bias_x b (calib s))) s.

(** [2 + 2^-22], the [float] next above 2.0, and [3 * 2^-24]. *)
Definition f_2_next : float := S754_finite false 8388609 (-22).
Definition f_3_ulp : float := S754_finite false 12582912 (-46).
(* ====================================================================== *)
(** * Properties *)
(* ====================================================================== *)

(** ** Sampling touches neither the sequencer nor the EEPROM *)

Lemma env_only_refl : forall s, env_only s s.
Proof. intros s; repeat split. Qed.

Lemma env_only_trans : forall s1 s2 s3,
  env_only s1 s2 -> env_only s2 s3 -> env_only s1 s3.
Proof.
  unfold env_only, sequencer_kept; intros s1 s2 s3 H12 H23.
  decompose [and] H12; decompose [and] H23; repeat split; congruence.
Qed.

Lemma env_only_kept : forall s s', env_only s s' -> sequencer_kept s s'.
Proof. intros s s' [_ H]; exact H. Qed.

Lemma delay_ms_env_only : forall ms s, env_only s (delay_ms ms s).
Proof. intros ms s; repeat split. Qed.

Lemma read_imu_raw_env_only : forall s, env_only s (snd (read_imu_raw s)).
Proof.
  intros s; unfold read_imu_raw.
  destruct (feed_imu _ _); repeat split.
Qed.

Lemma read_magnetometer_raw_env_only :
  forall s, env_only s (snd (read_magnetometer_raw s)).
Proof.
  intros s; unfold read_magnetometer_raw.
  destruct (feed_mag _ _); repeat split.
Qed.

Lemma read_battery_data_env_only :
  forall s, env_only s (snd (read_battery_data s)).
Proof.
  intros s; unfold read_battery_data.
  destruct (feed_battery _ _); repeat split.
Qed.

Lemma read_temperature_data_env_only :
  forall s, env_only s (snd (read_temperature_data s)).
Proof.
  intros s; unfold read_temperature_data.
  destruct (feed_temp _ _); repeat split.
Qed.

Lemma read_lidar_distance_env_only :
  forall s, env_only s (snd (read_lidar_distance s)).
Proof. intros s; repeat split. Qed.

Lemma move_forward_distance_env_only :
  forall mm s, env_only s (snd (move_forward_distance mm s)).
Proof.
  intros mm s; unfold move_forward_distance.
  destruct (feed_move _ _) as [[ok dl] dr]; repeat split.
Qed.

Lemma imu_collect_env_only :
  forall n a s, env_only s (snd (imu_collect n a s)).
Proof.
  induction n as [|n IH]; intros a s; simpl.
  - apply env_only_refl.
  - pose proof (read_imu_raw_env_only s) as Hr.
    destruct (read_imu_raw s) as [ok s1]; simpl in Hr.
    destruct ok; simpl; [|exact Hr].
    eapply env_only_trans; [exact Hr|].
    eapply env_only_trans; [apply (delay_ms_env_only 10)|apply IH].
Qed.

Lemma mag_sweep_env_only :
  forall fuel t e s, env_only s (snd (mag_sweep fuel t e s)).
Proof.
  induction fuel as [|fuel IH]; intros t e s; simpl.
  - apply env_only_refl.
  - destruct (_ <? _); [|apply env_only_refl].
    pose proof (read_magnetometer_raw_env_only s) as Hr.
    destruct (read_magnetometer_raw s) as [ok s1]; simpl in Hr.
    destruct ok; simpl; [|exact Hr].
    eapply env_only_trans; [exact Hr|].
    eapply env_only_trans; [apply (delay_ms_env_only 50)|apply IH].
Qed.

Lemma lidar_collect_env_only :
  forall n a b s, env_only s (snd (lidar_collect n a b s)).
Proof.
  induction n as [|n IH]; intros a b s; simpl.
  - apply env_only_refl.
  - destruct (f_lt _ _); simpl.
    + apply read_lidar_distance_env_only.
    + eapply env_only_trans; [apply read_lidar_distance_env_only|].
      eapply env_only_trans; [apply (delay_ms_env_only 20)|apply IH].
Qed.

Lemma battery_collect_env_only :
  forall n a s, env_only s (snd (battery_collect n a s)).
Proof.
  induction n as [|n IH]; intros a s; simpl.
  - apply env_only_refl.
  - pose proof (read_battery_data_env_only s) as Hr.
    destruct (read_battery_data s) as [ok s1]; simpl in Hr.
    destruct ok; simpl; [|exact Hr].
    eapply env_only_trans; [exact Hr|].
    eapply env_only_trans; [apply (delay_ms_env_only 100)|apply IH].
Qed.

Lemma temperature_collect_env_only :
  forall n a s, env_only s (snd (temperature_collect n a s)).
Proof.
  induction n as [|n IH]; intros a s; simpl.
  - apply env_only_refl.
  - pose proof (read_temperature_data_env_only s) as Hr.
    destruct (read_temperature_data s) as [ok s1]; simpl in Hr.
    destruct ok; simpl; [|exact Hr].
    eapply env_only_trans; [exact Hr|].
    eapply env_only_trans; [apply (delay_ms_env_only 100)|apply IH].
Qed.

(** Writing the record of a state that sampling produced. *)
Lemma set_calib_kept : forall c s s',
  env_only s s' -> sequencer_kept s (set_calib c s').
Proof. intros c s s' [_ H]; exact H. Qed.

(** Every calibrator leaves the sequencer variables, the sensor feed and
    the EEPROM as they are. *)
Lemma calibrate_sequencer_kept :
  forall k s, sequencer_kept s (snd (calibrate k s)).
Proof.
  intros [] s; simpl.
  - unfold calibrate_imu.
    pose proof (imu_collect_env_only IMU_SAMPLES imu_sums_zero s) as H.
    destruct (imu_collect _ _ _) as [[a|] s1]; simpl in H.
    + destruct (_ || _); apply set_calib_kept; exact H.
    + apply env_only_kept; exact H.
  - unfold calibrate_magnetometer.
    pose proof (mag_sweep_env_only MAG_SWEEP_FUEL (get_time_ms s)
                  mag_extremes_init s) as H.
    destruct (mag_sweep _ _ _ _) as [[e| |] s1]; simpl in H.
    + apply set_calib_kept; exact H.
    + apply env_only_kept; exact H.
    + apply env_only_kept; exact H.
  - unfold calibrate_odometer.
    pose proof (move_forward_distance_env_only ODOM_TEST_DISTANCE_MM
                  (delay_ms 100 (reset_encoder_counters s))) as H.
    destruct (move_forward_distance _ _) as [moved s2]; simpl in H.
    assert (H' : env_only s s2).
    { eapply env_only_trans; [|exact H]. repeat split. }
    destruct moved; simpl.
    + destruct (f_gt _ _); apply set_calib_kept; exact H'.
    + apply env_only_kept; exact H'.
  - unfold calibrate_lidar.
    pose proof (lidar_collect_env_only LIDAR_SAMPLES f_0_0 f_0_0 s) as H.
    destruct (lidar_collect _ _ _ _) as [[[a b]|] s1]; simpl in H.
    + apply set_calib_kept; exact H.
    + apply env_only_kept; exact H.
  - repeat split.
  - unfold calibrate_battery.
    pose proof (battery_collect_env_only 10 f_0_0 s) as H.
    destruct (battery_collect _ _ _) as [[a|] s1]; simpl in H.
    + apply set_calib_kept; exact H.
    + apply env_only_kept; exact H.
  - unfold calibrate_temperature.
    pose proof (temperature_collect_env_only 10 f_0_0 s) as H.
    destruct (temperature_collect _ _ _) as [[a|] s1]; simpl in H.
    + apply set_calib_kept; exact H.
    + apply env_only_kept; exact H.
Qed.

(** Every calibrator writes fields of its own subset only, whether it
    succeeds or not. *)
Lemma calibrate_own_fields :
  forall k s,
    blank_fields k (calib (snd (calibrate k s))) = blank_fields k (calib s).
Proof.
  intros [] s; simpl.
  - unfold calibrate_imu.
    pose proof (imu_collect_env_only IMU_SAMPLES imu_sums_zero s) as [H _].
    destruct (imu_collect _ _ _) as [[a|] s1]; simpl in H |- *.
    + destruct (_ || _); simpl; rewrite H; reflexivity.
    + rewrite H; reflexivity.
  - unfold calibrate_magnetometer.
    pose proof (mag_sweep_env_only MAG_SWEEP_FUEL (get_time_ms s)
                  mag_extremes_init s) as [H _].
    destruct (mag_sweep _ _ _ _) as [[e| |] s1]; simpl in H |- *;
      rewrite H; reflexivity.
  - unfold calibrate_odometer.
    pose proof (move_forward_distance_env_only ODOM_TEST_DISTANCE_MM
                  (delay_ms 100 (reset_encoder_counters s))) as [H _].
    destruct (move_forward_distance _ _) as [moved s2]; simpl in H.
    destruct moved; simpl.
    + destruct (f_gt _ _); simpl; rewrite H; reflexivity.
    + rewrite H; reflexivity.
  - unfold calibrate_lidar.
    pose proof (lidar_collect_env_only LIDAR_SAMPLES f_0_0 f_0_0 s) as [H _].
    destruct (lidar_collect _ _ _ _) as [[[a b]|] s1]; simpl in H |- *;
      rewrite H; reflexivity.
  - reflexivity.
  - unfold calibrate_battery.
    pose proof (battery_collect_env_only 10 f_0_0 s) as [H _].
    destruct (battery_collect _ _ _) as [[a|] s1]; simpl in H |- *;
      rewrite H; reflexivity.
  - unfold calibrate_temperature.
    pose proof (temperature_collect_env_only 10 f_0_0 s) as [H _].
    destruct (temperature_collect _ _ _) as [[a|] s1]; simpl in H |- *;
      rewrite H; reflexivity.
Qed.

(** The metadata of the record is in no calibrator's subset. *)
Lemma calibrate_metadata :
  forall k s,
    let c' := calib (snd (calibrate k s)) in
    magic c' = magic (calib s)
    /\ timestamp c' = timestamp (calib s)
    /\ calibration_count c' = calibration_count (calib s)
    /\ status c' = status (calib s).
Proof.
  intros k s c'.
  pose proof (calibrate_own_fields k s) as H; fold c' in H.
  repeat split.
  - apply (f_equal magic) in H; destruct k; exact H.
  - apply (f_equal timestamp) in H; destruct k; exact H.
  - apply (f_equal calibration_count) in H; destruct k; exact H.
  - apply (f_equal status) in H; destruct k; exact H.
Qed.

(** ** The calibrators and the shared record (C2) *)

(** A failed read among the next [n] ends the inertial sampling loop. *)
Lemma imu_collect_read_fails :
  forall n a s, imu_read_fails n s -> fst (imu_collect n a s) = None.
Proof.
  induction n as [|n IH]; intros a s (i & Hi & Hf).
  - inversion Hi.
  - simpl; unfold read_imu_raw.
    destruct (feed_imu (hw_feed (hw s)) (hw_imu_reads (hw s))) as [d|] eqn:E;
      [|reflexivity].
    apply IH.
    destruct i as [|i].
    + rewrite Nat.add_0_r in Hf; congruence.
    + exists i; split; [apply Nat.succ_lt_mono in Hi; exact Hi|].
      simpl; rewrite <- Hf; f_equal; symmetry; apply Nat.add_succ_r.
Qed.

(** C2, as the code has it: every calibrator, succeeding or failing,
    changes fields of its own subset only; the magnetometer, LiDAR,
    camera, battery and temperature calibrators leave every field of the
    record unchanged when they fail; the IMU calibrator leaves every
    field unchanged when it fails on a read, and the odometer calibrator
    when the move fails. (The IMU and odometer calibrators write their
    bias and pulses-per-meter fields before their consistency test.) *)
Theorem calibrator_frame :
  forall (k : Sensor) (s : State),
    blank_fields k (calib (snd (calibrate k s))) = blank_fields k (calib s)
    /\ (fst (calibrate k s) = false -> k <> SensorIMU -> k <> SensorOdom ->
        calib (snd (calibrate k s)) = calib s)
    /\ (k = SensorIMU -> imu_read_fails IMU_SAMPLES s ->
        fst (calibrate k s) = false /\ calib (snd (calibrate k s)) = calib s)
    /\ (k = SensorOdom -> move_fails s ->
        fst (calibrate k s) = false /\ calib (snd (calibrate k s)) = calib s).
Proof.
  intros k s; split; [apply calibrate_own_fields|]; split; [|split].
  - intros Hfail Himu Hodom; destruct k; try congruence; simpl in *.
    + unfold calibrate_magnetometer in *.
      pose proof (mag_sweep_env_only MAG_SWEEP_FUEL (get_time_ms s)
                    mag_extremes_init s) as [H _].
      destruct (mag_sweep _ _ _ _) as [[e| |] s1]; simpl in *;
        [discriminate|exact H|exact H].
    + unfold calibrate_lidar in *.
      pose proof (lidar_collect_env_only LIDAR_SAMPLES f_0_0 f_0_0 s)
        as [H _].
      destruct (lidar_collect _ _ _ _) as [[[a b]|] s1]; simpl in *;
        [discriminate|exact H].
    + discriminate.
    + unfold calibrate_battery in *.
      pose proof (battery_collect_env_only 10 f_0_0 s) as [H _].
      destruct (battery_collect _ _ _) as [[a|] s1]; simpl in *;
        [discriminate|exact H].
    + unfold calibrate_temperature in *.
      pose proof (temperature_collect_env_only 10 f_0_0 s) as [H _].
      destruct (temperature_collect _ _ _) as [[a|] s1]; simpl in *;
        [discriminate|exact H].
  - intros -> Hread; simpl; unfold calibrate_imu.
    pose proof (imu_collect_read_fails IMU_SAMPLES imu_sums_zero s Hread)
      as Hnone.
    pose proof (imu_collect_env_only IMU_SAMPLES imu_sums_zero s) as [H _].
    destruct (imu_collect _ _ _) as [[a|] s1]; simpl in *;
      [discriminate|split; [reflexivity|exact H]].
  - intros -> Hmove; simpl; unfold calibrate_odometer, move_fails in *.
    pose proof (move_forward_distance_env_only ODOM_TEST_DISTANCE_MM
                  (delay_ms 100 (reset_encoder_counters s))) as [H _].
    unfold move_forward_distance in *; simpl in *.
    destruct (feed_move (hw_feed (hw s)) (hw_moves (hw s))) as [[ok dl] dr].
    simpl in *; subst ok; simpl; split; [reflexivity|exact H].
Qed.

(** Three failures that leave the record as it was: a blind LiDAR, a
    silent inertial unit, wheels that do not move. *)
Lemma calibrator_frame_witness :
  calib (snd (calibrate SensorLidar
                (booted blind_lidar_feed CALIB_LIDAR_RUNNING true)))
  = calib (booted blind_lidar_feed CALIB_LIDAR_RUNNING true)
  /\ calib (snd (calibrate SensorIMU
                   (booted dead_imu_feed CALIB_IMU_RUNNING true)))
     = calib (booted dead_imu_feed CALIB_IMU_RUNNING true)
  /\ calib (snd (calibrate SensorOdom
                   (booted stuck_feed CALIB_ODOM_RUNNING true)))
     = calib (booted stuck_feed CALIB_ODOM_RUNNING true).
Proof.
  split; [|split].
  - destruct (calibrator_frame SensorLidar
                (booted blind_lidar_feed CALIB_LIDAR_RUNNING true))
      as (_ & H & _ & _).
    apply H; [vm_compute; reflexivity|discriminate|discriminate].
  - destruct (calibrator_frame SensorIMU
                (booted dead_imu_feed CALIB_IMU_RUNNING true))
      as (_ & _ & H & _).
    apply H; [reflexivity|].
    exists 0%nat; split; [unfold IMU_SAMPLES; lia|reflexivity].
  - destruct (calibrator_frame SensorOdom
                (booted stuck_feed CALIB_ODOM_RUNNING true))
      as (_ & _ & _ & H).
    apply H; reflexivity.
Defined.

(** C2 as stated fails: with 2000 pulses on the left wheel and 1000 on
    the right the odometer calibrator returns failure, and the
    pulses-per-meter of the left wheel is no longer the stored 1000. *)
Lemma failed_odometer_has_written :
  fst (calibrate_odometer (booted (wheels_feed 2000 1000)
                             CALIB_ODOM_RUNNING true)) = false
  /\ pulses_per_meter_left
       (calib (booted (wheels_feed 2000 1000) CALIB_ODOM_RUNNING true))
     = f_1000_0
  /\ pulses_per_meter_left
       (calib (snd (calibrate_odometer
                      (booted (wheels_feed 2000 1000)
                         CALIB_ODOM_RUNNING true))))
     = f_2000_0
  /\ calib (snd (calibrate_odometer
                   (booted (wheels_feed 2000 1000) CALIB_ODOM_RUNNING true)))
     <> calib (booted (wheels_feed 2000 1000) CALIB_ODOM_RUNNING true).
Proof.
  repeat split; try (vm_compute; reflexivity).
  intros H; apply (f_equal pulses_per_meter_left) in H.
  vm_compute in H; discriminate.
Qed.

(** The same for the IMU calibrator: samples that alternate between 0
    and 10 on one axis fail the noise test after the bias was written. *)
Lemma failed_imu_has_written :
  let feed :=
    {| feed_imu := fun i =>
         Some (imu_sample (if Nat.even i then f_0_0 else f_10_0) f_0_0 f_9_81);
       feed_mag := feed_mag bench_feed;
       feed_lidar := feed_lidar bench_feed;
       feed_battery := feed_battery bench_feed;
       feed_temp := feed_temp bench_feed;
       feed_move := feed_move bench_feed |} in
  let s := booted feed CALIB_IMU_RUNNING true in
  fst (calibrate_imu s) = false
  /\ imu_bias_x (calib s) = f_0_0
  /\ imu_bias_x (calib (snd (calibrate_imu s))) = f_5_0.
Proof. vm_compute; repeat split; reflexivity. Qed.

(** ** The odometer consistency test (C1) *)

(** C1, at an input where the code departs from it. The claim: the stage
    fails exactly when the counts differ by more than 15% of their
    average, or the move fails. The code: with 1000 pulses on the left
    wheel and 1001 on the right, a difference of a tenth of a percent,
    the move succeeds and the calibrator returns failure, because the
    difference of the two [uint32_t] counts wraps around to 2^32 - 1
    before [fabs] sees it. *)
Theorem odometer_rejects_close_counts :
  let s := booted (wheels_feed 1000 1001) CALIB_ODOM_RUNNING true in
  fst (move_forward_distance ODOM_TEST_DISTANCE_MM
         (delay_ms 100 (reset_encoder_counters s))) = true
  /\ counts_differ_too_much 1000 1001 = false
  /\ (1000 - 1001) mod UINT32_MOD = 4294967295
  /\ f_gt (encoder_error 1000 1001) f_0_15 = true
  /\ fst (calibrate_odometer s) = false.
Proof. vm_compute; repeat split; reflexivity. Qed.

(** What [fabs] is given when the left count is the smaller one. *)
Lemma encoder_difference_wraps :
  forall pulses_left pulses_right,
    0 <= pulses_left < pulses_right ->
    pulses_right < UINT32_MOD ->
    (pulses_left - pulses_right) mod UINT32_MOD
    = UINT32_MOD - (pulses_right - pulses_left).
Proof.
  unfold UINT32_MOD; intros l r H1 H2; Z.div_mod_to_equations; lia.
Qed.

(** With the counts the other way round the same difference passes, and
    another close pair with the smaller count on the left fails. *)
Lemma odometer_accepts_swapped_counts :
  let s := booted (wheels_feed 1001 1000) CALIB_ODOM_RUNNING true in
  counts_differ_too_much 1001 1000 = false
  /\ fst (calibrate_odometer s) = true
  /\ fst (calibrate_odometer
            (booted (wheels_feed 999 1000) CALIB_ODOM_RUNNING true)) = false
  /\ pulses_per_meter_left (calib (snd (calibrate_odometer s)))
     = f32_of_Z 1001
  /\ pulses_per_meter_right (calib (snd (calibrate_odometer s)))
     = f32_of_Z 1000.
Proof. vm_compute; repeat split; reflexivity. Qed.

(** ** Persistence: the record and its image (C8) *)

(** The number of binary digits of a mantissa brackets it between two
    powers of two. *)
Lemma digits2_pos_bounds :
  forall m : positive,
    2 ^ (Zpos (digits2_pos m) - 1) <= Zpos m < 2 ^ Zpos (digits2_pos m).
Proof.
  induction m as [m IH|m IH|]; simpl digits2_pos.
  - rewrite Pos2Z.inj_succ.
    replace (Z.succ (Zpos (digits2_pos m)) - 1)
      with (Z.succ (Zpos (digits2_pos m) - 1)) by lia.
    rewrite !Z.pow_succ_r by lia.
    rewrite (Pos2Z.inj_xI m); lia.
  - rewrite Pos2Z.inj_succ.
    replace (Z.succ (Zpos (digits2_pos m)) - 1)
      with (Z.succ (Zpos (digits2_pos m) - 1)) by lia.
    rewrite !Z.pow_succ_r by lia.
    rewrite (Pos2Z.inj_xO m); lia.
  - simpl; lia.
Qed.

(** A well-formed finite [float] is subnormal with exponent -149, or
    normal with a 24-bit mantissa and an exponent in [-149, 104]. *)
Lemma bounded_binary32 :
  forall m e, bounded 24 128 m e = true ->
    (Zpos m < 8388608 /\ e = -149)
    \/ (8388608 <= Zpos m < 16777216 /\ -149 <= e <= 104).
Proof.
  intros m e H; unfold bounded, canonical_mantissa, fexp, emin in H.
  apply andb_true_iff in H; destruct H as [Hc He].
  apply Z.eqb_eq in Hc; apply Z.leb_le in He.
  pose proof (digits2_pos_bounds m) as [Hlo Hhi].
  set (d := Zpos (digits2_pos m)) in *.
  assert (Hd : 0 < d) by (unfold d; lia).
  destruct (Z_lt_le_dec d 24) as [Hlt|Hge].
  - left; split; [|lia].
    apply Z.lt_le_trans with (2 ^ d); [exact Hhi|].
    change 8388608 with (2 ^ 23); apply Z.pow_le_mono_r; lia.
  - right.
    assert (d = 24) by lia.
    replace d with 24 in * by lia.
    change (2 ^ (24 - 1)) with 8388608 in Hlo.
    change (2 ^ 24) with 16777216 in Hhi; lia.
Qed.

Lemma f32_bits_range :
  forall x, f32_valid x = true -> 0 <= f32_bits x < UINT32_MOD.
Proof.
  intros [s|s| |s m e] H; unfold f32_bits, sign_bit, UINT32_MOD.
  - destruct s; lia.
  - destruct s; lia.
  - lia.
  - apply bounded_binary32 in H.
    destruct (Zpos m <? 8388608) eqn:E;
      [apply Z.ltb_lt in E|apply Z.ltb_ge in E]; destruct s; lia.
Qed.

(** Reading back the bits of a well-formed [float] gives the [float]. *)
Lemma f32_of_bits_bits :
  forall x, f32_valid x = true -> f32_of_bits (f32_bits x) = x.
Proof.
  intros [s|s| |s m e] H; unfold f32_bits, sign_bit.
  - destruct s; reflexivity.
  - destruct s; reflexivity.
  - reflexivity.
  - apply bounded_binary32 in H.
    destruct (Zpos m <? 8388608) eqn:E;
      [apply Z.ltb_lt in E|apply Z.ltb_ge in E].
    + assert (He : e = -149) by lia; subst e.
      set (w := (if s then 2147483648 else 0) + Zpos m).
      assert (Hs : (2147483648 <=? w) = s).
      { unfold w; destruct s; [apply Z.leb_le|apply Z.leb_gt]; lia. }
      assert (Hex : (w / 8388608) mod 256 = 0).
      { unfold w; destruct s; Z.div_mod_to_equations; lia. }
      assert (Hm : w mod 8388608 = Zpos m).
      { unfold w; destruct s; Z.div_mod_to_equations; lia. }
      unfold f32_of_bits; rewrite Hs, Hex, Hm; reflexivity.
    + set (w := (if s then 2147483648 else 0) + (e + 150) * 8388608
                + (Zpos m - 8388608)).
      assert (Hs : (2147483648 <=? w) = s).
      { unfold w; destruct s; [apply Z.leb_le|apply Z.leb_gt]; lia. }
      assert (Hex : (w / 8388608) mod 256 = e + 150).
      { unfold w; destruct s; Z.div_mod_to_equations; lia. }
      assert (Hm : w mod 8388608 = Zpos m - 8388608).
      { unfold w; destruct s; Z.div_mod_to_equations; lia. }
      unfold f32_of_bits; rewrite Hs, Hex, Hm.
      destruct (e + 150 =? 0) eqn:E0; [apply Z.eqb_eq in E0; lia|].
      destruct (e + 150 =? 255) eqn:E1; [apply Z.eqb_eq in E1; lia|].
      replace (Zpos m - 8388608 + 8388608) with (Zpos m) by lia.
      replace (e + 150 - 150) with e by lia.
      reflexivity.
Qed.

Lemma get_u16_le_bytes2 :
  forall w l, 0 <= w < UINT16_MOD -> get_u16 (le_bytes2 w ++ l) = (w, l).
Proof.
  unfold UINT16_MOD; intros w l H.
  unfold get_u16, get_u8, le_bytes2; cbn [app].
  f_equal; Z.div_mod_to_equations; lia.
Qed.

Lemma get_u32_le_bytes4 :
  forall w l, 0 <= w < UINT32_MOD -> get_u32 (le_bytes4 w ++ l) = (w, l).
Proof.
  unfold UINT32_MOD; intros w l H.
  unfold get_u32, get_u16, get_u8, le_bytes4; cbn [app].
  f_equal; Z.div_mod_to_equations; lia.
Qed.

Lemma get_f32_le_bytes4 :
  forall x l, f32_valid x = true ->
    get_f32 (le_bytes4 (f32_bits x) ++ l) = (x, l).
Proof.
  intros x l H; unfold get_f32.
  rewrite get_u32_le_bytes4 by (apply f32_bits_range; exact H).
  rewrite f32_of_bits_bits by exact H; reflexivity.
Qed.

Lemma uint_ok_range :
  forall bound w, uint_ok bound w = true -> 0 <= w < bound.
Proof.
  unfold uint_ok; intros bound w H.
  apply andb_true_iff in H; destruct H as [H1 H2].
  apply Z.leb_le in H1; apply Z.ltb_lt in H2; lia.
Qed.

(** The image of a well-formed record decodes to that record. *)
Lemma calib_of_bytes_of_calib :
  forall c, calib_wf c = true -> calib_of_bytes (bytes_of_calib c) = c.
Proof.
  intros c H; unfold calib_wf in H.
  do 27 (apply andb_true_iff in H; let H' := fresh "Hf" in
         destruct H as [H H']).
  destruct c; cbn [magic imu_bias_x imu_bias_y imu_bias_z imu_scale_x
    imu_scale_y imu_scale_z mag_offset_x mag_offset_y mag_offset_z
    mag_scale_x mag_scale_y mag_scale_z pulses_per_meter_left
    pulses_per_meter_right lidar_offset_distance lidar_angle_offset
    camera_focal_length camera_principal_point_x camera_principal_point_y
    camera_distortion_k1 camera_distortion_k2 battery_voltage_offset
    battery_voltage_scale temp_offset timestamp calibration_count status]
    in *.
  unfold calib_of_bytes, bytes_of_calib;
    cbn [magic imu_bias_x imu_bias_y imu_bias_z imu_scale_x
    imu_scale_y imu_scale_z mag_offset_x mag_offset_y mag_offset_z
    mag_scale_x mag_scale_y mag_scale_z pulses_per_meter_left
    pulses_per_meter_right lidar_offset_distance lidar_angle_offset
    camera_focal_length camera_principal_point_x camera_principal_point_y
    camera_distortion_k1 camera_distortion_k2 battery_voltage_offset
    battery_voltage_scale temp_offset timestamp calibration_count status].
  rewrite get_u32_le_bytes4 by (apply uint_ok_range; assumption).
  rewrite !get_f32_le_bytes4 by assumption.
  rewrite get_u32_le_bytes4 by (apply uint_ok_range; assumption).
  rewrite get_u16_le_bytes2 by (apply uint_ok_range; assumption).
  cbn [get_u8].
  rewrite Z.mod_small by (apply uint_ok_range; assumption).
  reflexivity.
Qed.

Lemma bytes_of_calib_length :
  forall c, length (bytes_of_calib c) = CALIB_EEPROM_SIZE.
Proof. intros c; reflexivity. Qed.

Lemma store_bytes_below :
  forall data addr mem a, a < addr -> store_bytes addr data mem a = mem a.
Proof.
  induction data as [|b rest IH]; intros addr mem a H; simpl.
  - reflexivity.
  - rewrite IH by lia.
    destruct (a =? addr) eqn:E; [apply Z.eqb_eq in E; lia|reflexivity].
Qed.

Lemma load_bytes_S :
  forall addr n mem,
    load_bytes addr (S n) mem = mem addr :: load_bytes (addr + 1) n mem.
Proof.
  intros addr n mem; unfold load_bytes; simpl.
  rewrite Z.add_0_r; f_equal.
  rewrite <- seq_shift, map_map.
  apply map_ext; intros i; f_equal; lia.
Qed.

(** The byte-range store returns what was written to it. *)
Lemma load_store_bytes :
  forall data addr mem,
    load_bytes addr (length data) (store_bytes addr data mem) = data.
Proof.
  induction data as [|b rest IH]; intros addr mem.
  - reflexivity.
  - simpl length; rewrite load_bytes_S; simpl store_bytes.
    rewrite IH, store_bytes_below by lia.
    rewrite Z.eqb_refl; reflexivity.
Qed.

Lemma load_store_calib :
  forall c mem,
    load_bytes CALIB_EEPROM_ADDR CALIB_EEPROM_SIZE
      (store_bytes CALIB_EEPROM_ADDR (bytes_of_calib c) mem)
    = bytes_of_calib c.
Proof.
  intros c mem; rewrite <- (bytes_of_calib_length c); apply load_store_bytes.
Qed.

(** What the EEPROM holds after a save. *)
Lemma eeprom_read_after_save :
  forall c s,
    eeprom_read CALIB_EEPROM_ADDR CALIB_EEPROM_SIZE
      (save_calibration_to_eeprom c s) = bytes_of_calib c.
Proof.
  intros c s; unfold eeprom_read, save_calibration_to_eeprom, eeprom_write.
  cbn [hw set_hw hw_eeprom set_hw_eeprom_writes set_hw_eeprom].
  apply load_store_calib.
Qed.

(** C8: for every calibration record, of well-formed field values, that
    has the matching magic and status Valid when it is saved, loading
    from the EEPROM after saving yields a record equal to it field for
    field. *)
Theorem load_after_save :
  forall (c : SensorCalibration_t) (s : State),
    calib_wf c = true ->
    status c = CALIB_VALID ->
    magic c = CALIB_MAGIC ->
    calib (load_calibration_from_eeprom (save_calibration_to_eeprom c s)) = c.
Proof.
  intros c s Hwf Hstatus Hmagic; unfold load_calibration_from_eeprom.
  rewrite eeprom_read_after_save, calib_of_bytes_of_calib by exact Hwf.
  rewrite Hstatus, Hmagic; reflexivity.
Qed.

(** A calibrated record written by a complete sequence and read back. *)
Lemma load_after_save_witness :
  let c := calib (ticks 17 (booted bench_feed CALIB_IDLE true)) in
  calib (load_calibration_from_eeprom
           (save_calibration_to_eeprom c (booted bench_feed CALIB_IDLE false)))
  = c.
Proof.
  intros c.
  apply (load_after_save c (booted bench_feed CALIB_IDLE false));
    vm_compute; reflexivity.
Defined.

(** A record that is not Valid when saved does not come back: the load
    replaces it by the defaults. *)
Lemma load_after_save_invalid :
  forall c s,
    calib_wf c = true ->
    status c <> CALIB_VALID ->
    calib (load_calibration_from_eeprom (save_calibration_to_eeprom c s))
    = init_default_calibration c.
Proof.
  intros c s Hwf Hstatus; unfold load_calibration_from_eeprom.
  rewrite eeprom_read_after_save, calib_of_bytes_of_calib by exact Hwf.
  destruct (status c =? CALIB_VALID) eqn:E; [|reflexivity].
  apply Z.eqb_eq in E; contradiction.
Qed.

(** ** The state machine, one call at a time *)

Lemma ticks_S_r :
  forall n s, ticks (S n) s = calibration_state_machine (ticks n s).
Proof.
  induction n as [|n IH]; intros s.
  - reflexivity.
  - change (ticks (S (S n)) s) with (ticks (S n) (calibration_state_machine s)).
    rewrite IH; reflexivity.
Qed.

Lemma tick_idle_requested :
  forall s, calib_state s = CALIB_IDLE -> calibration_requested s = true ->
    calibration_state_machine s
    = set_phase_start_time (get_time_ms s) (set_calib_state CALIB_IMU_INIT s).
Proof.
  intros s H1 H2; unfold calibration_state_machine; rewrite H1, H2.
  reflexivity.
Qed.

Lemma tick_idle_not_requested :
  forall s, calib_state s = CALIB_IDLE -> calibration_requested s = false ->
    calibration_state_machine s = s.
Proof.
  intros s H1 H2; unfold calibration_state_machine; rewrite H1, H2.
  reflexivity.
Qed.

Lemma tick_init :
  forall k s, calib_state s = init_state k ->
    calibration_state_machine s = init_stage (running_state k) s.
Proof.
  intros k s H; unfold calibration_state_machine; rewrite H.
  destruct k; reflexivity.
Qed.

Lemma tick_running :
  forall k s, calib_state s = running_state k ->
    calibration_state_machine s = run_stage (calibrate k) (next_state k) s.
Proof.
  intros k s H; unfold calibration_state_machine; rewrite H.
  destruct k; reflexivity.
Qed.

Lemma tick_complete :
  forall s, calib_state s = CALIB_COMPLETE ->
    calibration_state_machine s
    = let c :=
        set_calibration_count
          ((calibration_count (calib s) + 1) mod UINT16_MOD)
          (set_timestamp (get_time_ms s)
             (set_status CALIB_VALID (calib s))) in
      set_calibration_requested false
        (set_calib_state CALIB_IDLE
           (save_calibration_to_eeprom c (set_calib c s))).
Proof.
  intros s H; unfold calibration_state_machine; rewrite H; reflexivity.
Qed.

(** What the action of [CALIB_COMPLETE] does. *)
Lemma tick_complete_effects :
  forall s, calib_state s = CALIB_COMPLETE ->
    calib_state (calibration_state_machine s) = CALIB_IDLE
    /\ calibration_requested (calibration_state_machine s) = false
    /\ status (calib (calibration_state_machine s)) = CALIB_VALID
    /\ calibration_count (calib (calibration_state_machine s))
       = (calibration_count (calib s) + 1) mod UINT16_MOD
    /\ timestamp (calib (calibration_state_machine s)) = get_time_ms s
    /\ hw_eeprom_writes (hw (calibration_state_machine s))
       = S (hw_eeprom_writes (hw s))
    /\ eeprom_read CALIB_EEPROM_ADDR CALIB_EEPROM_SIZE
         (calibration_state_machine s)
       = bytes_of_calib (calib (calibration_state_machine s)).
Proof.
  intros s H; rewrite (tick_complete s H); cbv zeta.
  repeat (split; [reflexivity|]).
  unfold eeprom_read.
  cbn [calib hw set_calibration_requested set_calib_state set_calib
       save_calibration_to_eeprom eeprom_write set_hw
       hw_eeprom set_hw_eeprom_writes set_hw_eeprom].
  apply load_store_calib.
Qed.

Lemma tick_error :
  forall s, calib_state s = CALIB_ERROR ->
    calibration_state_machine s
    = set_calibration_requested false
        (set_calib_state CALIB_IDLE
           (set_calib (set_status CALIB_INVALID (calib s)) s)).
Proof.
  intros s H; unfold calibration_state_machine; rewrite H; reflexivity.
Qed.

(** The state after the [Running] case of a sensor. *)
Lemma run_stage_state :
  forall k next s,
    calib_state (run_stage (calibrate k) next s)
    = if fst (calibrate k s) then next else CALIB_ERROR.
Proof.
  intros k next s; unfold run_stage.
  destruct (calibrate k s) as [[|] s1]; reflexivity.
Qed.

Lemma run_stage_record :
  forall k next s,
    calib (run_stage (calibrate k) next s) = calib (snd (calibrate k s)).
Proof.
  intros k next s; unfold run_stage.
  destruct (calibrate k s) as [[|] s1]; reflexivity.
Qed.

Lemma run_stage_hw :
  forall k next s,
    hw (run_stage (calibrate k) next s) = hw (snd (calibrate k s)).
Proof.
  intros k next s; unfold run_stage.
  destruct (calibrate k s) as [[|] s1]; reflexivity.
Qed.

Lemma run_stage_requested :
  forall k next s,
    calibration_requested (run_stage (calibrate k) next s)
    = calibration_requested s.
Proof.
  intros k next s; unfold run_stage.
  pose proof (calibrate_sequencer_kept k s) as (_ & H & _).
  destruct (calibrate k s) as [[|] s1]; exact H.
Qed.

(** Every state is the [Init] or the [Running] state of a sensor, or one
    of the five other states. *)
Lemma state_cases :
  forall st,
    st = CALIB_IDLE \/ st = CALIB_VALIDATE \/ st = CALIB_COMPLETE
    \/ st = CALIB_ERROR
    \/ (exists k, st = init_state k) \/ (exists k, st = running_state k).
Proof.
  intros [];
    try (left; reflexivity);
    try (right; left; reflexivity);
    try (right; right; left; reflexivity);
    try (right; right; right; left; reflexivity);
    first
      [ right; right; right; right; left;
        first [ exists SensorIMU; reflexivity | exists SensorMag; reflexivity
              | exists SensorOdom; reflexivity
              | exists SensorLidar; reflexivity
              | exists SensorCamera; reflexivity
              | exists SensorBattery; reflexivity
              | exists SensorTemp; reflexivity ]
      | right; right; right; right; right;
        first [ exists SensorIMU; reflexivity | exists SensorMag; reflexivity
              | exists SensorOdom; reflexivity
              | exists SensorLidar; reflexivity
              | exists SensorCamera; reflexivity
              | exists SensorBattery; reflexivity
              | exists SensorTemp; reflexivity ] ].
Qed.

(** Only the action of [CALIB_COMPLETE] writes to the EEPROM. *)
Lemma tick_nothing_persisted :
  forall s, calib_state s <> CALIB_COMPLETE ->
    nothing_persisted s (calibration_state_machine s).
Proof.
  intros s Hc.
  destruct (state_cases (calib_state s))
    as [H|[H|[H|[H|[[k H]|[k H]]]]]].
  - unfold calibration_state_machine; rewrite H.
    destruct (calibration_requested s); split; reflexivity.
  - unfold calibration_state_machine; rewrite H.
    destruct (validate_calibration _); split; reflexivity.
  - contradiction.
  - rewrite (tick_error s H); split; reflexivity.
  - rewrite (tick_init k s H); split; reflexivity.
  - rewrite (tick_running k s H); unfold nothing_persisted.
    rewrite run_stage_hw.
    pose proof (calibrate_sequencer_kept k s) as (_ & _ & _ & _ & _ & H1 & H2).
    split; assumption.
Qed.

(** Only the actions of [CALIB_COMPLETE] and [CALIB_ERROR] write to the
    metadata of the record. *)
Lemma tick_metadata_kept :
  forall s, calib_state s <> CALIB_COMPLETE -> calib_state s <> CALIB_ERROR ->
    metadata_kept s (calibration_state_machine s).
Proof.
  intros s Hc He.
  destruct (state_cases (calib_state s))
    as [H|[H|[H|[H|[[k H]|[k H]]]]]]; try contradiction.
  - unfold calibration_state_machine; rewrite H.
    destruct (calibration_requested s); repeat split.
  - unfold calibration_state_machine; rewrite H.
    destruct (validate_calibration _); repeat split.
  - rewrite (tick_init k s H); repeat split.
  - rewrite (tick_running k s H); unfold metadata_kept.
    rewrite run_stage_record; apply calibrate_metadata.
Qed.

(** A call of the state machine brings the action of [CALIB_COMPLETE]
    at most one call nearer. *)
Lemma tick_distance :
  forall s,
    (ticks_to_complete (calib_state s)
     <= S (ticks_to_complete (calib_state (calibration_state_machine s))))%nat.
Proof.
  intros s.
  destruct (state_cases (calib_state s))
    as [H|[H|[H|[H|[[k H]|[k H]]]]]].
  - unfold calibration_state_machine; rewrite H.
    destruct (calibration_requested s); [simpl; lia|rewrite H; simpl; lia].
  - unfold calibration_state_machine; rewrite H.
    destruct (validate_calibration _); simpl; lia.
  - rewrite H; simpl; lia.
  - rewrite (tick_error s H), H; simpl; lia.
  - rewrite (tick_init k s H), H; destruct k; simpl; lia.
  - rewrite (tick_running k s H), run_stage_state, H.
    destruct (fst (calibrate k s)); destruct k; simpl; lia.
Qed.

Lemma monitor_sequencer_kept :
  forall s,
    calib_state (monitor_sensor_drift s) = calib_state s
    /\ nothing_persisted s (monitor_sensor_drift s).
Proof.
  intros s; unfold monitor_sensor_drift, nothing_persisted.
  destruct (_ <? _); [repeat split|].
  unfold read_imu_raw; cbn [hw set_last_check].
  destruct (feed_imu _ _); cbn [negb]; [|repeat split].
  destruct (_ || _); repeat split.
Qed.

Lemma request_sequencer_kept :
  forall s,
    calib_state (request_calibration s) = calib_state s
    /\ calib (request_calibration s) = calib s
    /\ nothing_persisted s (request_calibration s).
Proof.
  intros s; unfold request_calibration, nothing_persisted.
  destruct (negb _); repeat split.
Qed.

Lemma step_distance :
  forall ev s,
    (ticks_to_complete (calib_state s)
     <= (if is_tick ev then 1 else 0)
        + ticks_to_complete (calib_state (step ev s)))%nat.
Proof.
  intros [| | |ms] s; simpl.
  - apply tick_distance.
  - destruct (monitor_sequencer_kept s) as [-> _]; lia.
  - destruct (request_sequencer_kept s) as [-> _]; lia.
  - lia.
Qed.

Lemma run_cons :
  forall ev evs s, run (ev :: evs) s = run evs (step ev s).
Proof. reflexivity. Qed.

Lemma run_app :
  forall pre post s, run (pre ++ post) s = run post (run pre s).
Proof. intros pre post s; apply fold_left_app. Qed.

(** An execution that reaches a state holds at least as many calls of
    the state machine as that state is nearer to [CALIB_COMPLETE]. *)
Lemma run_distance :
  forall evs s,
    (ticks_to_complete (calib_state s)
     <= tick_count evs + ticks_to_complete (calib_state (run evs s)))%nat.
Proof.
  induction evs as [|ev evs IH]; intros s.
  - simpl; lia.
  - rewrite run_cons.
    pose proof (step_distance ev s) as H1.
    pose proof (IH (step ev s)) as H2.
    unfold tick_count in *; simpl filter.
    destruct (is_tick ev); simpl length; lia.
Qed.

Lemma ticks_as_run :
  forall n s, ticks n s = run (repeat Tick n) s.
Proof.
  induction n as [|n IH]; intros s; [reflexivity|].
  simpl repeat; rewrite run_cons, <- IH; reflexivity.
Qed.

Lemma tick_count_repeat : forall n, tick_count (repeat Tick n) = n.
Proof.
  induction n as [|n IH]; [reflexivity|].
  unfold tick_count in *; simpl; rewrite IH; reflexivity.
Qed.

(** From [CALIB_IDLE], fewer than sixteen calls do not reach
    [CALIB_COMPLETE], and fewer than seventeen write nothing to the
    EEPROM. *)
Lemma ticks_before_complete :
  forall n s, calib_state s = CALIB_IDLE -> (n < 16)%nat ->
    calib_state (ticks n s) <> CALIB_COMPLETE.
Proof.
  intros n s H Hn Hc.
  pose proof (run_distance (repeat Tick n) s) as Hd.
  rewrite <- ticks_as_run, tick_count_repeat, H, Hc in Hd.
  simpl in Hd; lia.
Qed.

Lemma ticks_nothing_persisted :
  forall n s,
    (forall j, (j < n)%nat -> calib_state (ticks j s) <> CALIB_COMPLETE) ->
    nothing_persisted s (ticks n s).
Proof.
  induction n as [|n IH]; intros s H.
  - split; reflexivity.
  - rewrite ticks_S_r.
    destruct (IH s) as [H1 H2]; [intros j Hj; apply H; lia|].
    destruct (tick_nothing_persisted (ticks n s)) as [H3 H4];
      [apply H; lia|].
    split; congruence.
Qed.

Lemma ticks_metadata_kept :
  forall n s,
    (forall j, (j < n)%nat ->
       calib_state (ticks j s) <> CALIB_COMPLETE
       /\ calib_state (ticks j s) <> CALIB_ERROR) ->
    metadata_kept s (ticks n s).
Proof.
  induction n as [|n IH]; intros s H.
  - repeat split.
  - rewrite ticks_S_r.
    destruct (IH s) as (H1 & H2 & H3 & H4); [intros j Hj; apply H; lia|].
    destruct (tick_metadata_kept (ticks n s)) as (H5 & H6 & H7 & H8);
      [apply H; lia|apply H; lia|].
    repeat split; congruence.
Qed.

(** ** A complete calibration sequence (C3) *)

(** C3, as the code has it: from Idle with a pending request, when the
    seven calibrators succeed and the record passes validation, sixteen
    calls of the state machine go through the states in order and reach
    Complete with the metadata of the record and the EEPROM still
    untouched; the seventeenth call, the action of Complete, sets the
    status to Valid, records the timestamp, increments the 16-bit run
    counter by one, writes the record to the EEPROM, returns to Idle and
    clears the request. *)
Theorem full_sequence_completes :
  forall s,
    calib_state s = CALIB_IDLE ->
    calibration_requested s = true ->
    fst (calibrate_imu (ticks 2 s)) = true ->
    fst (calibrate_magnetometer (ticks 4 s)) = true ->
    fst (calibrate_odometer (ticks 6 s)) = true ->
    fst (calibrate_lidar (ticks 8 s)) = true ->
    fst (calibrate_camera (ticks 10 s)) = true ->
    fst (calibrate_battery (ticks 12 s)) = true ->
    fst (calibrate_temperature (ticks 14 s)) = true ->
    validate_calibration (calib (ticks 15 s)) = true ->
    calib_state (ticks 16 s) = CALIB_COMPLETE
    /\ (forall n, (n <= 16)%nat ->
          ticks_to_complete (calib_state (ticks n s)) = (16 - n)%nat
          /\ metadata_kept s (ticks n s)
          /\ nothing_persisted s (ticks n s))
    /\ calib_state (ticks 17 s) = CALIB_IDLE
    /\ calibration_requested (ticks 17 s) = false
    /\ status (calib (ticks 17 s)) = CALIB_VALID
    /\ calibration_count (calib (ticks 17 s))
       = (calibration_count (calib s) + 1) mod UINT16_MOD
    /\ timestamp (calib (ticks 17 s)) = get_time_ms (ticks 16 s)
    /\ hw_eeprom_writes (hw (ticks 17 s)) = S (hw_eeprom_writes (hw s))
    /\ eeprom_read CALIB_EEPROM_ADDR CALIB_EEPROM_SIZE (ticks 17 s)
       = bytes_of_calib (calib (ticks 17 s)).
Proof.
  intros s H0 Hreq Himu Hmag Hodom Hlidar Hcam Hbat Htemp Hval.
  change (calib_state (ticks 0 s) = CALIB_IDLE) in H0.
  assert (H1 : calib_state (ticks 1 s) = CALIB_IMU_INIT).
  { rewrite ticks_S_r, (tick_idle_requested _ H0 Hreq); reflexivity. }
  assert (H2 : calib_state (ticks 2 s) = CALIB_IMU_RUNNING).
  { rewrite ticks_S_r, (tick_init SensorIMU _ H1); reflexivity. }
  assert (H3 : calib_state (ticks 3 s) = CALIB_MAG_INIT).
  { rewrite ticks_S_r, (tick_running SensorIMU _ H2), run_stage_state.
    cbn [calibrate]; rewrite Himu; reflexivity. }
  assert (H4 : calib_state (ticks 4 s) = CALIB_MAG_RUNNING).
  { rewrite ticks_S_r, (tick_init SensorMag _ H3); reflexivity. }
  assert (H5 : calib_state (ticks 5 s) = CALIB_ODOM_INIT).
  { rewrite ticks_S_r, (tick_running SensorMag _ H4), run_stage_state.
    cbn [calibrate]; rewrite Hmag; reflexivity. }
  assert (H6 : calib_state (ticks 6 s) = CALIB_ODOM_RUNNING).
  { rewrite ticks_S_r, (tick_init SensorOdom _ H5); reflexivity. }
  assert (H7 : calib_state (ticks 7 s) = CALIB_LIDAR_INIT).
  { rewrite ticks_S_r, (tick_running SensorOdom _ H6), run_stage_state.
    cbn [calibrate]; rewrite Hodom; reflexivity. }
  assert (H8 : calib_state (ticks 8 s) = CALIB_LIDAR_RUNNING).
  { rewrite ticks_S_r, (tick_init SensorLidar _ H7); reflexivity. }
  assert (H9 : calib_state (ticks 9 s) = CALIB_CAMERA_INIT).
  { rewrite ticks_S_r, (tick_running SensorLidar _ H8), run_stage_state.
    cbn [calibrate]; rewrite Hlidar; reflexivity. }
  assert (H10 : calib_state (ticks 10 s) = CALIB_CAMERA_RUNNING).
  { rewrite ticks_S_r, (tick_init SensorCamera _ H9); reflexivity. }
  assert (H11 : calib_state (ticks 11 s) = CALIB_BATTERY_INIT).
  { rewrite ticks_S_r, (tick_running SensorCamera _ H10), run_stage_state.
    cbn [calibrate]; rewrite Hcam; reflexivity. }
  assert (H12 : calib_state (ticks 12 s) = CALIB_BATTERY_RUNNING).
  { rewrite ticks_S_r, (tick_init SensorBattery _ H11); reflexivity. }
  assert (H13 : calib_state (ticks 13 s) = CALIB_TEMP_INIT).
  { rewrite ticks_S_r, (tick_running SensorBattery _ H12), run_stage_state.
    cbn [calibrate]; rewrite Hbat; reflexivity. }
  assert (H14 : calib_state (ticks 14 s) = CALIB_TEMP_RUNNING).
  { rewrite ticks_S_r, (tick_init SensorTemp _ H13); reflexivity. }
  assert (H15 : calib_state (ticks 15 s) = CALIB_VALIDATE).
  { rewrite ticks_S_r, (tick_running SensorTemp _ H14), run_stage_state.
    cbn [calibrate]; rewrite Htemp; reflexivity. }
  assert (H16 : calib_state (ticks 16 s) = CALIB_COMPLETE).
  { rewrite ticks_S_r; unfold calibration_state_machine.
    rewrite H15, Hval; reflexivity. }
  assert (Hstates : forall n, (n <= 16)%nat ->
            ticks_to_complete (calib_state (ticks n s)) = (16 - n)%nat).
  { intros n Hn.
    do 17 (destruct n as [|n];
           [match goal with
            | H : calib_state (ticks ?k s) = _
              |- context [calib_state (ticks ?k s)] => rewrite H; reflexivity
            end|]).
    lia. }
  assert (Hquiet : forall j, (j < 16)%nat ->
            calib_state (ticks j s) <> CALIB_COMPLETE
            /\ calib_state (ticks j s) <> CALIB_ERROR).
  { intros j Hj; assert (Hd := Hstates j (Nat.lt_le_incl _ _ Hj)).
    split; intros E; rewrite E in Hd; cbn [ticks_to_complete] in Hd; lia. }
  assert (Hkept : forall n, (n <= 16)%nat ->
            metadata_kept s (ticks n s) /\ nothing_persisted s (ticks n s)).
  { intros n Hn; split.
    - apply ticks_metadata_kept; intros j Hj; apply Hquiet; lia.
    - apply ticks_nothing_persisted; intros j Hj; apply Hquiet; lia. }
  destruct (Hkept 16%nat) as [(_ & _ & Hcount & _) [_ Hwrites]]; [lia|].
  split; [exact H16|].
  split; [intros n Hn; split; [apply Hstates|apply Hkept]; exact Hn|].
  rewrite (ticks_S_r 16).
  destruct (tick_complete_effects _ H16) as (E1 & E2 & E3 & E4 & E5 & E6 & E7).
  rewrite Hcount in E4; rewrite Hwrites in E6.
  repeat (split; [assumption|]); assumption.
Qed.

(** The bench on which every stage passes. *)
Lemma full_sequence_completes_witness :
  calib_state (ticks 16 (booted bench_feed CALIB_IDLE true)) = CALIB_COMPLETE.
Proof.
  refine (proj1 (full_sequence_completes _ _ _ _ _ _ _ _ _ _ _));
    vm_compute; reflexivity.
Defined.

(** C3 as stated fails: on that bench the sixteenth call reaches
    Complete, and the status is still Invalid, the run counter is still
    0 and nothing has been written to the EEPROM. *)
Lemma sixteen_ticks_not_yet_valid :
  let s := booted bench_feed CALIB_IDLE true in
  calib_state (ticks 16 s) = CALIB_COMPLETE
  /\ status (calib (ticks 16 s)) = CALIB_INVALID
  /\ status (calib (ticks 16 s)) <> CALIB_VALID
  /\ calibration_count (calib (ticks 16 s)) = calibration_count (calib s)
  /\ calibration_count (calib (ticks 16 s))
     <> calibration_count (calib s) + 1
  /\ hw_eeprom_writes (hw (ticks 16 s)) = 0%nat.
Proof. vm_compute; repeat split; discriminate. Qed.

(** ** A failure of the ranging calibrator (C4) *)

(** A failed read among the next [n] ends the ranging loop, and only a
    failed read does. *)
Lemma lidar_collect_read_fails :
  forall n a b s,
    lidar_read_fails n s <-> fst (lidar_collect n a b s) = None.
Proof.
  induction n as [|n IH]; intros a b s; simpl.
  - split; [intros (i & Hi & _); inversion Hi|discriminate].
  - destruct (f_lt (feed_lidar (hw_feed (hw s)) (hw_lidar_reads (hw s)))
                f_0_0) eqn:E; simpl.
    + split; [reflexivity|intros _].
      exists 0%nat; split; [lia|rewrite Nat.add_0_r; exact E].
    + rewrite <- IH; split; intros (i & Hi & Hf).
      * destruct i as [|i]; [rewrite Nat.add_0_r in Hf; congruence|].
        exists i; split; [lia|].
        simpl; rewrite <- Nat.add_succ_r; exact Hf.
      * exists (S i); split; [lia|].
        simpl in Hf; rewrite Nat.add_succ_r; exact Hf.
Qed.

(** The LiDAR calibrator reports failure exactly on a read failure. *)
Lemma calibrate_lidar_fails_iff :
  forall s,
    fst (calibrate_lidar s) = false <-> lidar_read_fails LIDAR_SAMPLES s.
Proof.
  intros s; rewrite (lidar_collect_read_fails LIDAR_SAMPLES f_0_0 f_0_0 s).
  unfold calibrate_lidar.
  destruct (lidar_collect _ _ _ _) as [[[a b]|] s1]; simpl;
    split; congruence.
Qed.

(** C4: in a run started from Idle with a pending request, if a read of
    the LiDAR calibrator fails in its Running call (the ninth), the
    state machine is in Error after that call and in Idle after the
    next, with status Invalid and the request cleared; a further call
    changes nothing; and no call of the run has written to the EEPROM. *)
Theorem lidar_failure_aborts :
  forall s,
    calib_state s = CALIB_IDLE ->
    calibration_requested s = true ->
    calib_state (ticks 8 s) = CALIB_LIDAR_RUNNING ->
    lidar_read_fails LIDAR_SAMPLES (ticks 8 s) ->
    fst (calibrate_lidar (ticks 8 s)) = false
    /\ calib_state (ticks 9 s) = CALIB_ERROR
    /\ calib_state (ticks 10 s) = CALIB_IDLE
    /\ calibration_requested (ticks 10 s) = false
    /\ status (calib (ticks 10 s)) = CALIB_INVALID
    /\ ticks 11 s = ticks 10 s
    /\ (forall n, (n <= 11)%nat -> nothing_persisted s (ticks n s)).
Proof.
  intros s H0 Hreq H8 Hread.
  assert (Hfail : fst (calibrate_lidar (ticks 8 s)) = false)
    by (apply calibrate_lidar_fails_iff; exact Hread).
  assert (H9 : calib_state (ticks 9 s) = CALIB_ERROR).
  { rewrite ticks_S_r, (tick_running SensorLidar _ H8), run_stage_state.
    cbn [calibrate]; rewrite Hfail; reflexivity. }
  assert (H10 : calib_state (ticks 10 s) = CALIB_IDLE).
  { rewrite ticks_S_r, (tick_error _ H9); reflexivity. }
  assert (Hreq10 : calibration_requested (ticks 10 s) = false).
  { rewrite ticks_S_r, (tick_error _ H9); reflexivity. }
  repeat split; try assumption.
  - rewrite ticks_S_r, (tick_error _ H9); reflexivity.
  - rewrite (ticks_S_r 10); apply tick_idle_not_requested; assumption.
  - apply ticks_nothing_persisted; intros j Hj.
    destruct (Nat.lt_ge_cases j 8) as [Hlt|Hge].
    + apply ticks_before_complete; [exact H0|lia].
    + assert (Hj' : j = 8%nat \/ j = 9%nat \/ j = 10%nat) by lia.
      destruct Hj' as [-> | [-> | ->]]; congruence.
  - apply ticks_nothing_persisted; intros j Hj.
    destruct (Nat.lt_ge_cases j 8) as [Hlt|Hge].
    + apply ticks_before_complete; [exact H0|lia].
    + assert (Hj' : j = 8%nat \/ j = 9%nat \/ j = 10%nat) by lia.
      destruct Hj' as [-> | [-> | ->]]; congruence.
Qed.

(** The bench with a LiDAR that answers its failure sentinel. *)
Lemma lidar_failure_aborts_witness :
  calib_state (ticks 9 (booted blind_lidar_feed CALIB_IDLE true))
  = CALIB_ERROR
  /\ calib_state (ticks 10 (booted blind_lidar_feed CALIB_IDLE true))
     = CALIB_IDLE.
Proof.
  destruct (lidar_failure_aborts (booted blind_lidar_feed CALIB_IDLE true))
    as (_ & H9 & H10 & _);
    [reflexivity|reflexivity|vm_compute; reflexivity| |split; assumption].
  exists 0%nat; split; [unfold LIDAR_SAMPLES; lia|vm_compute; reflexivity].
Defined.

(** ** Where the status Valid comes from (C5) *)










(** ** Facts about the floating-point model *)

(** *** Rounding to a format *)

Lemma digits2_pos_unique :
  forall m d, 2 ^ (d - 1) <= Zpos m < 2 ^ d -> Zpos (digits2_pos m) = d.
Proof.
  intros m d [Hlo Hhi].
  pose proof (digits2_pos_bounds m) as [Blo Bhi].
  assert (Hd : 0 < d).
  { destruct (Z.ltb_spec 0 d) as [H|H]; [exact H|exfalso].
    assert (2 ^ d <= 2 ^ 0) by (destruct (Z.eq_dec d 0) as [->|];
      [lia|rewrite Z.pow_neg_r by lia; simpl; lia]).
    simpl in *; lia. }
  assert (H1 : Zpos (digits2_pos m) - 1 < d).
  { apply (Z.pow_lt_mono_r_iff 2); lia. }
  assert (H2 : d - 1 < Zpos (digits2_pos m)).
  { apply (Z.pow_lt_mono_r_iff 2); lia. }
  lia.
Qed.

Lemma digits2_pos_mono :
  forall a b, Zpos a <= Zpos b -> Zpos (digits2_pos a) <= Zpos (digits2_pos b).
Proof.
  intros a b H.
  pose proof (digits2_pos_bounds a) as [Alo _].
  pose proof (digits2_pos_bounds b) as [_ Bhi].
  assert (Zpos (digits2_pos a) - 1 < Zpos (digits2_pos b)).
  { apply (Z.pow_lt_mono_r_iff 2); lia. }
  lia.
Qed.

(** Shifting a mantissa to the right by [n] digits. *)
Lemma digits2_pos_shift :
  forall m n q,
    0 <= n < Zpos (digits2_pos m) ->
    Zpos m / 2 ^ n = Zpos q ->
    Zpos (digits2_pos q) = Zpos (digits2_pos m) - n.
Proof.
  intros m n q Hn Hq.
  pose proof (digits2_pos_bounds m) as [Blo Bhi].
  apply digits2_pos_unique; rewrite <- Hq.
  assert (Hp : 0 < 2 ^ n) by (apply Z.pow_pos_nonneg; lia).
  split.
  - apply Z.div_le_lower_bound; [exact Hp|].
    rewrite <- Z.pow_add_r by lia.
    replace (n + (Zpos (digits2_pos m) - n - 1))
      with (Zpos (digits2_pos m) - 1) by lia.
    exact Blo.
  - apply Z.div_lt_upper_bound; [exact Hp|].
    rewrite <- Z.pow_add_r by lia.
    replace (n + (Zpos (digits2_pos m) - n)) with (Zpos (digits2_pos m))
      by lia.
    exact Bhi.
Qed.

Lemma iter_pos_nat :
  forall (A : Type) (f : A -> A) p x,
    iter_pos f p x = Nat.iter (Pos.to_nat p) f x.
Proof.
  intros A f; induction p as [p IH|p IH|]; intros x; cbn [iter_pos].
  - rewrite !IH, Pos2Nat.inj_xI.
    replace (S (2 * Pos.to_nat p)) with (Pos.to_nat p + S (Pos.to_nat p))%nat
      by lia.
    rewrite Nat.iter_add, Nat.iter_succ_r; reflexivity.
  - rewrite !IH, Pos2Nat.inj_xO.
    replace (2 * Pos.to_nat p)%nat with (Pos.to_nat p + Pos.to_nat p)%nat
      by lia.
    rewrite Nat.iter_add; reflexivity.
  - reflexivity.
Qed.

Lemma shr_1_m :
  forall mrs, 0 <= shr_m mrs -> shr_m (shr_1 mrs) = shr_m mrs / 2.
Proof.
  intros [m r s] H; cbn [shr_m] in H.
  destruct m as [|[p|p|]|p]; cbn [shr_1 shr_m]; [reflexivity| | |reflexivity|lia].
  - rewrite (Pos2Z.inj_xI p); apply (Z.div_unique _ _ _ 1); lia.
  - rewrite (Pos2Z.inj_xO p); apply (Z.div_unique _ _ _ 0); lia.
Qed.

Lemma shr_iter_m :
  forall n mrs,
    0 <= shr_m mrs ->
    shr_m (Nat.iter n shr_1 mrs) = shr_m mrs / 2 ^ Z.of_nat n.
Proof.
  induction n as [|n IH]; intros mrs H.
  - simpl; rewrite Z.div_1_r; reflexivity.
  - rewrite Nat.iter_succ.
    assert (Hn : 0 <= shr_m (Nat.iter n shr_1 mrs)).
    { rewrite IH by exact H; apply Z.div_pos; [exact H|].
      apply Z.pow_pos_nonneg; lia. }
    rewrite shr_1_m by exact Hn.
    rewrite IH by exact H.
    rewrite Nat2Z.inj_succ, Z.pow_succ_r by lia.
    rewrite Z.div_div by (try apply Z.pow_pos_nonneg; lia).
    f_equal; lia.
Qed.

Lemma shr_m_of_loc : forall m l, shr_m (shr_record_of_loc m l) = m.
Proof. intros m [|[| |]]; reflexivity. Qed.

(** What [shr] leaves of a mantissa that is not negative. *)
Lemma shr_spec :
  forall mrs e n,
    0 <= shr_m mrs ->
    shr_m (fst (shr mrs e n)) = shr_m mrs / 2 ^ Z.max 0 n
    /\ snd (shr mrs e n) = e + Z.max 0 n.
Proof.
  intros mrs e n H; destruct n as [|p|p]; cbn [shr fst snd].
  - simpl; rewrite Z.div_1_r; split; [reflexivity|lia].
  - rewrite iter_pos_nat, shr_iter_m by exact H.
    rewrite positive_nat_Z; split; [f_equal; f_equal; lia|lia].
  - simpl; rewrite Z.div_1_r; split; [reflexivity|lia].
Qed.

(** Shifting a mantissa to the left. *)
Lemma pos_iter_xO_nat :
  forall n m, Zpos (Nat.iter n xO m) = Zpos m * 2 ^ Z.of_nat n.
Proof.
  induction n as [|n IH]; intros m.
  - simpl; lia.
  - rewrite Nat.iter_succ, (Pos2Z.inj_xO (Nat.iter n xO m)), IH.
    rewrite Nat2Z.inj_succ, Z.pow_succ_r by lia; lia.
Qed.

Lemma pos_iter_xO :
  forall m k, Zpos (Pos.iter xO m k) = Zpos m * 2 ^ Zpos k.
Proof.
  intros m k; rewrite Pos2Nat.inj_iter.
  change (nat_rect (fun _ => positive) m (fun _ => xO) (Pos.to_nat k))
    with (Nat.iter (Pos.to_nat k) xO m).
  rewrite pos_iter_xO_nat, positive_nat_Z; reflexivity.
Qed.

Lemma digits2_pos_iter_xO :
  forall m k,
    Zpos (digits2_pos (Pos.iter xO m k)) = Zpos (digits2_pos m) + Zpos k.
Proof.
  intros m k; apply digits2_pos_unique.
  pose proof (digits2_pos_bounds m) as [Blo Bhi].
  rewrite pos_iter_xO.
  replace (Zpos (digits2_pos m) + Zpos k - 1)
    with ((Zpos (digits2_pos m) - 1) + Zpos k) by lia.
  rewrite !Z.pow_add_r by lia.
  assert (0 < 2 ^ Zpos k) by (apply Z.pow_pos_nonneg; lia).
  split; [apply Z.mul_le_mono_nonneg_r; lia|apply Z.mul_lt_mono_pos_r; lia].
Qed.

(** Shifting back to the right what was shifted to the left loses
    nothing. *)
Lemma shr_iter_xO :
  forall n m,
    Nat.iter n shr_1 (Build_shr_record (Zpos (Nat.iter n xO m)) false false)
    = Build_shr_record (Zpos m) false false.
Proof.
  induction n as [|n IH]; intros m; [reflexivity|].
  rewrite Nat.iter_succ_r.
  change (Nat.iter (S n) xO m) with (xO (Nat.iter n xO m)).
  cbn [shr_1 orb]; apply IH.
Qed.

Lemma iter_pos_shr_xO :
  forall k m,
    iter_pos shr_1 k (Build_shr_record (Zpos (Pos.iter xO m k)) false false)
    = Build_shr_record (Zpos m) false false.
Proof.
  intros k m; rewrite iter_pos_nat, Pos2Nat.inj_iter.
  apply shr_iter_xO.
Qed.

Lemma round_nearest_even_bounds :
  forall m l, m <= round_nearest_even m l <= m + 1.
Proof.
  intros m [|[| |]]; cbn [round_nearest_even]; try lia.
  destruct (Z.even m); lia.
Qed.

(** The first normalisation of [binary_round_aux]: the mantissa that is
    left is zero at the least exponent, or has the exponent its number
    of digits asks for. *)
Lemma shr_fexp_aligned :
  forall prec emax q e l,
    0 < prec ->
    e <= fexp prec emax (Zpos (digits2_pos q) + e) ->
    let r := shr_fexp prec emax (Zpos q) e l in
    emin prec emax <= snd r
    /\ ((shr_m (fst r) = 0 /\ snd r = emin prec emax)
        \/ exists q', shr_m (fst r) = Zpos q'
                      /\ fexp prec emax (Zpos (digits2_pos q') + snd r)
                         = snd r).
Proof.
  intros prec emax q e l Hp Ha r.
  pose proof (digits2_pos_bounds q) as [Blo Bhi].
  set (d := Zpos (digits2_pos q)) in *.
  set (n := fexp prec emax (d + e) - e).
  assert (Hn : 0 <= n) by (unfold n; lia).
  destruct (shr_spec (shr_record_of_loc (Zpos q) l) e n) as [Hm He];
    [rewrite shr_m_of_loc; lia|].
  rewrite shr_m_of_loc, Z.max_r in Hm by exact Hn.
  rewrite Z.max_r in He by exact Hn.
  change (shr (shr_record_of_loc (Zpos q) l) e n) with r in Hm, He.
  assert (He' : snd r = fexp prec emax (d + e)) by (unfold n in He; lia).
  split; [rewrite He'; unfold fexp; lia|].
  assert (Hpow : 0 < 2 ^ n) by (apply Z.pow_pos_nonneg; lia).
  destruct (Z.ltb_spec n d) as [Hlt|Hge].
  - right.
    assert (Hpos : 0 < Zpos q / 2 ^ n).
    { apply Z.div_str_pos; split; [exact Hpow|].
      apply Z.le_trans with (2 ^ (d - 1)); [|exact Blo].
      apply Z.pow_le_mono_r; lia. }
    destruct (Zpos q / 2 ^ n) as [|q'|q'] eqn:E; [lia| |lia].
    exists q'; split; [exact Hm|].
    rewrite (digits2_pos_shift q n q') by (fold d; first [lia|exact E]).
    fold d; rewrite He' at 1.
    replace (d - n + fexp prec emax (d + e)) with (d + e)
      by (unfold n; lia).
    symmetry; exact He'.
  - left; split.
    + rewrite Hm; apply Z.div_small; split; [lia|].
      apply Z.lt_le_trans with (2 ^ d); [exact Bhi|].
      apply Z.pow_le_mono_r; lia.
    + rewrite He'; unfold n, fexp in *; lia.
Qed.

(** The second normalisation starts at no less than the least exponent,
    and so leaves a positive mantissa. *)
Lemma shr_fexp_positive :
  forall prec emax q e l,
    0 < prec ->
    emin prec emax <= e ->
    e <= fexp prec emax (Zpos (digits2_pos q) + e) ->
    let r := shr_fexp prec emax (Zpos q) e l in
    exists q', shr_m (fst r) = Zpos q'
               /\ fexp prec emax (Zpos (digits2_pos q') + snd r) = snd r.
Proof.
  intros prec emax q e l Hp Hmin Ha r.
  destruct (shr_fexp_aligned prec emax q e l Hp Ha) as [_ [[Hz Hez]|H]];
    [|exact H].
  exfalso; fold r in Hz, Hez.
  pose proof (digits2_pos_bounds q) as [Blo Bhi].
  set (d := Zpos (digits2_pos q)) in *.
  set (n := fexp prec emax (d + e) - e).
  assert (Hn : 0 <= n) by (unfold n; lia).
  destruct (shr_spec (shr_record_of_loc (Zpos q) l) e n) as [Hm He];
    [rewrite shr_m_of_loc; lia|].
  rewrite shr_m_of_loc, Z.max_r in Hm by exact Hn.
  change (shr (shr_record_of_loc (Zpos q) l) e n) with r in Hm.
  rewrite Hz in Hm.
  assert (Hpow : 0 < 2 ^ n) by (apply Z.pow_pos_nonneg; lia).
  assert (Hnd : n < d) by (unfold n, fexp; lia).
  assert (Hpos : 0 < Zpos q / 2 ^ n).
  { apply Z.div_str_pos; split; [exact Hpow|].
    apply Z.le_trans with (2 ^ (d - 1)); [|exact Blo].
    apply Z.pow_le_mono_r; lia. }
  lia.
Qed.

(** [binary_round_aux] returns a number of the format when its mantissa
    has at least the digits its exponent asks for. *)
Lemma binary_round_aux_valid :
  forall prec emax sx q e l,
    0 < prec ->
    e <= fexp prec emax (Zpos (digits2_pos q) + e) ->
    valid_binary prec emax (binary_round_aux prec emax sx (Zpos q) e l) = true.
Proof.
  intros prec emax sx q e l Hp Ha; unfold binary_round_aux.
  pose proof (shr_fexp_aligned prec emax q e l Hp Ha) as H1.
  destruct (shr_fexp prec emax (Zpos q) e l) as [mrs' e'].
  cbn [fst snd] in H1; destruct H1 as [Hmin H1].
  pose proof (round_nearest_even_bounds (shr_m mrs') (loc_of_shr_record mrs'))
    as Hr.
  destruct (round_nearest_even (shr_m mrs') (loc_of_shr_record mrs'))
    as [|q1|q1] eqn:E1.
  - unfold shr_fexp; cbn [Zdigits2 shr_record_of_loc].
    destruct (shr_spec (Build_shr_record 0 false false) e'
                (fexp prec emax (0 + e') - e')) as [Hm _]; [simpl; lia|].
    destruct (shr _ _ _) as [mrs'' e'']; cbn [fst shr_m] in Hm.
    rewrite Hm, Z.div_0_l; [reflexivity|].
    apply Z.pow_nonzero; lia.
  - assert (Ha2 : e' <= fexp prec emax (Zpos (digits2_pos q1) + e')).
    { destruct H1 as [[Hz He]|(q' & Hq' & Hc)].
      - unfold fexp; fold (emin prec emax); lia.
      - assert (Zpos (digits2_pos q') <= Zpos (digits2_pos q1))
          by (apply digits2_pos_mono; lia).
        unfold fexp in *; lia. }
    pose proof (shr_fexp_positive prec emax q1 e' loc_Exact Hp Hmin Ha2)
      as (q2 & Hq2 & Hc2).
    destruct (shr_fexp prec emax (Zpos q1) e' loc_Exact) as [mrs'' e''].
    cbn [fst snd] in Hq2, Hc2; rewrite Hq2.
    destruct (e'' <=? emax - prec) eqn:Eb; [|reflexivity].
    cbn [valid_binary]; unfold bounded, canonical_mantissa.
    rewrite Hc2, Z.eqb_refl, Eb; reflexivity.
  - destruct H1 as [[Hz He]|(q' & Hq' & Hc)]; lia.
Qed.

Lemma binary_round_valid :
  forall prec emax sx m e,
    0 < prec ->
    valid_binary prec emax (binary_round prec emax sx m e) = true.
Proof.
  intros prec emax sx m e Hp; unfold binary_round, shl_align.
  destruct (fexp prec emax (Zpos (digits2_pos m) + e) - e) as [|p|p] eqn:E;
    apply binary_round_aux_valid; try exact Hp; try lia.
  rewrite digits2_pos_iter_xO.
  replace (Zpos (digits2_pos m) + Zpos p
           + fexp prec emax (Zpos (digits2_pos m) + e))
    with (Zpos (digits2_pos m) + e) by lia.
  lia.
Qed.

Lemma binary_normalize_valid :
  forall prec emax m e s,
    0 < prec ->
    valid_binary prec emax (binary_normalize prec emax m e s) = true.
Proof.
  intros prec emax [|m|m] e s Hp; cbn [binary_normalize];
    [reflexivity|apply binary_round_valid; exact Hp
    |apply binary_round_valid; exact Hp].
Qed.

(** The difference of two numbers of a format is a number of the
    format. *)
Lemma SFsub_valid :
  forall prec emax x y,
    0 < prec ->
    valid_binary prec emax x = true ->
    valid_binary prec emax y = true ->
    valid_binary prec emax (SFsub prec emax x y) = true.
Proof.
  intros prec emax x y Hp Hx Hy.
  destruct x as [sx|sx| |sx mx ex], y as [sy|sy| |sy my ey];
    cbn [SFsub]; try reflexivity; try assumption;
    try (destruct sx, sy; reflexivity).
  apply binary_normalize_valid; exact Hp.
Qed.

(** A number of the format is left as it is by rounding to the
    format. *)
Lemma binary_round_canonical :
  forall prec emax s m e,
    valid_binary prec emax (S754_finite s m e) = true ->
    binary_round prec emax s m e = S754_finite s m e.
Proof.
  intros prec emax s m e H; cbn [valid_binary] in H.
  unfold bounded, canonical_mantissa in H.
  apply andb_true_iff in H; destruct H as [Hc Hb].
  apply Z.eqb_eq in Hc.
  unfold binary_round, shl_align; rewrite Hc, Z.sub_diag.
  unfold binary_round_aux, shr_fexp; cbn [Zdigits2].
  rewrite Hc, Z.sub_diag.
  cbn [shr shr_record_of_loc shr_m loc_of_shr_record round_nearest_even
         Zdigits2].
  rewrite Hc, Z.sub_diag; cbn [shr shr_m]; rewrite Hb; reflexivity.
Qed.

(** Rounding to a format a number of the format whose mantissa was
    shifted to the left gives the number back. *)
Lemma binary_round_shifted :
  forall prec emax s m e k,
    valid_binary prec emax (S754_finite s m e) = true ->
    binary_round prec emax s (Pos.iter xO m k) (e - Zpos k)
    = S754_finite s m e.
Proof.
  intros prec emax s m e k H; cbn [valid_binary] in H.
  unfold bounded, canonical_mantissa in H.
  apply andb_true_iff in H; destruct H as [Hc Hb].
  apply Z.eqb_eq in Hc.
  assert (Hf : fexp prec emax
                 (Zpos (digits2_pos (Pos.iter xO m k)) + (e - Zpos k)) = e).
  { rewrite digits2_pos_iter_xO.
    replace (Zpos (digits2_pos m) + Zpos k + (e - Zpos k))
      with (Zpos (digits2_pos m) + e) by lia.
    exact Hc. }
  unfold binary_round, shl_align; rewrite Hf.
  replace (e - (e - Zpos k)) with (Zpos k) by lia.
  unfold binary_round_aux, shr_fexp; cbn [Zdigits2]; rewrite Hf.
  replace (e - (e - Zpos k)) with (Zpos k) by lia.
  cbn [shr shr_record_of_loc]; rewrite iter_pos_shr_xO.
  cbn [shr_m loc_of_shr_record round_nearest_even Zdigits2].
  replace (e - Zpos k + Zpos k) with e by lia.
  rewrite Hc, Z.sub_diag; cbn [shr shr_m]; rewrite Hb; reflexivity.
Qed.

Lemma f32_valid_finite :
  forall s m e,
    f32_valid (S754_finite s m e) = true ->
    Zpos (digits2_pos m) <= 24 /\ -149 <= e <= 104
    /\ Z.max (Zpos (digits2_pos m) + e - 24) (-149) = e.
Proof.
  intros s m e H; unfold f32_valid in H; cbn [valid_binary] in H.
  unfold bounded, canonical_mantissa, fexp, emin in H.
  apply andb_true_iff in H; destruct H as [Hc Hb].
  apply Z.eqb_eq in Hc; apply Z.leb_le in Hb; lia.
Qed.

(** Widening a [float] to [double] shifts its mantissa to 53 digits. *)
Lemma f64_of_f32_finite :
  forall s m e,
    f32_valid (S754_finite s m e) = true ->
    exists k,
      f64_of_f32 (S754_finite s m e)
      = S754_finite s (Pos.iter xO m k) (e - Zpos k).
Proof.
  intros s m e H.
  destruct (f32_valid_finite s m e H) as (Hd & He & Hc).
  set (d := Zpos (digits2_pos m)) in *.
  destruct (53 - d) as [|k|k] eqn:Ek; [lia| |lia].
  exists k.
  assert (Hr : f64_of_f32 (S754_finite s m e) = binary_round 53 1024 s m e)
    by (destruct s; reflexivity).
  rewrite Hr; unfold binary_round, shl_align.
  assert (Hf : fexp 53 1024 (Zpos (digits2_pos m) + e) = e - Zpos k)
    by (fold d; unfold fexp, emin; lia).
  rewrite Hf.
  replace (e - Zpos k - e) with (Zneg k) by lia.
  assert (Hv : valid_binary 53 1024
                 (S754_finite s (Pos.iter xO m k) (e - Zpos k)) = true).
  { cbn [valid_binary]; unfold bounded, canonical_mantissa.
    rewrite digits2_pos_iter_xO.
    replace (Zpos (digits2_pos m) + Zpos k + (e - Zpos k))
      with (Zpos (digits2_pos m) + e) by lia.
    rewrite Hf, Z.eqb_refl; apply Z.leb_le; lia. }
  pose proof (binary_round_canonical 53 1024 s _ _ Hv) as Hcan.
  unfold binary_round, shl_align in Hcan.
  cbn [valid_binary] in Hv; unfold bounded, canonical_mantissa in Hv.
  apply andb_true_iff in Hv; destruct Hv as [Hc' _].
  apply Z.eqb_eq in Hc'; rewrite Hc', Z.sub_diag in Hcan; exact Hcan.
Qed.

(** [fabs] of a [float], taken in [double] and assigned to a [float],
    is the absolute value of the [float]. *)
Lemma fabs_of_float :
  forall x,
    f32_valid x = true ->
    f32_of_f64 (fabs (f64_of_f32 x)) = SFabs x.
Proof.
  intros [s|s| |s m e] H; try reflexivity.
  destruct (f64_of_f32_finite s m e H) as (k & ->).
  unfold fabs, f32_of_f64; cbn [SFabs SFround cond_Zopp binary_normalize].
  apply binary_round_shifted; exact H.
Qed.

Lemma f32_sub_valid :
  forall x y,
    f32_valid x = true -> f32_valid y = true ->
    f32_valid (f32_sub x y) = true.
Proof. intros x y; apply SFsub_valid; lia. Qed.

Lemma imu_drift_abs :
  forall reading bias,
    f32_valid reading = true -> f32_valid bias = true ->
    imu_drift reading bias = SFabs (f32_sub reading bias).
Proof.
  intros r b Hr Hb; unfold imu_drift.
  apply fabs_of_float, f32_sub_valid; assumption.
Qed.

(** *** The order of the comparisons *)

Ltac order_cases :=
  repeat match goal with
  | |- context [Z.compare ?a ?b] => destruct (Z.compare_spec a b)
  | H : context [Z.compare ?a ?b] |- _ => destruct (Z.compare_spec a b)
  | |- context [Pos.compare ?a ?b] => destruct (Pos.compare_spec a b)
  | H : context [Pos.compare ?a ?b] |- _ => destruct (Pos.compare_spec a b)
  end.

Lemma SFleb_trans :
  forall x y z, SFleb x y = true -> SFleb y z = true -> SFleb x z = true.
Proof.
  intros x y z; unfold SFleb, SFcompare.
  change (Pos.compare_cont Eq) with Pos.compare.
  destruct x as [sx|sx| |sx mx ex], y as [sy|sy| |sy my ey],
    z as [sz|sz| |sz mz ez];
    try destruct sx; try destruct sy; try destruct sz;
    intros H1 H2; try discriminate; try reflexivity;
    order_cases; subst; cbn [CompOpp] in *;
    try discriminate; try reflexivity; lia.
Qed.

Lemma SFleb_refl : forall x, is_number x = true -> SFleb x x = true.
Proof.
  intros x; unfold SFleb, SFcompare.
  change (Pos.compare_cont Eq) with Pos.compare.
  destruct x as [[|]|[|]| |[|] m e]; intros H; try discriminate;
    try reflexivity; rewrite Z.compare_refl, Pos.compare_refl; reflexivity.
Qed.

Lemma SFltb_leb : forall x y, SFltb x y = true -> SFleb x y = true.
Proof.
  intros x y; unfold SFltb, SFleb.
  destruct (SFcompare x y) as [[| |]|]; intros H;
    try discriminate; reflexivity.
Qed.

Lemma SFltb_number :
  forall x y, SFltb x y = true -> is_number x = true /\ is_number y = true.
Proof.
  intros x y; unfold SFltb, SFcompare.
  destruct x as [sx|sx| |sx mx ex], y as [sy|sy| |sy my ey]; intros H;
    try discriminate; split; reflexivity.
Qed.

Lemma SFleb_number :
  forall x y, SFleb x y = true -> is_number x = true /\ is_number y = true.
Proof.
  intros x y; unfold SFleb, SFcompare.
  destruct x as [sx|sx| |sx mx ex], y as [sy|sy| |sy my ey]; intros H;
    try discriminate; split; reflexivity.
Qed.

(** Two numbers are ordered one way or the other. *)
Lemma SFltb_false_leb :
  forall x y,
    is_number x = true -> is_number y = true ->
    SFltb x y = false -> SFleb y x = true.
Proof.
  intros x y; unfold SFltb, SFleb, SFcompare.
  change (Pos.compare_cont Eq) with Pos.compare.
  destruct x as [sx|sx| |sx mx ex], y as [sy|sy| |sy my ey];
    try destruct sx; try destruct sy;
    intros Hx Hy H; try discriminate; try reflexivity;
    order_cases; subst; cbn [CompOpp] in *;
    try discriminate; try reflexivity; lia.
Qed.

(** The only number that compares equal to a finite number other than
    zero is that number. *)
Lemma SFleb_antisym_finite :
  forall x s m e,
    SFleb x (S754_finite s m e) = true ->
    SFleb (S754_finite s m e) x = true ->
    x = S754_finite s m e.
Proof.
  intros x s m e; unfold SFleb, SFcompare.
  change (Pos.compare_cont Eq) with Pos.compare.
  destruct x as [sx|sx| |sx mx ex];
    try destruct sx; destruct s;
    intros H1 H2; try discriminate;
    order_cases; subst; cbn [CompOpp] in *;
    try discriminate; try reflexivity; lia.
Qed.

(** The running minimum of [if (x < min) min = x]. *)
Lemma running_min_least :
  forall xs m0,
    is_number m0 = true ->
    least_of (fold_left (fun m x => if SFltb x m then x else m) xs m0)
      (m0 :: filter is_number xs).
Proof.
  induction xs as [|x xs IH]; intros m0 H0.
  - split; [left; reflexivity|].
    intros x [<-|[]]; apply SFleb_refl; exact H0.
  - cbn [fold_left filter].
    destruct (SFltb x m0) eqn:E.
    + destruct (SFltb_number _ _ E) as [Hx _]; rewrite Hx.
      destruct (IH x Hx) as [Hin Hle]; split.
      * right; exact Hin.
      * intros y [<-|Hy]; [|apply Hle; exact Hy].
        apply SFleb_trans with x; [apply Hle; left; reflexivity|].
        apply SFltb_leb; exact E.
    + destruct (IH m0 H0) as [Hin Hle]; split.
      * destruct Hin as [<-|Hin]; [left; reflexivity|].
        destruct (is_number x); [right; right; exact Hin|right; exact Hin].
      * intros y [<-|Hy]; [apply Hle; left; reflexivity|].
        destruct (is_number x) eqn:Hx; [|apply Hle; right; exact Hy].
        destruct Hy as [<-|Hy]; [|apply Hle; right; exact Hy].
        apply SFleb_trans with m0; [apply Hle; left; reflexivity|].
        apply SFltb_false_leb; assumption.
Qed.

(** The running maximum of [if (x > max) max = x]. *)
Lemma running_max_greatest :
  forall xs m0,
    is_number m0 = true ->
    greatest_of (fold_left (fun m x => if SFltb m x then x else m) xs m0)
      (m0 :: filter is_number xs).
Proof.
  induction xs as [|x xs IH]; intros m0 H0.
  - split; [left; reflexivity|].
    intros x [<-|[]]; apply SFleb_refl; exact H0.
  - cbn [fold_left filter].
    destruct (SFltb m0 x) eqn:E.
    + destruct (SFltb_number _ _ E) as [_ Hx]; rewrite Hx.
      destruct (IH x Hx) as [Hin Hle]; split.
      * right; exact Hin.
      * intros y [<-|Hy]; [|apply Hle; exact Hy].
        apply SFleb_trans with x; [|apply Hle; left; reflexivity].
        apply SFltb_leb; exact E.
    + destruct (IH m0 H0) as [Hin Hle]; split.
      * destruct Hin as [<-|Hin]; [left; reflexivity|].
        destruct (is_number x); [right; right; exact Hin|right; exact Hin].
      * intros y [<-|Hy]; [apply Hle; left; reflexivity|].
        destruct (is_number x) eqn:Hx; [|apply Hle; right; exact Hy].
        destruct Hy as [<-|Hy]; [|apply Hle; right; exact Hy].
        apply SFleb_trans with m0; [|apply Hle; left; reflexivity].
        apply SFltb_false_leb; assumption.
Qed.
(** ** The drift monitor (C9) *)

(** What the monitor computes for one axis is the absolute value of the
    single-precision difference: the way through [double] that [fabs]
    takes loses nothing. *)
Lemma imu_drift_exceeds :
  forall reading bias,
    f32_valid reading = true -> f32_valid bias = true ->
    f_gt (imu_drift reading bias) f_2_0 = drift_exceeds reading bias.
Proof.
  intros r b Hr Hb; rewrite (imu_drift_abs r b Hr Hb); reflexivity.
Qed.

(** C9, as the code has it: when a drift check is due and the inertial
    read succeeds, the monitor sets the status to NeedsRecalibration,
    whatever it was before - Invalid included - as soon as on some axis
    the reading differs from the stored bias by more than 2.0, the
    difference being one single-precision subtraction, and changes no
    other field of the record; when no axis does, it leaves the record
    as it is; and whatever happens, a call of the monitor changes no
    field of the record other than status. *)
Theorem drift_flags_recalibration :
  (forall s d,
     3600000 <= (get_time_ms s - last_check s) mod UINT32_MOD ->
     feed_imu (hw_feed (hw s)) (hw_imu_reads (hw s)) = Some d ->
     imu_axes_valid d = true ->
     imu_bias_valid (calib s) = true ->
     (drift_exceeds (ax d) (imu_bias_x (calib s)) = true
      \/ drift_exceeds (ay d) (imu_bias_y (calib s)) = true
      \/ drift_exceeds (az d) (imu_bias_z (calib s)) = true ->
      calib (monitor_sensor_drift s)
      = set_status CALIB_NEEDS_RECALIBRATION (calib s))
     /\ (drift_exceeds (ax d) (imu_bias_x (calib s)) = false ->
         drift_exceeds (ay d) (imu_bias_y (calib s)) = false ->
         drift_exceeds (az d) (imu_bias_z (calib s)) = false ->
         calib (monitor_sensor_drift s) = calib s))
  /\ (forall s,
        set_status CALIB_INVALID (calib (monitor_sensor_drift s))
        = set_status CALIB_INVALID (calib s)).
Proof.
  split.
  - intros s d Hdue Hread Hd Hb.
    unfold imu_axes_valid in Hd; unfold imu_bias_valid in Hb.
    apply andb_true_iff in Hd; destruct Hd as [Hd Hdz].
    apply andb_true_iff in Hd; destruct Hd as [Hdx Hdy].
    apply andb_true_iff in Hb; destruct Hb as [Hb Hbz].
    apply andb_true_iff in Hb; destruct Hb as [Hbx Hby].
    assert (Hm : calib (monitor_sensor_drift s)
                 = if drift_exceeds (ax d) (imu_bias_x (calib s))
                      || drift_exceeds (ay d) (imu_bias_y (calib s))
                      || drift_exceeds (az d) (imu_bias_z (calib s))
                   then set_status CALIB_NEEDS_RECALIBRATION (calib s)
                   else calib s).
    { unfold monitor_sensor_drift.
      destruct (_ <? _) eqn:E; [apply Z.ltb_lt in E; lia|].
      unfold read_imu_raw; cbn [hw set_last_check]; rewrite Hread.
      cbn [negb imu_data calib set_imu_data set_hw set_last_check set_calib].
      rewrite !imu_drift_exceeds by assumption.
      destruct (_ || _); reflexivity. }
    split.
    + intros Hdrift; rewrite Hm.
      replace (_ || _) with true; [reflexivity|].
      symmetry; destruct Hdrift as [H|[H|H]]; rewrite H;
        rewrite ?orb_true_r; reflexivity.
    + intros Hx Hy Hz; rewrite Hm, Hx, Hy, Hz; reflexivity.
  - intros s; unfold monitor_sensor_drift.
    destruct (_ <? _); [reflexivity|].
    unfold read_imu_raw; cbn [hw set_last_check].
    destruct (feed_imu _ _); cbn [negb]; [|reflexivity].
    destruct (_ || _); reflexivity.
Qed.

(** An hour after start-up, a record of status Invalid with a bias of
    -1.5 on the first axis and a unit that reads 1.0 there: the
    difference is 2.5 and the status becomes NeedsRecalibration, though
    the reading alone is below 2.0. With a bias of 1.5 and a reading of
    3.0 the difference is 1.5 and the record stays as it is, though the
    reading alone is above 2.0. *)
Lemma drift_flags_recalibration_witness :
  let s := hour_later (tilted_imu_feed f_1_0) CALIB_INVALID (f32_lit (-3) 2) in
  let t := hour_later (tilted_imu_feed f_3_0) CALIB_VALID (f32_lit 3 2) in
  status (calib s) = CALIB_INVALID
  /\ calib (monitor_sensor_drift s)
     = set_status CALIB_NEEDS_RECALIBRATION (calib s)
  /\ calib (monitor_sensor_drift t) = calib t.
Proof.
  intros s t.
  destruct drift_flags_recalibration as [H _].
  split; [reflexivity|split].
  - destruct (H s (imu_sample f_1_0 f_0_0 f_0_0)) as [Hflag _];
      [vm_compute; discriminate|reflexivity|vm_compute; reflexivity
      |vm_compute; reflexivity|].
    apply Hflag; left; vm_compute; reflexivity.
  - destruct (H t (imu_sample f_3_0 f_0_0 f_0_0)) as [_ Hkeep];
      [vm_compute; discriminate|reflexivity|vm_compute; reflexivity
      |vm_compute; reflexivity|].
    apply Hkeep; vm_compute; reflexivity.
Defined.

(** C9 as stated fails: a reading of [2 + 2^-22] against a bias of
    [3 * 2^-24] differs from it by [2 + 2^-24], more than 2.0; the
    single-precision subtraction rounds that to 2.0, which does not
    exceed 2.0, and the monitor leaves the status Valid. *)
Lemma drift_above_two_not_flagged :
  let s := hour_later (tilted_imu_feed f_2_next) CALIB_VALID f_3_ulp in
  3600000 <= (get_time_ms s - last_check s) mod UINT32_MOD
  /\ feed_imu (hw_feed (hw s)) (hw_imu_reads (hw s))
     = Some (imu_sample f_2_next f_0_0 f_0_0)
  /\ imu_bias_x (calib s) = f_3_ulp
  /\ f32_valid f_2_next = true
  /\ f32_valid f_3_ulp = true
  /\ drift_exceeds_exactly f_2_next f_3_ulp = true
  /\ f32_sub f_2_next f_3_ulp = f_2_0
  /\ status (calib s) = CALIB_VALID
  /\ calib (monitor_sensor_drift s) = calib s
  /\ status (calib (monitor_sensor_drift s)) <> CALIB_NEEDS_RECALIBRATION.
Proof. vm_compute; repeat split; discriminate. Qed.

(** ** The age of the calibration (C10) *)

(** C10, as the code has it: the age is
    [((clock - timestamp) mod 2^32) / 1000]; so when the stored
    timestamp exceeds the clock, the age is the wrapped-around value
    [(2^32 - (timestamp - clock)) / 1000], with no clamping and no
    error; that value is at least [(2^32 - timestamp) / 1000], and it is
    at least 1 as long as the timestamp is no more than [2^32 - 1000]
    ahead of the clock. *)
Theorem calibration_age_wraps :
  forall s,
    get_calibration_age_seconds s
    = ((get_time_ms s - timestamp (calib s)) mod UINT32_MOD) / 1000
    /\ (0 <= get_time_ms s < UINT32_MOD ->
        0 <= timestamp (calib s) < UINT32_MOD ->
        get_time_ms s < timestamp (calib s) ->
        get_calibration_age_seconds s
        = (UINT32_MOD - (timestamp (calib s) - get_time_ms s)) / 1000
        /\ (UINT32_MOD - timestamp (calib s)) / 1000
           <= get_calibration_age_seconds s
        /\ (timestamp (calib s) - get_time_ms s <= UINT32_MOD - 1000 ->
            1 <= get_calibration_age_seconds s)).
Proof.
  intros s; split; [reflexivity|].
  intros Hnow Hts Hlt; unfold get_calibration_age_seconds.
  assert (Hw : (get_time_ms s - timestamp (calib s)) mod UINT32_MOD
               = UINT32_MOD - (timestamp (calib s) - get_time_ms s)).
  { unfold UINT32_MOD in *; Z.div_mod_to_equations; lia. }
  rewrite Hw; unfold UINT32_MOD in *; split; [reflexivity|split].
  - apply Z.div_le_mono; lia.
  - intros Hgap; apply Z.div_le_lower_bound; lia.
Qed.

(** A record calibrated at 3600 s, read when the clock shows 5 s. *)
Lemma calibration_age_wraps_witness :
  get_calibration_age_seconds
    (delay_ms 5000
       (set_calib
          (set_timestamp 3600000 (calib (booted bench_feed CALIB_IDLE false)))
          (booted bench_feed CALIB_IDLE false)))
  = 4291372.
Proof.
  destruct (calibration_age_wraps
              (delay_ms 5000
                 (set_calib
                    (set_timestamp 3600000
                       (calib (booted bench_feed CALIB_IDLE false)))
                    (booted bench_feed CALIB_IDLE false)))) as [_ H].
  destruct H as [H _]; [vm_compute; split; [discriminate|reflexivity]
                       |vm_compute; split; [discriminate|reflexivity]
                       |vm_compute; reflexivity|].
  rewrite H; reflexivity.
Defined.

(** C10 as stated fails at the edge: a timestamp of 2^32 - 1 read when
    the clock shows 0 exceeds the clock, and the reported age is zero. *)
Lemma wrapped_age_can_be_zero :
  let s :=
    set_calib
      (set_timestamp 4294967295 (calib (booted bench_feed CALIB_IDLE false)))
      (booted bench_feed CALIB_IDLE false) in
  get_time_ms s = 0
  /\ timestamp (calib s) = 4294967295
  /\ get_time_ms s < timestamp (calib s)
  /\ get_calibration_age_seconds s = 0.
Proof. vm_compute; repeat split; reflexivity. Qed.

(** ** The inertial derivation (C6) *)














(** Nor does a constant sample always pass: a hundred readings of 1259
    on the first axis have a single-precision standard deviation above
    0.5, and the stage fails. *)
Lemma steady_imu_can_fail :
  let s := booted (steady_imu_feed (f32_of_Z 1259)) CALIB_IMU_RUNNING true in
  imu_samples IMU_SAMPLES (feed_imu (hw_feed (hw s))) (hw_imu_reads (hw s))
  = Some (repeat (imu_sample (f32_of_Z 1259) f_0_0 f_9_81) IMU_SAMPLES)
  /\ fst (calibrate_imu s) = false.
Proof. vm_compute; repeat split. Qed.

(** ** The magnetic derivation (C7) *)

(** A finite number other than zero, divided by itself, is 1.0. *)
Lemma div_eucl_div_mod :
  forall a b, Z.div_eucl a b = (a / b, a mod b).
Proof.
  intros a b; unfold Z.div, Z.modulo.
  destruct (Z.div_eucl a b); reflexivity.
Qed.

Lemma f32_div_self :
  forall x, is_finite_nonzero x = true -> f32_div x x = f_1_0.
Proof.
  intros [s|s| |s m e] H; try discriminate.
  unfold f32_div, SFdiv, SFdiv_core_binary.
  replace (Zdigits2 (Zpos m) + e - (Zdigits2 (Zpos m) + e)) with 0 by lia.
  replace (e - e) with 0 by lia.
  change (Z.min (fexp 24 128 0) 0) with (-24).
  change (0 - -24) with 24.
  cbv iota beta.
  rewrite Z.shiftl_mul_pow2 by lia.
  rewrite div_eucl_div_mod.
  rewrite (Z.mul_comm (Zpos m)), Z.div_mul, Z.mod_mul by lia.
  rewrite xorb_nilpotent.
  unfold new_location, new_location_even, new_location_odd.
  destruct (IntDef.Z.even (Zpos m)); reflexivity.
Qed.

Lemma sweep_elapsed_nonneg : forall start s, 0 <= sweep_elapsed start s.
Proof.
  intros start s; unfold sweep_elapsed, UINT32_MOD.
  apply Z.mod_pos_bound; lia.
Qed.

Lemma sweep_elapsed_step :
  forall start s s',
    hw_now (hw s') = (hw_now (hw s) + 50) mod UINT32_MOD ->
    0 <= sweep_elapsed start s < MAG_ROTATION_TIME_MS ->
    sweep_elapsed start s' = sweep_elapsed start s + 50.
Proof.
  unfold sweep_elapsed, get_time_ms, MAG_ROTATION_TIME_MS, UINT32_MOD.
  intros start s s' Hnow Hel; rewrite Hnow.
  rewrite Zminus_mod_idemp_l.
  replace (hw_now (hw s) + 50 - start) with (hw_now (hw s) - start + 50)
    by lia.
  rewrite <- Zplus_mod_idemp_l.
  apply Z.mod_small; lia.
Qed.

(** With [n] steps of 50 ms left in the window and more fuel than that,
    the sweep loop ends on its own condition or on a failed read. *)
Lemma mag_sweep_fuel_suffices_from :
  forall n fuel start e s,
    (n < fuel)%nat ->
    sweep_elapsed start s = MAG_ROTATION_TIME_MS - 50 * Z.of_nat n ->
    fst (mag_sweep fuel start e s) <> SweepOutOfFuel.
Proof.
  induction n as [|n IH]; intros fuel start e s Hfuel Hel;
    (destruct fuel as [|fuel]; [lia|]); simpl;
    fold (sweep_elapsed start s); rewrite Hel.
  - replace (_ <? _) with false; [discriminate|].
    symmetry; apply Z.ltb_ge; lia.
  - replace (_ <? _) with true by (symmetry; apply Z.ltb_lt; lia).
    unfold read_magnetometer_raw.
    destruct (feed_mag _ _) as [d|]; [|discriminate].
    apply IH; [lia|].
    pose proof (sweep_elapsed_nonneg start s) as Hpos.
    rewrite (sweep_elapsed_step start s); [lia|reflexivity|].
    unfold MAG_ROTATION_TIME_MS in *; lia.
Qed.

Lemma mag_sweep_fuel_suffices :
  forall s,
    fst (mag_sweep MAG_SWEEP_FUEL (get_time_ms s) mag_extremes_init s)
    <> SweepOutOfFuel.
Proof.
  intros s; apply (mag_sweep_fuel_suffices_from MAG_SWEEP_READS).
  - unfold MAG_SWEEP_READS, MAG_SWEEP_FUEL; lia.
  - unfold sweep_elapsed; rewrite Z.sub_diag; reflexivity.
Qed.

(** The sweep loop tracks the extremes of the samples it is fed. *)
Lemma mag_sweep_samples :
  forall n fuel start e s l,
    (n < fuel)%nat ->
    sweep_elapsed start s = MAG_ROTATION_TIME_MS - 50 * Z.of_nat n ->
    mag_samples n (feed_mag (hw_feed (hw s))) (hw_mag_reads (hw s)) = Some l ->
    fst (mag_sweep fuel start e s) = SweepDone (fold_left mag_track l e).
Proof.
  induction n as [|n IH]; intros fuel start e s l Hfuel Hel Hl;
    (destruct fuel as [|fuel]; [lia|]); simpl in Hl |- *;
    fold (sweep_elapsed start s); rewrite Hel.
  - injection Hl as <-.
    replace (_ <? _) with false; [reflexivity|].
    symmetry; apply Z.ltb_ge; lia.
  - replace (_ <? _) with true by (symmetry; apply Z.ltb_lt; lia).
    unfold read_magnetometer_raw.
    destruct (feed_mag (hw_feed (hw s)) (hw_mag_reads (hw s))) as [d|];
      [|discriminate].
    destruct (mag_samples n _ _) as [l'|] eqn:E; [|discriminate].
    injection Hl as <-.
    cbn [fold_left mag_data set_mag_data].
    apply IH; [lia| |exact E].
    pose proof (sweep_elapsed_nonneg start s) as Hpos.
    rewrite (sweep_elapsed_step start s); [lia|reflexivity|].
    unfold MAG_ROTATION_TIME_MS in *; lia.
Qed.

Lemma mag_samples_length :
  forall n feed from l, mag_samples n feed from = Some l -> length l = n.
Proof.
  induction n as [|n IH]; intros feed from l H; simpl in H.
  - injection H as <-; reflexivity.
  - destruct (feed from) as [d|]; [|discriminate].
    destruct (mag_samples n feed (S from)) as [l'|] eqn:E; [|discriminate].
    injection H as <-; simpl; f_equal; apply (IH _ _ _ E).
Qed.

(** The six extremes of the sweep loop are six running extremes, one
    pair for each axis. *)
Lemma mag_track_axes :
  forall l e,
    let e' := fold_left mag_track l e in
    let lower := fun m x => if SFltb x m then x else m in
    let upper := fun m x => if SFltb m x then x else m in
    mag_x_min e' = fold_left lower (map mx l) (mag_x_min e)
    /\ mag_x_max e' = fold_left upper (map mx l) (mag_x_max e)
    /\ mag_y_min e' = fold_left lower (map my l) (mag_y_min e)
    /\ mag_y_max e' = fold_left upper (map my l) (mag_y_max e)
    /\ mag_z_min e' = fold_left lower (map mz l) (mag_z_min e)
    /\ mag_z_max e' = fold_left upper (map mz l) (mag_z_max e).
Proof.
  induction l as [|d l IH]; intros e.
  - repeat split.
  - cbn [fold_left map]; apply (IH (mag_track e d)).
Qed.

(** The running extremes of one axis are the extremes of its readings
    and the two values they start from. *)
Lemma running_extremes :
  forall xs,
    axis_extremes_of
      (fold_left (fun m x => if SFltb x m then x else m) xs f_32767_0)
      (fold_left (fun m x => if SFltb m x then x else m) xs f_m32768_0)
      xs.
Proof.
  intros xs.
  pose proof (running_min_least xs f_32767_0 eq_refl) as Hmin.
  pose proof (running_max_greatest xs f_m32768_0 eq_refl) as Hmax.
  split; [exact Hmin|split; [exact Hmax|]].
  intros Hne Hrange.
  assert (Hnum : forall x, In x xs -> is_number x = true).
  { intros x Hx; specialize (Hrange x Hx); unfold in_sweep_range in Hrange.
    apply andb_true_iff in Hrange; destruct Hrange as [H _].
    apply (SFleb_number _ _ H). }
  rewrite (forallb_filter_id is_number xs
             (proj2 (forallb_forall is_number xs) Hnum)) in Hmin, Hmax.
  destruct xs as [|x0 xs']; [contradiction Hne; reflexivity|].
  assert (H0 : in_sweep_range x0 = true) by (apply Hrange; left; reflexivity).
  unfold in_sweep_range in H0; apply andb_true_iff in H0.
  destruct H0 as [Hlo Hhi].
  destruct Hmin as [Imin Lmin], Hmax as [Imax Lmax]; split; split.
  - destruct Imin as [E|Imin]; [|exact Imin].
    left; rewrite <- E.
    unfold f_32767_0 in *; apply SFleb_antisym_finite; [exact Hhi|].
    rewrite E; apply Lmin; right; left; reflexivity.
  - intros x Hx; apply Lmin; right; exact Hx.
  - destruct Imax as [E|Imax]; [|exact Imax].
    left; rewrite <- E.
    unfold f_m32768_0 in *; apply SFleb_antisym_finite; [|exact Hlo].
    rewrite E; apply Lmax; right; left; reflexivity.
  - intros x Hx; apply Lmax; right; exact Hx.
Qed.

(** C7, as the code has it: after a sweep of six hundred successful
    reads, the offset of each axis is [(max + min) / 2] and its scale is
    the average of the three half-ranges [(max - min) / 2] divided by
    its own half-range, all in single precision. The extremes are the
    running ones of the sweep, which start at 32767 and -32768: the
    smallest of 32767 and the readings of the axis, and the largest of
    -32768 and the readings, NaN readings left out; so the smallest and
    the largest reading when the readings lie within those two values.
    When the three half-ranges are equal the three scale factors are
    equal to one another, and they are 1.0 when moreover the common
    half-range is finite, not zero, and reproduced by the
    single-precision average of its three copies. *)
Theorem magnetometer_derivation :
  forall s l,
    mag_samples MAG_SWEEP_READS (feed_mag (hw_feed (hw s)))
      (hw_mag_reads (hw s)) = Some l ->
    let e := sweep_extremes l in
    let hx := f32_div (f32_sub (mag_x_max e) (mag_x_min e)) f_2_0 in
    let hy := f32_div (f32_sub (mag_y_max e) (mag_y_min e)) f_2_0 in
    let hz := f32_div (f32_sub (mag_z_max e) (mag_z_min e)) f_2_0 in
    let avg := f32_div (f32_add (f32_add hx hy) hz) f_3_0 in
    let c' := calib (snd (calibrate_magnetometer s)) in
    fst (calibrate_magnetometer s) = true
    /\ axis_extremes_of (mag_x_min e) (mag_x_max e) (map mx l)
    /\ axis_extremes_of (mag_y_min e) (mag_y_max e) (map my l)
    /\ axis_extremes_of (mag_z_min e) (mag_z_max e) (map mz l)
    /\ map mx l <> [] /\ map my l <> [] /\ map mz l <> []
    /\ mag_offset_x c' = f32_div (f32_add (mag_x_max e) (mag_x_min e)) f_2_0
    /\ mag_offset_y c' = f32_div (f32_add (mag_y_max e) (mag_y_min e)) f_2_0
    /\ mag_offset_z c' = f32_div (f32_add (mag_z_max e) (mag_z_min e)) f_2_0
    /\ mag_scale_x c' = f32_div avg hx
    /\ mag_scale_y c' = f32_div avg hy
    /\ mag_scale_z c' = f32_div avg hz
    /\ (hx = hy -> hy = hz ->
        mag_scale_x c' = mag_scale_y c' /\ mag_scale_y c' = mag_scale_z c')
    /\ (hx = hy -> hy = hz -> is_finite_nonzero hx = true -> avg = hx ->
        mag_scale_x c' = f_1_0 /\ mag_scale_y c' = f_1_0
        /\ mag_scale_z c' = f_1_0).
Proof.
  intros s l Hl e hx hy hz avg c'.
  assert (Hsweep :
            fst (mag_sweep MAG_SWEEP_FUEL (get_time_ms s) mag_extremes_init s)
            = SweepDone e).
  { apply (mag_sweep_samples MAG_SWEEP_READS);
      [unfold MAG_SWEEP_READS, MAG_SWEEP_FUEL; lia| |exact Hl].
    unfold sweep_elapsed; rewrite Z.sub_diag; reflexivity. }
  assert (Hc : fst (calibrate_magnetometer s) = true
               /\ c' = mag_derive e (calib s)).
  { unfold c', calibrate_magnetometer.
    pose proof (mag_sweep_env_only MAG_SWEEP_FUEL (get_time_ms s)
                  mag_extremes_init s) as [Hcal _].
    destruct (mag_sweep _ _ _ _) as [r s1]; simpl in Hsweep, Hcal.
    subst r; simpl; rewrite Hcal; split; reflexivity. }
  destruct Hc as [Hok Hc'].
  assert (Hsx : mag_scale_x c' = f32_div avg hx) by (rewrite Hc'; reflexivity).
  assert (Hsy : mag_scale_y c' = f32_div avg hy) by (rewrite Hc'; reflexivity).
  assert (Hsz : mag_scale_z c' = f32_div avg hz) by (rewrite Hc'; reflexivity).
  destruct (mag_track_axes l mag_extremes_init)
    as (Exl & Exh & Eyl & Eyh & Ezl & Ezh).
  cbv zeta in Exl, Exh, Eyl, Eyh, Ezl, Ezh.
  change (fold_left mag_track l mag_extremes_init) with e
    in Exl, Exh, Eyl, Eyh, Ezl, Ezh.
  assert (Hlen : length l = MAG_SWEEP_READS)
    by (apply (mag_samples_length _ _ _ _ Hl)).
  assert (Hne : forall f : MagData_t -> float, map f l <> []).
  { intros f E; apply (f_equal (@length _)) in E.
    rewrite length_map, Hlen in E; discriminate. }
  split; [exact Hok|].
  split; [rewrite Exl, Exh; apply running_extremes|].
  split; [rewrite Eyl, Eyh; apply running_extremes|].
  split; [rewrite Ezl, Ezh; apply running_extremes|].
  split; [apply Hne|split; [apply Hne|split; [apply Hne|]]].
  split; [rewrite Hc'; reflexivity|].
  split; [rewrite Hc'; reflexivity|].
  split; [rewrite Hc'; reflexivity|].
  split; [exact Hsx|].
  split; [exact Hsy|].
  split; [exact Hsz|].
  split.
  - intros Hxy Hyz; rewrite Hsx, Hsy, Hsz, <- Hyz, <- Hxy; split; reflexivity.
  - intros Hxy Hyz Hfin Havg.
    rewrite Hsx, Hsy, Hsz, <- Hyz, <- Hxy, Havg.
    rewrite (f32_div_self hx Hfin); repeat split.
Qed.

(** A compass that swings between -0.5 and 0.5 on its three axes: the
    extremes of the first axis are its smallest and its largest
    reading, -0.5 and 0.5; the half-ranges are 0.5, their average is
    0.5, the scales are 1.0. *)
Lemma magnetometer_derivation_witness :
  let s := booted (even_swing_feed f_0_5) CALIB_MAG_RUNNING true in
  let l := concat (repeat [mag_sample (SFopp f_0_5) (SFopp f_0_5)
                             (SFopp f_0_5);
                           mag_sample f_0_5 f_0_5 f_0_5] 300) in
  fst (calibrate_magnetometer s) = true
  /\ least_of (SFopp f_0_5) (map mx l)
  /\ greatest_of f_0_5 (map mx l)
  /\ mag_scale_x (calib (snd (calibrate_magnetometer s))) = f_1_0
  /\ mag_scale_y (calib (snd (calibrate_magnetometer s))) = f_1_0
  /\ mag_scale_z (calib (snd (calibrate_magnetometer s))) = f_1_0.
Proof.
  intros s l.
  assert (Hl : mag_samples MAG_SWEEP_READS (feed_mag (hw_feed (hw s)))
                 (hw_mag_reads (hw s)) = Some l)
    by (vm_compute; reflexivity).
  destruct (magnetometer_derivation s _ Hl)
    as (Hok & (_ & _ & Hx) & _ & _ & Hne & Hone).
  do 9 (destruct Hone as [_ Hone]).
  assert (Hrange : forall x, In x (map mx l) -> in_sweep_range x = true).
  { apply forallb_forall; vm_compute; reflexivity. }
  destruct (Hx Hne Hrange) as [Hmin Hmax].
  assert (Emin : mag_x_min (sweep_extremes l) = SFopp f_0_5)
    by (vm_compute; reflexivity).
  assert (Emax : mag_x_max (sweep_extremes l) = f_0_5)
    by (vm_compute; reflexivity).
  rewrite Emin in Hmin; rewrite Emax in Hmax.
  split; [exact Hok|].
  split; [exact Hmin|].
  split; [exact Hmax|].
  apply Hone; vm_compute; reflexivity.
Defined.

(** C7 as stated fails: a compass that is held still reads the same
    field during the whole sweep; the three half-ranges are equal, all
    zero, and the three scale factors are NaN, the quotient of zero by
    zero, not 1.0. *)
Lemma still_compass_scale_is_nan :
  let s := booted still_compass_feed CALIB_MAG_RUNNING true in
  let e := sweep_extremes (repeat (mag_sample f_10_0 f_10_0 f_10_0)
                             MAG_SWEEP_READS) in
  mag_samples MAG_SWEEP_READS (feed_mag (hw_feed (hw s)))
    (hw_mag_reads (hw s))
  = Some (repeat (mag_sample f_10_0 f_10_0 f_10_0) MAG_SWEEP_READS)
  /\ half_range (mag_x_min e) (mag_x_max e) = f_0_0
  /\ half_range (mag_y_min e) (mag_y_max e) = f_0_0
  /\ half_range (mag_z_min e) (mag_z_max e) = f_0_0
  /\ fst (calibrate_magnetometer s) = true
  /\ mag_scale_x (calib (snd (calibrate_magnetometer s))) = S754_nan
  /\ mag_scale_x (calib (snd (calibrate_magnetometer s))) <> f_1_0.
Proof. vm_compute; repeat split; discriminate. Qed.

(** Nor need the swing be zero for that: with half-ranges of 0.9f on the
    three axes the single-precision average of the three is not 0.9f,
    and the scale factors are the float next below 1.0. *)
Lemma even_swing_scale_not_one :
  let s := booted (even_swing_feed (f32_lit 9 10)) CALIB_MAG_RUNNING true in
  fst (calibrate_magnetometer s) = true
  /\ mag_offset_x (calib (snd (calibrate_magnetometer s))) = f_0_0
  /\ half_range (SFopp (f32_lit 9 10)) (f32_lit 9 10) = f32_lit 9 10
  /\ mag_scale_x (calib (snd (calibrate_magnetometer s)))
     = S754_finite false 16777215 (-24)
  /\ mag_scale_x (calib (snd (calibrate_magnetometer s))) <> f_1_0.
Proof. vm_compute; repeat split; discriminate. Qed.


(** Nor are the extremes always those of the readings: a compass that
    reads 40000 on an axis during the whole sweep never reads below
    32767, the minimum stays where it started, and the offset is
    36383.5, not the midpoint 40000 of the readings. *)
Lemma loud_compass_offset_off_midpoint :
  let s := booted loud_compass_feed CALIB_MAG_RUNNING true in
  let e := sweep_extremes (repeat (mag_sample (f32_of_Z 40000)
                                     (f32_of_Z 40000) (f32_of_Z 40000))
                             MAG_SWEEP_READS) in
  mag_samples MAG_SWEEP_READS (feed_mag (hw_feed (hw s)))
    (hw_mag_reads (hw s))
  = Some (repeat (mag_sample (f32_of_Z 40000) (f32_of_Z 40000)
                    (f32_of_Z 40000)) MAG_SWEEP_READS)
  /\ mag_x_min e = f_32767_0
  /\ mag_x_max e = f32_of_Z 40000
  /\ fst (calibrate_magnetometer s) = true
  /\ mag_offset_x (calib (snd (calibrate_magnetometer s))) = f32_lit 72767 2
  /\ mag_offset_x (calib (snd (calibrate_magnetometer s))) <> f32_of_Z 40000.
Proof. vm_compute; repeat split; discriminate. Qed.
(* ====================================================================== *)
(** * Further properties of the code *)
(* ====================================================================== *)

(** ** Start-up, reset and what a restart finds *)

(** X1. [calibration_init] always leaves the state machine in Idle and a
    record with the right magic number: either the record the EEPROM
    holds, which then has status Valid, or the defaults with status
    Invalid. It does not touch the hardware; the stored image stays as
    it is even when it is rejected. *)
Theorem calibration_init_establishes :
  forall s,
    calib_state (calibration_init s) = CALIB_IDLE
    /\ magic (calib (calibration_init s)) = CALIB_MAGIC
    /\ hw (calibration_init s) = hw s
    /\ ((status (calib (calibration_init s)) = CALIB_VALID
         /\ calib (calibration_init s)
            = calib_of_bytes
                (eeprom_read CALIB_EEPROM_ADDR CALIB_EEPROM_SIZE s))
        \/ (status (calib (calibration_init s)) = CALIB_INVALID
            /\ calib (calibration_init s) = default_calibration)).
Proof.
  intros s; unfold calibration_init, load_calibration_from_eeprom.
  set (c := calib_of_bytes (eeprom_read CALIB_EEPROM_ADDR CALIB_EEPROM_SIZE s)).
  destruct (status c =? CALIB_VALID) eqn:Es;
    [destruct (magic c =? CALIB_MAGIC) eqn:Em|]; cbn [andb calib set_calib].
  - rewrite Es; cbn [negb].
    apply Z.eqb_eq in Es; apply Z.eqb_eq in Em.
    split; [reflexivity|]; split; [exact Em|]; split; [reflexivity|].
    left; split; [exact Es|reflexivity].
  - repeat split; right; split; reflexivity.
  - repeat split; right; split; reflexivity.
Qed.

(** What [calibration_init] finds depends on the EEPROM only. *)
Lemma calibration_init_of_eeprom :
  forall s s',
    hw_eeprom (hw s') = hw_eeprom (hw s) ->
    calib (calibration_init s') = calib (calibration_init s).
Proof.
  intros s s' H.
  unfold calibration_init, load_calibration_from_eeprom, eeprom_read.
  rewrite H.
  set (c := calib_of_bytes _).
  destruct (status c =? CALIB_VALID) eqn:Es;
    destruct (magic c =? CALIB_MAGIC);
    cbn [andb calib set_calib set_calib_state]; rewrite ?Es; reflexivity.
Qed.

Lemma default_calibration_wf : calib_wf default_calibration = true.
Proof. vm_compute; reflexivity. Qed.

(** X2. [reset_calibration_to_default] writes the defaults to the EEPROM
    with status Invalid, so the record is not valid after the reset, and
    a restart on that EEPROM finds the defaults again and still no valid
    calibration; what the EEPROM holds after the reset is the image of
    the defaults. *)
Theorem reset_then_restart :
  forall s s',
    hw_eeprom (hw s') = hw_eeprom (hw (reset_calibration_to_default s)) ->
    calib (reset_calibration_to_default s) = default_calibration
    /\ is_calibration_valid (reset_calibration_to_default s) = false
    /\ hw_eeprom_writes (hw (reset_calibration_to_default s))
       = S (hw_eeprom_writes (hw s))
    /\ calib_state (reset_calibration_to_default s) = calib_state s
    /\ calib (calibration_init s') = default_calibration
    /\ is_calibration_valid (calibration_init s') = false
    /\ eeprom_read CALIB_EEPROM_ADDR CALIB_EEPROM_SIZE
         (reset_calibration_to_default s)
       = bytes_of_calib default_calibration.
Proof.
  intros s s' H.
  assert (Hc : calib (calibration_init s') = default_calibration).
  { rewrite (calibration_init_of_eeprom _ _ H).
    change (reset_calibration_to_default s)
      with (save_calibration_to_eeprom default_calibration
              (set_calib default_calibration s)).
    pose proof (load_after_save_invalid default_calibration
                  (set_calib default_calibration s) default_calibration_wf)
      as Hl.
    unfold calibration_init.
    destruct (negb _); cbn [calib set_calib set_calib_state];
      [reflexivity|].
    apply Hl; vm_compute; discriminate. }
  split; [reflexivity|].
  split; [reflexivity|].
  split; [reflexivity|].
  split; [reflexivity|].
  split; [exact Hc|].
  split; [unfold is_calibration_valid; rewrite Hc; reflexivity|].
  apply (eeprom_read_after_save default_calibration
           (set_calib default_calibration s)).
Qed.

(** A reset in the middle of a run, and a restart with empty variables
    on the hardware it leaves. *)
Lemma reset_then_restart_witness :
  calib (calibration_init
           (restarted (booted dead_imu_feed CALIB_IDLE false)
              (reset_calibration_to_default
                 (ticks 5 (booted bench_feed CALIB_IDLE true)))))
  = default_calibration.
Proof.
  destruct (reset_then_restart
              (ticks 5 (booted bench_feed CALIB_IDLE true))
              (restarted (booted dead_imu_feed CALIB_IDLE false)
                 (reset_calibration_to_default
                    (ticks 5 (booted bench_feed CALIB_IDLE true)))))
    as (_ & _ & _ & _ & H & _); [vm_compute; reflexivity|exact H].
Defined.

(** The record that the action of [CALIB_COMPLETE] writes holds values
    of the width of its fields. *)
Lemma completed_record_wf :
  forall c now,
    calib_wf c = true -> 0 <= now < UINT32_MOD ->
    calib_wf
      (set_calibration_count ((calibration_count c + 1) mod UINT16_MOD)
         (set_timestamp now (set_status CALIB_VALID c))) = true.
Proof.
  intros c now H Hnow; unfold calib_wf in *.
  do 27 (apply andb_true_iff in H; let H' := fresh "Hf" in
         destruct H as [H H']).
  cbn [magic imu_bias_x imu_bias_y imu_bias_z imu_scale_x
    imu_scale_y imu_scale_z mag_offset_x mag_offset_y mag_offset_z
    mag_scale_x mag_scale_y mag_scale_z pulses_per_meter_left
    pulses_per_meter_right lidar_offset_distance lidar_angle_offset
    camera_focal_length camera_principal_point_x camera_principal_point_y
    camera_distortion_k1 camera_distortion_k2 battery_voltage_offset
    battery_voltage_scale temp_offset timestamp calibration_count status
    set_calibration_count set_timestamp set_status].
  assert (Ht : uint_ok UINT32_MOD now = true).
  { unfold uint_ok; apply andb_true_iff; split;
      [apply Z.leb_le|apply Z.ltb_lt]; lia. }
  assert (Hn : uint_ok UINT16_MOD
                 ((calibration_count c + 1) mod UINT16_MOD) = true).
  { pose proof (Z.mod_pos_bound (calibration_count c + 1) UINT16_MOD
                  eq_refl).
    unfold uint_ok; apply andb_true_iff; split;
      [apply Z.leb_le|apply Z.ltb_lt]; lia. }
  rewrite H, Ht, Hn.
  repeat match goal with
         | Hx : f32_valid _ = true |- _ => rewrite Hx; clear Hx
         end.
  reflexivity.
Qed.

(** X3. A calibration that completes survives a restart: when the
    action of [CALIB_COMPLETE] runs on a well-formed record with the
    right magic number, a later [calibration_init] on the same EEPROM
    finds exactly the record that action left in memory - Valid, with
    its timestamp and run counter. *)
Theorem completed_calibration_survives_restart :
  forall s s',
    calib_state s = CALIB_COMPLETE ->
    calib_wf (calib s) = true ->
    magic (calib s) = CALIB_MAGIC ->
    0 <= get_time_ms s < UINT32_MOD ->
    hw_eeprom (hw s') = hw_eeprom (hw (calibration_state_machine s)) ->
    calib (calibration_init s') = calib (calibration_state_machine s)
    /\ is_calibration_valid (calibration_init s') = true
    /\ calib_state (calibration_init s') = CALIB_IDLE.
Proof.
  intros s s' Hc Hwf Hmagic Hnow He.
  assert (H : calib (calibration_init s')
              = calib (calibration_state_machine s)).
  { rewrite (calibration_init_of_eeprom _ _ He), (tick_complete s Hc).
    cbv zeta.
    set (c := set_calibration_count _ _).
    unfold calibration_init, load_calibration_from_eeprom, eeprom_read.
    cbn [hw set_calibration_requested set_calib_state set_calib
         save_calibration_to_eeprom eeprom_write set_hw hw_eeprom
         set_hw_eeprom_writes set_hw_eeprom calib].
    rewrite load_store_calib, calib_of_bytes_of_calib
      by (apply completed_record_wf; assumption).
    replace (status c) with CALIB_VALID by reflexivity.
    replace (magic c) with CALIB_MAGIC by (symmetry; exact Hmagic).
    reflexivity. }
  split; [exact H|]; split; [|reflexivity].
  unfold is_calibration_valid; rewrite H, (tick_complete s Hc); reflexivity.
Qed.

(** The bench: the seventeenth call, then a restart. *)
Lemma completed_calibration_survives_restart_witness :
  calib (calibration_init
           (restarted (booted dead_imu_feed CALIB_IDLE false)
              (ticks 17 (booted bench_feed CALIB_IDLE true))))
  = calib (ticks 17 (booted bench_feed CALIB_IDLE true)).
Proof.
  rewrite (ticks_S_r 16).
  apply (completed_calibration_survives_restart
           (ticks 16 (booted bench_feed CALIB_IDLE true))
           (restarted (booted dead_imu_feed CALIB_IDLE false)
              (calibration_state_machine
                 (ticks 16 (booted bench_feed CALIB_IDLE true)))));
    vm_compute; try reflexivity; split; [discriminate|reflexivity].
Defined.

(** ** The sequencer beyond the claims *)

Lemma step_nothing_persisted :
  forall ev s,
    ~ (ev = Tick /\ calib_state s = CALIB_COMPLETE) ->
    nothing_persisted s (step ev s).
Proof.
  intros [| | |ms] s H; simpl.
  - apply tick_nothing_persisted; intros Hc; apply H; split; trivial.
  - apply monitor_sequencer_kept.
  - apply request_sequencer_kept.
  - split; reflexivity.
Qed.

(** X4. The EEPROM is written by the action of [CALIB_COMPLETE] only:
    an execution of state-machine calls, drift checks, requests and
    waits in which the state machine is never called in that state
    leaves the EEPROM image and the write count as they were, so a
    restart after it finds the same record as a restart before it. *)
Theorem persisted_only_by_complete :
  forall evs s,
    (forall pre post,
       evs = pre ++ Tick :: post ->
       calib_state (run pre s) <> CALIB_COMPLETE) ->
    nothing_persisted s (run evs s)
    /\ calib (calibration_init (run evs s)) = calib (calibration_init s).
Proof.
  intros evs s H.
  assert (Hn : nothing_persisted s (run evs s)).
  { revert s H; induction evs as [|ev evs IH]; intros s H.
    - split; reflexivity.
    - rewrite run_cons.
      destruct (step_nothing_persisted ev s) as [H1 H2].
      { intros [-> Hc]; exact (H [] evs eq_refl Hc). }
      destruct (IH (step ev s)) as [H3 H4].
      { intros pre post -> ; exact (H (ev :: pre) post eq_refl). }
      split; congruence. }
  split; [exact Hn|].
  apply calibration_init_of_eeprom; apply Hn.
Qed.

(** A run that the blind LiDAR aborts, with a drift check and a second
    request in between. *)
Lemma persisted_only_by_complete_witness :
  hw_eeprom_writes
    (hw (run (repeat Tick 9 ++ [Drift; Request; Tick; Elapse 5000; Tick])
           (booted blind_lidar_feed CALIB_IDLE true)))
  = 0%nat.
Proof.
  destruct (persisted_only_by_complete
              (repeat Tick 9 ++ [Drift; Request; Tick; Elapse 5000; Tick])
              (booted blind_lidar_feed CALIB_IDLE true)) as [[_ H] _];
    [|rewrite H; reflexivity].
  intros pre post E Hc.
  pose proof (run_distance pre (booted blind_lidar_feed CALIB_IDLE true))
    as Hd.
  rewrite Hc in Hd; cbn [ticks_to_complete calib_state booted] in Hd.
  assert (Hlen : (tick_count pre <= length pre)%nat)
    by (unfold tick_count; apply filter_length_le).
  apply (f_equal (@length event)) in E.
  rewrite !length_app in E; simpl in E; lia.
Defined.

(** X5. Whatever the sensor, a calibrator that reports failure in its
    Running call sends the state machine to Error; the next call marks
    the record Invalid, clears the request and returns to Idle; nothing
    is written to the EEPROM, and the fields the failed stage may have
    written stay in the record in memory. *)
Theorem any_stage_failure_aborts :
  forall k s,
    calib_state s = running_state k ->
    fst (calibrate k s) = false ->
    calib_state (calibration_state_machine s) = CALIB_ERROR
    /\ calib_state (ticks 2 s) = CALIB_IDLE
    /\ calibration_requested (ticks 2 s) = false
    /\ calib (ticks 2 s)
       = set_status CALIB_INVALID (calib (snd (calibrate k s)))
    /\ is_calibration_valid (ticks 2 s) = false
    /\ nothing_persisted s (ticks 2 s).
Proof.
  intros k s Hk Hfail.
  assert (H1 : calib_state (calibration_state_machine s) = CALIB_ERROR).
  { rewrite (tick_running k s Hk), run_stage_state, Hfail; reflexivity. }
  change (ticks 2 s)
    with (calibration_state_machine (calibration_state_machine s)).
  rewrite (tick_error _ H1).
  cbn [calib_state calibration_requested calib set_calibration_requested
       set_calib_state set_calib].
  split; [exact H1|]; split; [reflexivity|]; split; [reflexivity|].
  split; [rewrite (tick_running k s Hk), run_stage_record; reflexivity|].
  split; [reflexivity|].
  destruct (tick_nothing_persisted s) as [E1 E2];
    [rewrite Hk; destruct k; discriminate|].
  split; cbn [hw set_calibration_requested set_calib_state set_calib];
    assumption.
Qed.

(** Wheels that do not move, in the Running call of the odometer. *)
Lemma any_stage_failure_aborts_witness :
  calib_state (ticks 2 (booted stuck_feed CALIB_ODOM_RUNNING true))
  = CALIB_IDLE.
Proof.
  destruct (any_stage_failure_aborts SensorOdom
              (booted stuck_feed CALIB_ODOM_RUNNING true))
    as (_ & H & _); [reflexivity|vm_compute; reflexivity|exact H].
Defined.

(** X6. A record that fails validation is never persisted: from
    Validate, a failing [validate_calibration] - a wrong magic number is
    enough - leads to Error and then to Idle with status Invalid, the
    request cleared and the EEPROM untouched. *)
Theorem validation_failure_aborts :
  forall s,
    calib_state s = CALIB_VALIDATE ->
    validate_calibration (calib s) = false
    \/ magic (calib s) <> CALIB_MAGIC ->
    calib_state (calibration_state_machine s) = CALIB_ERROR
    /\ calib_state (ticks 2 s) = CALIB_IDLE
    /\ calibration_requested (ticks 2 s) = false
    /\ calib (ticks 2 s) = set_status CALIB_INVALID (calib s)
    /\ nothing_persisted s (ticks 2 s).
Proof.
  intros s Hv Hbad.
  assert (Hfail : validate_calibration (calib s) = false).
  { destruct Hbad as [H|H]; [exact H|].
    unfold validate_calibration.
    destruct (magic (calib s) =? CALIB_MAGIC) eqn:E; [|reflexivity].
    apply Z.eqb_eq in E; contradiction. }
  assert (H1 : calibration_state_machine s = set_calib_state CALIB_ERROR s).
  { unfold calibration_state_machine; rewrite Hv, Hfail; reflexivity. }
  change (ticks 2 s)
    with (calibration_state_machine (calibration_state_machine s)).
  rewrite H1, (tick_error (set_calib_state CALIB_ERROR s) eq_refl).
  repeat split.
Qed.

(** The bench with wheels that turn 100 pulses only: the stage passes,
    the validation of the pulses-per-meter does not. *)
Lemma validation_failure_aborts_witness :
  calib_state
    (ticks 2 (ticks 15 (booted (wheels_feed 100 100) CALIB_IDLE true)))
  = CALIB_IDLE
  /\ calib (ticks 2 (ticks 15 (booted (wheels_feed 100 100) CALIB_IDLE true)))
     = set_status CALIB_INVALID
         (calib (ticks 15 (booted (wheels_feed 100 100) CALIB_IDLE true))).
Proof.
  destruct (validation_failure_aborts
              (ticks 15 (booted (wheels_feed 100 100) CALIB_IDLE true)))
    as (_ & H1 & _ & H2 & _);
    [vm_compute; reflexivity|left; vm_compute; reflexivity|].
  split; [exact H1|exact H2].
Defined.

(** One call of the state machine outside Idle either ends the run or
    leaves a strictly shorter rest of it. *)
Lemma tick_towards_idle :
  forall s,
    calib_state s <> CALIB_IDLE ->
    (calib_state (calibration_state_machine s) = CALIB_IDLE
     /\ calibration_requested (calibration_state_machine s) = false)
    \/ (calib_state (calibration_state_machine s) <> CALIB_IDLE
        /\ (ticks_to_idle (calib_state (calibration_state_machine s))
            < ticks_to_idle (calib_state s))%nat).
Proof.
  intros s Hn.
  destruct (state_cases (calib_state s))
    as [H|[H|[H|[H|[[k H]|[k H]]]]]].
  - contradiction.
  - right; unfold calibration_state_machine; rewrite H.
    destruct (validate_calibration _); simpl;
      split; (discriminate || lia).
  - left; rewrite (tick_complete s H); split; reflexivity.
  - left; rewrite (tick_error s H); split; reflexivity.
  - right; rewrite (tick_init k s H), H.
    destruct k; simpl; split; (discriminate || lia).
  - right; rewrite (tick_running k s H), run_stage_state, H.
    destruct (fst (calibrate k s)); destruct k; simpl;
      split; (discriminate || lia).
Qed.

(** X7. Every run ends: from any state other than Idle the state
    machine is back in Idle, with the request flag cleared, after at
    least one and at most [ticks_to_idle] calls - sixteen at most -
    whatever the calibrators answer. *)
Theorem run_always_ends :
  forall s,
    calib_state s <> CALIB_IDLE ->
    exists n,
      (1 <= n <= ticks_to_idle (calib_state s))%nat
      /\ (n <= 16)%nat
      /\ calib_state (ticks n s) = CALIB_IDLE
      /\ calibration_requested (ticks n s) = false.
Proof.
  assert (Hmain : forall r s,
            calib_state s <> CALIB_IDLE ->
            (ticks_to_idle (calib_state s) <= r)%nat ->
            exists n,
              (1 <= n <= ticks_to_idle (calib_state s))%nat
              /\ calib_state (ticks n s) = CALIB_IDLE
              /\ calibration_requested (ticks n s) = false).
  { induction r as [|r IH]; intros s Hn Hr.
    - destruct (calib_state s); simpl in Hr; try lia; contradiction.
    - destruct (tick_towards_idle s Hn) as [[H1 H2]|[H1 H2]].
      + exists 1%nat; repeat split; trivial.
        destruct (calib_state s); simpl; try lia; contradiction.
      + destruct (IH (calibration_state_machine s) H1) as (n & Hb & Hi & Hq);
          [lia|].
        exists (S n); repeat split; trivial; lia. }
  intros s Hn.
  destruct (Hmain _ s Hn (Nat.le_refl _)) as (n & Hb & Hi & Hq).
  exists n; repeat split; trivial; try lia.
  assert (ticks_to_idle (calib_state s) <= 16)%nat
    by (destruct (calib_state s); simpl; lia).
  lia.
Qed.

(** A run on the bench that has just left Idle. *)
Lemma run_always_ends_witness :
  exists n,
    (n <= 16)%nat
    /\ calib_state (ticks n (booted bench_feed CALIB_IMU_INIT true))
       = CALIB_IDLE.
Proof.
  destruct (run_always_ends (booted bench_feed CALIB_IMU_INIT true))
    as (n & _ & Hn & Hi & _); [discriminate|].
  exists n; split; assumption.
Defined.

(** X8. Without a pending request the idle state machine is inert: any
    number of calls leaves the whole state - record, hardware, clock and
    read counters - exactly as it was. *)
Theorem idle_without_request_is_inert :
  forall n s,
    calib_state s = CALIB_IDLE ->
    calibration_requested s = false ->
    ticks n s = s.
Proof.
  induction n as [|n IH]; intros s Hi Hr; [reflexivity|].
  change (ticks (S n) s) with (ticks n (calibration_state_machine s)).
  rewrite (tick_idle_not_requested s Hi Hr); apply IH; assumption.
Qed.

Lemma idle_without_request_is_inert_witness :
  ticks 40 (booted bench_feed CALIB_IDLE false)
  = booted bench_feed CALIB_IDLE false.
Proof.
  apply idle_without_request_is_inert; reflexivity.
Defined.

(** X9. [request_calibration] is honoured in Idle only: in any other
    state it changes nothing, so a request made during a run is dropped
    and not queued; in Idle it sets the flag, the next call of the state
    machine enters the first stage with the record untouched, and
    requesting twice is the same as requesting once. *)
Theorem request_calibration_semantics :
  (forall s, calib_state s <> CALIB_IDLE -> request_calibration s = s)
  /\ (forall s,
        calib_state s = CALIB_IDLE ->
        calibration_requested (request_calibration s) = true
        /\ calib_state (calibration_state_machine (request_calibration s))
           = CALIB_IMU_INIT
        /\ calib (calibration_state_machine (request_calibration s))
           = calib s
        /\ hw (calibration_state_machine (request_calibration s)) = hw s)
  /\ (forall s,
        request_calibration (request_calibration s) = request_calibration s).
Proof.
  assert (H1 : forall s, calib_state s <> CALIB_IDLE ->
                 request_calibration s = s).
  { intros s H; unfold request_calibration.
    destruct (calib_state s); try reflexivity; contradiction. }
  split; [exact H1|]; split.
  - intros s H; unfold request_calibration; rewrite H; cbn [is_idle negb].
    rewrite (tick_idle_requested (set_calibration_requested true s) H eq_refl).
    repeat split.
  - intros s; destruct (calib_state s) eqn:E;
      try (rewrite !(H1 s) by (rewrite E; discriminate); reflexivity).
    unfold request_calibration; rewrite E.
    cbn [is_idle negb calib_state set_calibration_requested].
    rewrite E; reflexivity.
Qed.

(** A request in the middle of a run on the bench. *)
Lemma request_calibration_semantics_witness :
  request_calibration (ticks 6 (booted bench_feed CALIB_IDLE true))
  = ticks 6 (booted bench_feed CALIB_IDLE true)
  /\ calib_state
       (calibration_state_machine
          (request_calibration (booted bench_feed CALIB_IDLE false)))
     = CALIB_IMU_INIT.
Proof.
  destruct request_calibration_semantics as (H1 & H2 & _).
  split.
  - apply H1; vm_compute; discriminate.
  - apply (H2 (booted bench_feed CALIB_IDLE false)); reflexivity.
Defined.

(** ** The drift monitor beyond the claims *)

(** What a call of the monitor does to the record. *)
Lemma monitor_record :
  forall s,
    calib (monitor_sensor_drift s) = calib s
    \/ calib (monitor_sensor_drift s)
       = set_status CALIB_NEEDS_RECALIBRATION (calib s).
Proof.
  intros s; unfold monitor_sensor_drift.
  destruct (_ <? _); [left; reflexivity|].
  unfold read_imu_raw; cbn [hw set_last_check].
  destruct (feed_imu _ _); cbn [negb]; [|left; reflexivity].
  destruct (_ || _); [right|left]; reflexivity.
Qed.

Lemma monitor_when_due :
  forall s,
    drift_check_due s ->
    last_check (monitor_sensor_drift s) = get_time_ms s
    /\ hw_now (hw (monitor_sensor_drift s)) = hw_now (hw s)
    /\ hw_imu_reads (hw (monitor_sensor_drift s)) = S (hw_imu_reads (hw s)).
Proof.
  intros s Hdue; unfold drift_check_due in Hdue; unfold monitor_sensor_drift.
  destruct (_ <? _) eqn:E; [apply Z.ltb_lt in E; lia|].
  unfold read_imu_raw; cbn [hw set_last_check].
  destruct (feed_imu _ _); cbn [negb]; [|repeat split].
  destruct (_ || _); repeat split.
Qed.

(** X10. The drift monitor is rate-limited by its own time stamp: when
    no check is due it changes nothing at all; a due check takes exactly
    one inertial read and stamps the time even when that read fails; and
    any further call less than an hour later does nothing - a failed
    read is not retried before the next hour. *)
Theorem drift_monitor_rate_limited :
  (forall s, ~ drift_check_due s -> monitor_sensor_drift s = s)
  /\ (forall s,
        drift_check_due s ->
        last_check (monitor_sensor_drift s) = get_time_ms s
        /\ hw_imu_reads (hw (monitor_sensor_drift s))
           = S (hw_imu_reads (hw s)))
  /\ (forall s ms,
        drift_check_due s ->
        0 <= ms < 3600000 ->
        monitor_sensor_drift (delay_ms ms (monitor_sensor_drift s))
        = delay_ms ms (monitor_sensor_drift s)).
Proof.
  assert (Hidle : forall s, ~ drift_check_due s -> monitor_sensor_drift s = s).
  { intros s Hn; unfold drift_check_due in Hn; unfold monitor_sensor_drift.
    destruct (_ <? _) eqn:E; [reflexivity|apply Z.ltb_ge in E; contradiction]. }
  split; [exact Hidle|]; split.
  - intros s Hdue; destruct (monitor_when_due s Hdue) as (H1 & _ & H2).
    split; assumption.
  - intros s ms Hdue Hms; apply Hidle.
    destruct (monitor_when_due s Hdue) as (H1 & H2 & _).
    unfold drift_check_due, get_time_ms, delay_ms in *.
    cbn [hw set_hw hw_now set_hw_now last_check].
    rewrite H1, H2, Zminus_mod_idemp_l.
    replace (hw_now (hw s) + ms - hw_now (hw s)) with ms by lia.
    rewrite Z.mod_small by (unfold UINT32_MOD; lia); lia.
Qed.

(** An hour after start-up with a silent inertial unit: the check is
    spent, and a call half an hour later does nothing. *)
Lemma drift_monitor_rate_limited_witness :
  monitor_sensor_drift
    (delay_ms 1800000
       (monitor_sensor_drift
          (delay_ms 3600000 (booted dead_imu_feed CALIB_IDLE false))))
  = delay_ms 1800000
      (monitor_sensor_drift
         (delay_ms 3600000 (booted dead_imu_feed CALIB_IDLE false))).
Proof.
  destruct drift_monitor_rate_limited as (_ & _ & H).
  apply H; [vm_compute; discriminate|lia].
Defined.

(** ** The magic number is an invariant *)

Lemma step_magic :
  forall ev s, magic (calib (step ev s)) = magic (calib s).
Proof.
  intros [| | |ms] s; simpl.
  - destruct (state_cases (calib_state s))
      as [H|[H|[H|[H|[[k H]|[k H]]]]]].
    + apply tick_metadata_kept; rewrite H; discriminate.
    + apply tick_metadata_kept; rewrite H; discriminate.
    + rewrite (tick_complete s H); reflexivity.
    + rewrite (tick_error s H); reflexivity.
    + apply tick_metadata_kept; rewrite H; destruct k; discriminate.
    + apply tick_metadata_kept; rewrite H; destruct k; discriminate.
  - destruct (monitor_record s) as [-> | ->]; reflexivity.
  - destruct (request_sequencer_kept s) as (_ & -> & _); reflexivity.
  - reflexivity.
Qed.

(** X11. No call of the state machine or of the drift monitor, no
    request and no wait changes the magic number of the record in
    memory; after [calibration_init] it is the right one in every state
    an execution reaches, so the magic test of the validator cannot fail
    there. *)
Theorem magic_is_invariant :
  forall evs s,
    magic (calib (run evs s)) = magic (calib s)
    /\ magic (calib (run evs (calibration_init s))) = CALIB_MAGIC.
Proof.
  assert (H : forall evs s, magic (calib (run evs s)) = magic (calib s)).
  { induction evs as [|ev evs IH]; intros s; [reflexivity|].
    rewrite run_cons, IH; apply step_magic. }
  intros evs s; split; [apply H|].
  rewrite H; apply calibration_init_establishes.
Qed.

(** ** The remaining calibrators *)

Lemma lidar_readings_length :
  forall n feed from, length (lidar_readings n feed from) = n.
Proof.
  induction n as [|n IH]; intros feed from; simpl; [|rewrite IH];
    reflexivity.
Qed.

(** The ranging loop accumulates the distances it reads, as long as
    none is negative. *)
Lemma lidar_collect_readings :
  forall n a b s,
    ~ lidar_read_fails n s ->
    fst (lidar_collect n a b s)
    = Some
        (fold_left f32_add
           (lidar_readings n (feed_lidar (hw_feed (hw s)))
              (hw_lidar_reads (hw s))) a,
         fold_left f32_add
           (map (fun x => f32_mul x x)
              (lidar_readings n (feed_lidar (hw_feed (hw s)))
                 (hw_lidar_reads (hw s)))) b).
Proof.
  induction n as [|n IH]; intros a b s Hok; simpl.
  - reflexivity.
  - destruct (f_lt (feed_lidar (hw_feed (hw s)) (hw_lidar_reads (hw s)))
                f_0_0) eqn:E.
    + exfalso; apply Hok; exists 0%nat; split;
        [lia|rewrite Nat.add_0_r; exact E].
    + apply IH; intros (i & Hi & Hf); apply Hok.
      exists (S i); split; [lia|].
      simpl in Hf; rewrite Nat.add_succ_r; exact Hf.
Qed.

(** X12. The LiDAR calibrator succeeds exactly when none of its fifty
    reads answers a negative distance - a large offset or a noisy target
    only logs a warning - and it then sets the distance offset to 1.0
    less the single-precision mean of the fifty distances, and nothing
    else. *)
Theorem lidar_calibration_derivation :
  forall s,
    (fst (calibrate_lidar s) = true <-> ~ lidar_read_fails LIDAR_SAMPLES s)
    /\ (~ lidar_read_fails LIDAR_SAMPLES s ->
        calib (snd (calibrate_lidar s))
        = set_lidar_offset_distance
            (f32_sub f_1_0
               (f32_mean
                  (lidar_readings LIDAR_SAMPLES (feed_lidar (hw_feed (hw s)))
                     (hw_lidar_reads (hw s)))))
            (calib s)).
Proof.
  intros s; split.
  - pose proof (calibrate_lidar_fails_iff s) as [H1 H2].
    destruct (fst (calibrate_lidar s)); split.
    + intros _ Hf; apply H2 in Hf; discriminate.
    + reflexivity.
    + discriminate.
    + intros Hn; exfalso; apply Hn, H1; reflexivity.
  - intros Hok; unfold calibrate_lidar.
    pose proof (lidar_collect_readings LIDAR_SAMPLES f_0_0 f_0_0 s Hok) as Hc.
    pose proof (lidar_collect_env_only LIDAR_SAMPLES f_0_0 f_0_0 s) as [He _].
    destruct (lidar_collect _ _ _ _) as [[[a b]|] s1];
      cbn [fst snd] in Hc, He; [|discriminate].
    assert (Ha : a = fold_left f32_add
                       (lidar_readings LIDAR_SAMPLES
                          (feed_lidar (hw_feed (hw s)))
                          (hw_lidar_reads (hw s))) f_0_0) by congruence.
    cbn [snd calib set_calib]; rewrite He, Ha.
    unfold f32_mean, f32_sum; rewrite lidar_readings_length; reflexivity.
Qed.

(** A target that stands at 1.25 m: the offset is -0.25, beyond the
    0.1 m of the warning, and the stage succeeds. *)
Lemma lidar_calibration_derivation_witness :
  let feed :=
    {| feed_imu := feed_imu bench_feed;
       feed_mag := feed_mag bench_feed;
       feed_lidar := fun _ => f32_lit 5 4;
       feed_battery := feed_battery bench_feed;
       feed_temp := feed_temp bench_feed;
       feed_move := feed_move bench_feed |} in
  fst (calibrate_lidar (booted feed CALIB_LIDAR_RUNNING true)) = true
  /\ lidar_offset_distance
       (calib (snd (calibrate_lidar (booted feed CALIB_LIDAR_RUNNING true))))
     = f32_lit (-1) 4.
Proof.
  intros feed.
  destruct (lidar_calibration_derivation
              (booted feed CALIB_LIDAR_RUNNING true)) as [H1 H2].
  assert (Hok : ~ lidar_read_fails LIDAR_SAMPLES
                    (booted feed CALIB_LIDAR_RUNNING true)).
  { intros (i & _ & Hf); vm_compute in Hf; discriminate. }
  split; [apply H1; exact Hok|].
  rewrite (H2 Hok); vm_compute; reflexivity.
Defined.

Lemma feed_samples_length :
  forall (A : Type) n (feed : nat -> option A) from l,
    feed_samples n feed from = Some l -> length l = n.
Proof.
  intros A; induction n as [|n IH]; intros feed from l H; simpl in H.
  - injection H as <-; reflexivity.
  - destruct (feed from) as [d|]; [|discriminate].
    destruct (feed_samples n feed (S from)) as [l'|] eqn:E; [|discriminate].
    injection H as <-; simpl; f_equal; apply (IH _ _ _ E).
Qed.

(** The battery loop: it sums the voltages of the samples it is fed and
    stops at the first failed read. *)
Lemma battery_collect_samples :
  forall n a s,
    fst (battery_collect n a s)
    = match feed_samples n (feed_battery (hw_feed (hw s)))
              (hw_battery_reads (hw s)) with
      | Some l => Some (fold_left f32_add (map voltage l) a)
      | None => None
      end.
Proof.
  induction n as [|n IH]; intros a s; simpl.
  - reflexivity.
  - unfold read_battery_data.
    destruct (feed_battery (hw_feed (hw s)) (hw_battery_reads (hw s)))
      as [d|]; [|reflexivity].
    rewrite IH; cbn [hw delay_ms set_hw set_battery_data hw_feed
                     hw_battery_reads set_hw_battery_reads set_hw_now
                     battery_data].
    destruct (feed_samples n _ _); reflexivity.
Qed.

(** X13. The battery calibrator succeeds exactly when its ten reads
    succeed; it then sets the voltage offset to 12.0 less the
    single-precision mean of the ten voltages and the voltage scale to
    1.0, and nothing else; when a read fails the record is unchanged. *)
Theorem battery_calibration_derivation :
  forall s,
    match feed_samples 10 (feed_battery (hw_feed (hw s)))
            (hw_battery_reads (hw s)) with
    | Some l =>
        fst (calibrate_battery s) = true
        /\ calib (snd (calibrate_battery s))
           = set_battery_voltage_scale f_1_0
               (set_battery_voltage_offset
                  (f32_sub f_12_0 (f32_mean (map voltage l))) (calib s))
    | None =>
        fst (calibrate_battery s) = false
        /\ calib (snd (calibrate_battery s)) = calib s
    end.
Proof.
  intros s; unfold calibrate_battery.
  pose proof (battery_collect_samples 10 f_0_0 s) as Hc.
  pose proof (battery_collect_env_only 10 f_0_0 s) as [He _].
  destruct (feed_samples 10 _ _) as [l|] eqn:El;
    destruct (battery_collect 10 f_0_0 s) as [[a|] s1];
    cbn [fst snd] in Hc, He; try discriminate.
  - assert (Ha : a = fold_left f32_add (map voltage l) f_0_0) by congruence.
    split; [reflexivity|].
    cbn [snd calib set_calib]; rewrite He, Ha.
    unfold f32_mean, f32_sum.
    rewrite length_map, (feed_samples_length _ _ _ _ _ El); reflexivity.
  - split; [reflexivity|exact He].
Qed.

(** The temperature loop, likewise. *)
Lemma temperature_collect_samples :
  forall n a s,
    fst (temperature_collect n a s)
    = match feed_samples n (feed_temp (hw_feed (hw s)))
              (hw_temp_reads (hw s)) with
      | Some l => Some (fold_left f32_add (map temperature l) a)
      | None => None
      end.
Proof.
  induction n as [|n IH]; intros a s; simpl.
  - reflexivity.
  - unfold read_temperature_data.
    destruct (feed_temp (hw_feed (hw s)) (hw_temp_reads (hw s)))
      as [d|]; [|reflexivity].
    rewrite IH; cbn [hw delay_ms set_hw set_temp_data hw_feed
                     hw_temp_reads set_hw_temp_reads set_hw_now temp_data].
    destruct (feed_samples n _ _); reflexivity.
Qed.

(** X14. The temperature calibrator succeeds exactly when its ten reads
    succeed; it then sets the offset to 25.0 less the single-precision
    mean of the ten temperatures, and nothing else; when a read fails
    the record is unchanged. *)
Theorem temperature_calibration_derivation :
  forall s,
    match feed_samples 10 (feed_temp (hw_feed (hw s)))
            (hw_temp_reads (hw s)) with
    | Some l =>
        fst (calibrate_temperature s) = true
        /\ calib (snd (calibrate_temperature s))
           = set_temp_offset
               (f32_sub f_25_0 (f32_mean (map temperature l))) (calib s)
    | None =>
        fst (calibrate_temperature s) = false
        /\ calib (snd (calibrate_temperature s)) = calib s
    end.
Proof.
  intros s; unfold calibrate_temperature.
  pose proof (temperature_collect_samples 10 f_0_0 s) as Hc.
  pose proof (temperature_collect_env_only 10 f_0_0 s) as [He _].
  destruct (feed_samples 10 _ _) as [l|] eqn:El;
    destruct (temperature_collect 10 f_0_0 s) as [[a|] s1];
    cbn [fst snd] in Hc, He; try discriminate.
  - assert (Ha : a = fold_left f32_add (map temperature l) f_0_0)
      by congruence.
    split; [reflexivity|].
    cbn [snd calib set_calib]; rewrite He, Ha.
    unfold f32_mean, f32_sum.
    rewrite length_map, (feed_samples_length _ _ _ _ _ El); reflexivity.
  - split; [reflexivity|exact He].
Qed.

(** ** The magnetic sweep: when it succeeds and how long it takes *)

(** The sweep loop from a state with [n] steps of 50 ms left: it ends on
    a failed read if one of the next [n] reads fails, and otherwise on
    its own condition, with the clock at the end of the window and [n]
    more reads taken. *)
Lemma mag_sweep_outcome :
  forall n fuel start e s,
    (n < fuel)%nat ->
    sweep_elapsed start s = MAG_ROTATION_TIME_MS - 50 * Z.of_nat n ->
    match mag_samples n (feed_mag (hw_feed (hw s))) (hw_mag_reads (hw s)) with
    | Some l =>
        fst (mag_sweep fuel start e s) = SweepDone (fold_left mag_track l e)
        /\ sweep_elapsed start (snd (mag_sweep fuel start e s))
           = MAG_ROTATION_TIME_MS
        /\ hw_mag_reads (hw (snd (mag_sweep fuel start e s)))
           = (hw_mag_reads (hw s) + n)%nat
    | None => fst (mag_sweep fuel start e s) = SweepReadFailed
    end.
Proof.
  induction n as [|n IH]; intros fuel start e s Hfuel Hel;
    (destruct fuel as [|fuel]; [lia|]);
    cbn [mag_samples mag_sweep]; fold (sweep_elapsed start s); rewrite Hel.
  - replace (_ <? _) with false by (symmetry; apply Z.ltb_ge; lia).
    cbn [fst snd fold_left]; repeat split; [rewrite Hel; lia|lia].
  - replace (_ <? _) with true by (symmetry; apply Z.ltb_lt; lia).
    unfold read_magnetometer_raw.
    destruct (feed_mag (hw_feed (hw s)) (hw_mag_reads (hw s))) as [d|];
      [|reflexivity].
    pose proof (sweep_elapsed_nonneg start s) as Hpos.
    set (s1 := delay_ms 50 _).
    assert (Hel1 : sweep_elapsed start s1
                   = MAG_ROTATION_TIME_MS - 50 * Z.of_nat n).
    { unfold s1; rewrite (sweep_elapsed_step start s); [lia|reflexivity|].
      unfold MAG_ROTATION_TIME_MS in *; lia. }
    specialize (IH fuel start
                  (mag_track e
                     (mag_data
                        (set_mag_data d
                           (set_hw
                              (set_hw_mag_reads (S (hw_mag_reads (hw s)))
                                 (hw s)) s)))) s1
                  (proj2 (Nat.succ_lt_mono _ _) Hfuel) Hel1).
    change (hw_feed (hw s1)) with (hw_feed (hw s)) in IH.
    change (hw_mag_reads (hw s1)) with (S (hw_mag_reads (hw s))) in IH.
    destruct (mag_samples n _ _) as [l|]; [|exact IH].
    destruct IH as (H1 & H2 & H3).
    cbn [fold_left]; split; [exact H1|]; split; [exact H2|].
    rewrite H3; lia.
Qed.

(** X15. The magnetometer calibrator succeeds exactly when the six
    hundred reads of its window succeed; it then returns with the
    32-bit clock exactly 30000 ms after its start and six hundred reads
    taken, and it fails at the first read that fails. *)
Theorem magnetometer_sweep_outcome :
  forall s,
    match mag_samples MAG_SWEEP_READS (feed_mag (hw_feed (hw s)))
            (hw_mag_reads (hw s)) with
    | Some l =>
        fst (calibrate_magnetometer s) = true
        /\ (get_time_ms (snd (calibrate_magnetometer s)) - get_time_ms s)
             mod UINT32_MOD = MAG_ROTATION_TIME_MS
        /\ hw_mag_reads (hw (snd (calibrate_magnetometer s)))
           = (hw_mag_reads (hw s) + MAG_SWEEP_READS)%nat
    | None =>
        fst (calibrate_magnetometer s) = false
        /\ calib (snd (calibrate_magnetometer s)) = calib s
    end.
Proof.
  intros s.
  pose proof (mag_sweep_outcome MAG_SWEEP_READS MAG_SWEEP_FUEL
                (get_time_ms s) mag_extremes_init s) as H.
  pose proof (mag_sweep_env_only MAG_SWEEP_FUEL (get_time_ms s)
                mag_extremes_init s) as [He _].
  unfold calibrate_magnetometer.
  destruct (mag_samples MAG_SWEEP_READS _ _) as [l|].
  - destruct H as (H1 & H2 & H3);
      [unfold MAG_SWEEP_READS, MAG_SWEEP_FUEL; lia
      |unfold sweep_elapsed; rewrite Z.sub_diag; reflexivity|].
    destruct (mag_sweep _ _ _ _) as [r s1]; cbn [fst snd] in *.
    subst r; cbn [fst snd get_time_ms hw set_calib].
    repeat split; assumption.
  - destruct (mag_sweep _ _ _ _) as [r s1]; cbn [fst snd] in *.
    rewrite H;
      [|unfold MAG_SWEEP_READS, MAG_SWEEP_FUEL; lia
       |unfold sweep_elapsed; rewrite Z.sub_diag; reflexivity].
    split; [reflexivity|exact He].
Qed.

(** ** The odometer: what it measures and what it lets through *)

(** Two equal counts never exceed the threshold, whatever they are. *)
Lemma encoder_error_equal :
  forall n, f_gt (encoder_error n n) f_0_15 = false.
Proof.
  intros n; unfold encoder_error.
  rewrite Z.sub_diag, Z.mod_0_l by (unfold UINT32_MOD; lia).
  change (fabs (f64_of_Z 0)) with (S754_zero false).
  destruct (f64_of_f32 _) as [s|s| |s m e]; reflexivity.
Qed.

(** X16. The odometer calibrator measures the pulses of its own move
    only: whatever the encoders showed before, the counts it uses are
    the pulses the move produced, modulo 2^32; it succeeds exactly when
    the move succeeds and the computed error does not exceed 0.15f; and
    two equal counts always pass - also when both wheels counted no
    pulse at all. *)
Theorem odometer_measures_its_own_move :
  forall s moved dl dr,
    feed_move (hw_feed (hw s)) (hw_moves (hw s)) = (moved, dl, dr) ->
    fst (calibrate_odometer s)
    = moved
      && negb (f_gt (encoder_error (dl mod UINT32_MOD) (dr mod UINT32_MOD))
                 f_0_15)
    /\ (moved = true ->
        pulses_per_meter_left (calib (snd (calibrate_odometer s)))
        = f32_div (f32_of_Z (dl mod UINT32_MOD)) f_1_0
        /\ pulses_per_meter_right (calib (snd (calibrate_odometer s)))
           = f32_div (f32_of_Z (dr mod UINT32_MOD)) f_1_0)
    /\ (moved = true -> dl mod UINT32_MOD = dr mod UINT32_MOD ->
        fst (calibrate_odometer s) = true).
Proof.
  intros s moved dl dr Hm.
  assert (H : fst (calibrate_odometer s)
              = moved
                && negb (f_gt (encoder_error (dl mod UINT32_MOD)
                                 (dr mod UINT32_MOD)) f_0_15)
              /\ (moved = true ->
                  pulses_per_meter_left (calib (snd (calibrate_odometer s)))
                  = f32_div (f32_of_Z (dl mod UINT32_MOD)) f_1_0
                  /\ pulses_per_meter_right
                       (calib (snd (calibrate_odometer s)))
                     = f32_div (f32_of_Z (dr mod UINT32_MOD)) f_1_0)).
  { unfold calibrate_odometer, move_forward_distance.
    cbn [hw delay_ms reset_encoder_counters set_hw hw_feed hw_moves
         set_hw_now set_hw_enc_left set_hw_enc_right hw_enc_left
         hw_enc_right].
    rewrite Hm.
    cbn [get_left_encoder_count get_right_encoder_count hw set_hw
         hw_enc_left hw_enc_right set_hw_moves set_hw_enc_left
         set_hw_enc_right Z.add].
    destruct moved; cbn [negb andb]; [|split; [reflexivity|discriminate]].
    destruct (f_gt _ _); cbn [negb fst snd calib set_calib];
      (split; [reflexivity|intros _; split; reflexivity]). }
  destruct H as [H1 H2]; split; [exact H1|]; split; [exact H2|].
  intros -> Heq; rewrite H1, Heq, encoder_error_equal; reflexivity.
Qed.

(** A move that reports success with wheels that did not turn: the
    stage passes with zero pulses per meter. *)
Lemma odometer_measures_its_own_move_witness :
  fst (calibrate_odometer (booted (wheels_feed 0 0) CALIB_ODOM_RUNNING true))
  = true.
Proof.
  destruct (odometer_measures_its_own_move
              (booted (wheels_feed 0 0) CALIB_ODOM_RUNNING true) true 0 0
              eq_refl) as (_ & _ & H).
  apply H; reflexivity.
Defined.

(** ** The validator and NaN *)

(** NaN is on neither side of a range and its magnitude exceeds no
    bound. *)
Lemma nan_passes_checks :
  fabs_gt S754_nan f_5_0 = false
  /\ out_of_range S754_nan f_0_5 f_2_0 = false
  /\ out_of_range S754_nan f_500_0 f_2000_0 = false
  /\ out_of_range S754_nan f_100_0 f_1000_0 = false.
Proof. repeat split. Qed.

(** The verdict of the validator, check by check. *)
Lemma validate_calibration_checks :
  forall c,
    validate_calibration c
    = (magic c =? CALIB_MAGIC)
      && negb (imu_bias_bad c) && negb (imu_scale_bad c)
      && negb (mag_scale_bad c)
      && negb (out_of_range (pulses_per_meter_left c) f_500_0 f_2000_0)
      && negb (out_of_range (pulses_per_meter_right c) f_500_0 f_2000_0)
      && negb (out_of_range (camera_focal_length c) f_100_0 f_1000_0).
Proof.
  intros c; unfold validate_calibration.
  fold (imu_bias_bad c); fold (imu_scale_bad c); fold (mag_scale_bad c).
  destruct (magic c =? CALIB_MAGIC); cbn [negb andb]; [|reflexivity].
  destruct (imu_bias_bad c); cbn [negb andb]; [reflexivity|].
  destruct (imu_scale_bad c); cbn [negb andb]; [reflexivity|].
  destruct (mag_scale_bad c); cbn [negb andb]; [reflexivity|].
  destruct (out_of_range (pulses_per_meter_left c) _ _); cbn [negb andb];
    [reflexivity|].
  destruct (out_of_range (pulses_per_meter_right c) _ _); cbn [negb andb];
    [reflexivity|].
  destruct (out_of_range (camera_focal_length c) _ _); reflexivity.
Qed.

(** X17. The validator lets NaN through: its range tests are
    comparisons, which are false on NaN, so replacing any coefficient it
    checks - a bias, a scale, a pulses-per-meter, the focal length - by
    NaN never turns an accepted record into a rejected one. *)
Theorem validator_accepts_nan :
  forall c,
    validate_calibration c = true ->
    validate_calibration (set_imu_bias_x S754_nan c) = true
    /\ validate_calibration (set_imu_bias_y S754_nan c) = true
    /\ validate_calibration (set_imu_bias_z S754_nan c) = true
    /\ validate_calibration (set_imu_scale_x S754_nan c) = true
    /\ validate_calibration (set_imu_scale_y S754_nan c) = true
    /\ validate_calibration (set_imu_scale_z S754_nan c) = true
    /\ validate_calibration (set_mag_scale_x S754_nan c) = true
    /\ validate_calibration (set_mag_scale_y S754_nan c) = true
    /\ validate_calibration (set_mag_scale_z S754_nan c) = true
    /\ validate_calibration (set_pulses_per_meter_left S754_nan c) = true
    /\ validate_calibration (set_pulses_per_meter_right S754_nan c) = true
    /\ validate_calibration (set_camera_focal_length S754_nan c) = true.
Proof.
  intros c H; rewrite validate_calibration_checks in H.
  repeat (apply andb_true_iff in H; let H' := fresh "Hc" in
          destruct H as [H H']).
  apply negb_true_iff in Hc, Hc0, Hc1, Hc2, Hc3, Hc4.
  unfold imu_bias_bad, imu_scale_bad, mag_scale_bad in *.
  repeat (match goal with
          | Hx : _ || _ = false |- _ =>
              apply orb_false_iff in Hx; destruct Hx
          end).
  destruct nan_passes_checks as (N1 & N2 & N3 & N4).
  repeat split; rewrite validate_calibration_checks;
    unfold imu_bias_bad, imu_scale_bad, mag_scale_bad;
    cbn [magic imu_bias_x imu_bias_y imu_bias_z imu_scale_x imu_scale_y
         imu_scale_z mag_scale_x mag_scale_y mag_scale_z
         pulses_per_meter_left pulses_per_meter_right camera_focal_length
         set_imu_bias_x set_imu_bias_y set_imu_bias_z set_imu_scale_x
         set_imu_scale_y set_imu_scale_z set_mag_scale_x set_mag_scale_y
         set_mag_scale_z set_pulses_per_meter_left
         set_pulses_per_meter_right set_camera_focal_length];
    repeat match goal with
           | Hx : ?t = _ |- context [?t] => rewrite Hx
           end;
    rewrite ?N1, ?N2, ?N3, ?N4; reflexivity.
Qed.

(** The still compass of C7, end to end: the scales are NaN, the record
    passes validation, and the seventeenth call persists it as Valid. *)
Lemma validator_accepts_nan_witness :
  let s := ticks 17 (booted still_compass_feed CALIB_IDLE true) in
  validate_calibration (set_mag_scale_x S754_nan (calib s)) = true
  /\ mag_scale_x (calib s) = S754_nan
  /\ status (calib s) = CALIB_VALID
  /\ hw_eeprom_writes (hw s) = 1%nat.
Proof.
  intros s; split; [|vm_compute; repeat split].
  destruct (validator_accepts_nan (calib s)) as (_ & _ & _ & _ & _ & _ & H & _);
    [vm_compute; reflexivity|exact H].
Defined.

(** ** What the accessors report *)

(** X18. Right after the action of [CALIB_COMPLETE] the reported age is
    zero, and [ms] milliseconds later it is [ms / 1000] seconds, for
    every wait shorter than the period of the 32-bit clock; the record
    is reported valid. *)
Theorem age_after_completion :
  forall s ms,
    calib_state s = CALIB_COMPLETE ->
    0 <= ms < UINT32_MOD ->
    get_calibration_age_seconds (calibration_state_machine s) = 0
    /\ get_calibration_age_seconds
         (delay_ms ms (calibration_state_machine s)) = ms / 1000
    /\ is_calibration_valid (delay_ms ms (calibration_state_machine s)) = true.
Proof.
  intros s ms Hc Hms; rewrite (tick_complete s Hc); cbv zeta.
  unfold get_calibration_age_seconds, is_calibration_valid, get_time_ms,
    delay_ms.
  cbn [hw calib set_hw set_calibration_requested set_calib_state set_calib
       save_calibration_to_eeprom eeprom_write hw_now set_hw_now
       set_hw_eeprom_writes set_hw_eeprom timestamp status
       set_calibration_count set_timestamp set_status].
  split; [|split; [|reflexivity]].
  - rewrite Z.sub_diag; reflexivity.
  - rewrite Zminus_mod_idemp_l.
    replace (hw_now (hw s) + ms - hw_now (hw s)) with ms by lia.
    rewrite Z.mod_small by lia; reflexivity.
Qed.

(** The bench, ninety seconds after the seventeenth call. *)
Lemma age_after_completion_witness :
  get_calibration_age_seconds
    (delay_ms 90000
       (calibration_state_machine
          (ticks 16 (booted bench_feed CALIB_IDLE true)))) = 90.
Proof.
  destruct (age_after_completion
              (ticks 16 (booted bench_feed CALIB_IDLE true)) 90000)
    as (_ & H & _);
    [vm_compute; reflexivity
    |unfold UINT32_MOD; lia
    |rewrite H; reflexivity].
Defined.

(** X19. A run in progress does not change what [is_calibration_valid]
    reports: outside the actions of Complete and Error a call of the
    state machine leaves the status, the timestamp and the run counter
    as they were, although the stage it runs may already have rewritten
    its coefficients in the record. *)
Theorem run_in_progress_keeps_validity :
  forall s,
    calib_state s <> CALIB_COMPLETE ->
    calib_state s <> CALIB_ERROR ->
    is_calibration_valid (calibration_state_machine s)
    = is_calibration_valid s
    /\ timestamp (calib (calibration_state_machine s)) = timestamp (calib s)
    /\ calibration_count (calib (calibration_state_machine s))
       = calibration_count (calib s)
    /\ status (calib (calibration_state_machine s)) = status (calib s).
Proof.
  intros s Hc He.
  destruct (tick_metadata_kept s Hc He) as (_ & H1 & H2 & H3).
  unfold is_calibration_valid; rewrite H3; repeat split; assumption.
Qed.

(** A recalibration of a valid record on a bench whose wheels now turn
    1200 pulses: after the odometer stage the record is still reported
    valid, with the new pulses-per-meter in it. *)
Lemma run_in_progress_keeps_validity_witness :
  let s :=
    set_calib_state CALIB_ODOM_RUNNING
      (set_calib
         (set_status CALIB_VALID
            (calib (booted (wheels_feed 1200 1200) CALIB_IDLE true)))
         (booted (wheels_feed 1200 1200) CALIB_IDLE true)) in
  is_calibration_valid (calibration_state_machine s) = true
  /\ pulses_per_meter_left (calib s) = f_1000_0
  /\ pulses_per_meter_left (calib (calibration_state_machine s))
     = f32_of_Z 1200.
Proof.
  intros s.
  destruct (run_in_progress_keeps_validity s) as (H & _);
    [discriminate|discriminate|].
  split; [rewrite H; reflexivity|vm_compute; split; reflexivity].
Defined.

(** ** The periodic update *)

(** X20. [calibration_update] is the state machine followed by the drift
    monitor: the sequencer state and the EEPROM are those the state
    machine leaves, so an update outside Complete writes nothing; the
    record is the one the state machine leaves or that record flagged
    NeedsRecalibration - a drift seen in the update that runs the action
    of Complete replaces the fresh Valid in memory while the EEPROM
    holds the record as Valid. *)
Theorem calibration_update_composes :
  forall s,
    calib_state (calibration_update s)
    = calib_state (calibration_state_machine s)
    /\ nothing_persisted (calibration_state_machine s) (calibration_update s)
    /\ (calib (calibration_update s) = calib (calibration_state_machine s)
        \/ calib (calibration_update s)
           = set_status CALIB_NEEDS_RECALIBRATION
               (calib (calibration_state_machine s)))
    /\ (calib_state s <> CALIB_COMPLETE ->
        nothing_persisted s (calibration_update s))
    /\ (calib_state s = CALIB_COMPLETE ->
        eeprom_read CALIB_EEPROM_ADDR CALIB_EEPROM_SIZE (calibration_update s)
        = bytes_of_calib (calib (calibration_state_machine s))
        /\ status (calib (calibration_state_machine s)) = CALIB_VALID).
Proof.
  intros s; unfold calibration_update.
  destruct (monitor_sequencer_kept (calibration_state_machine s))
    as [H1 [H2 H3]].
  split; [exact H1|]; split; [split; assumption|].
  split; [apply monitor_record|]; split.
  - intros Hc; destruct (tick_nothing_persisted s Hc) as [H4 H5].
    split; congruence.
  - intros Hc.
    destruct (tick_complete_effects s Hc) as (_ & _ & Hs & _ & _ & _ & He).
    split; [|exact Hs].
    unfold eeprom_read in *; rewrite H2; exact He.
Qed.

(** The bench an hour after start-up, with the stored bias of the
    defaults: the update that runs the action of Complete sees a drift
    on the third axis. *)
Lemma calibration_update_composes_witness :
  let s :=
    set_calib_state CALIB_COMPLETE
      (delay_ms 3600000 (booted bench_feed CALIB_IDLE true)) in
  status (calib (calibration_update s)) = CALIB_NEEDS_RECALIBRATION
  /\ status
       (calib_of_bytes
          (eeprom_read CALIB_EEPROM_ADDR CALIB_EEPROM_SIZE
             (calibration_update s))) = CALIB_VALID.
Proof.
  intros s.
  destruct (calibration_update_composes s) as (_ & _ & _ & _ & H).
  destruct (H eq_refl) as [He Hs].
  split; [vm_compute; reflexivity|].
  rewrite He, calib_of_bytes_of_calib; [exact Hs|vm_compute; reflexivity].
Defined.

